(** * The library selector widget of the H5P editor

    A shallow embedding of [scripts/h5peditor-library.js]
    ([ns.Library], the form field that lets an author pick a content-type
    library for a sub-field, loads its schema and pastes sub-content),
    together with the properties of it that the specification states.

    The widget is JavaScript: its parameter object is a shared, mutable
    object, so objects live in a store ([heap]) and are named by
    references ([loc]); a method is a computation over the whole world
    that either returns or throws, and a throw keeps the mutations made
    before it ([outcome]).  Collaborators that are not part of the file
    (the schema loader, the form renderer, confirmation dialogs, the
    clipboard, registered callbacks, jQuery handles) are modelled by what
    the widget hands to them and by what they hand back. *)

From stdpp Require Import base strings gmap list fin_maps pretty.
From Stdlib Require Import ZArith Ascii.

(** ** JavaScript values and the object store *)

Abbreviation loc := positive.

Inductive value : Type :=
  | VUndef
  | VNull
  | VBool (b : bool)
  | VNum (n : Z)
  | VStr (s : string)
  | VRef (l : loc).

#[global] Instance value_eq_dec : EqDecision value.
Proof. solve_decision. Defined.

(** An object is its table of own enumerable properties. *)
Abbreviation obj := (gmap string value).
Abbreviation heap := (gmap loc (gmap string value)).

(** [if (v)], [v && ...], [!v]. *)
Definition truthy (v : value) : bool :=
  match v with
  | VUndef | VNull => false
  | VBool b => b
  | VNum n => negb (n =? 0)%Z
  | VStr s => negb (String.eqb s "")
  | VRef _ => true
  end.

(** [a === b]: same type and same value, objects by reference. *)
Definition strict_eq (a b : value) : bool := bool_decide (a = b).

Definition obj_at (h : heap) (l : loc) : obj := default ∅ (h !! l).

(** ** The data of the widget *)

(** A library's metadata settings, as [findLibraryMetadataSettings]
    returns them. *)
Record MetadataSettings : Type := {
  disable : bool;
  disableExtraTitleField : bool
}.

(** One entry of the list the library registry delivers. *)
Record Descriptor : Type := {
  uberName : string;
  title : value;
  restricted : value;
  metadata : option MetadataSettings
}.

(** A child field instance built by the form renderer: what its
    [validate()] returns, whether it has an [$item], and whether it is
    still rendered ([remove()] has not been called on it). *)
Record Child : Type := {
  c_valid : value;
  c_item : bool;
  c_rendered : bool
}.

(** [ns.MetadataForm]: its child fields, whether it shows the extra
    title field, and the child whose wrapper received its button. *)
Record MetadataForm : Type := {
  mf_children : option (list Child);
  mf_titleField : bool;
  mf_buttonAt : option nat
}.

(** An [<option>] of the selection control. *)
Record OptionEl : Type := {
  o_value : string;
  o_text : value;
  o_selected : bool
}.

(** [this.$select]: its options, what [.val()] returns, and whether it is
    hidden. *)
Record Select : Type := {
  options : list OptionEl;
  val : value;
  hidden : bool
}.

(** A jQuery handle on a button: the empty set (the selector matched
    nothing) or the button with its [disabled] class and visibility. *)
Inductive jq : Type :=
  | JqNone
  | JqEl (disabled : bool) (shown : bool).

(** The rendered part of the widget. [copyButton] and [pasteButton] are
    [None] when the field was never assigned ([undefined]). *)
Record Dom : Type := {
  select : Select;
  wrapperClass : string;
  wrapperLoading : bool;
  copyButton : option jq;
  pasteButton : option jq;
  labelHidden : bool;
  copyPasteHidden : bool;
  detached : bool
}.

Abbreviation callback := nat.

(** The fields of [this]. *)
Record Selector : Type := {
  self_id : nat;
  params : loc;
  optional : bool;
  changes : list callback;
  libraries : option (list Descriptor);
  currentLibrary : option string;
  libraryName : value;
  runChangeCallback : bool;
  children : option (list Child);
  metadataForm : option MetadataForm;
  passReadies : bool;
  readies : option (list callback);
  metadataFormWrapper : bool;
  metadataButton : bool;
  ui : Dom
}.

(** An entry of the ancestor's common-fields table: the selectors that
    share the field ([parents]), each with its setter ([setValues]). *)
Abbreviation CommonField := (list (nat * callback)).

(** What a confirmation dialog runs when it is confirmed: the paste of
    [replaceContent], or a function given by a caller. *)
Inductive cont : Type :=
  | KPaste (clip : value)
  | KCall (next : callback).

(** The widget and everything around it that its methods read or write:
    the object store, [window.localStorage], the host clipboard, the
    editor's [ns.enableMetadata] policy, the console, the schema requests
    in flight, the dialogs on screen, and what the widget has called on
    its collaborators. *)
Record World : Type := {
  sel : Selector;
  hp : heap;
  localStorage : bool;
  clipboard : value;
  enableMetadata : string -> bool;
  console : list string;
  fetches : list (string * value);
  changeDialog : bool;
  replaceDialogs : list cont;
  fired : list (callback * option Descriptor);
  uuids : nat;
  commonFields : list (string * list (string * CommonField));
  removedShared : list (string * string);
  parentReadies : list callback;
  leaked : option (option MetadataSettings);
  clipboardified : list loc;
  invoked : list callback;
  visited : list nat;
  notices : list string
}.

(** ** Computations that return or throw *)

Inductive outcome (A : Type) : Type :=
  | Ok (a : A) (w : World)
  | Throw (e : string) (w : World).
Arguments Ok {A} a w.
Arguments Throw {A} e w.

Definition M (A : Type) : Type := World -> outcome A.

Definition world_of {A} (r : outcome A) : World :=
  match r with Ok _ w => w | Throw _ w => w end.

#[global] Instance M_ret : MRet M := fun A a w => Ok a w.
#[global] Instance M_bind : MBind M := fun A B k m w =>
  match m w with
  | Ok a w' => k a w'
  | Throw e w' => Throw e w'
  end.

Definition throw {A} (e : string) : M A := fun w => Throw e w.
Definition gets {A} (f : World -> A) : M A := fun w => Ok (f w) w.
Definition modify (f : World -> World) : M unit := fun w => Ok tt (f w).

Definition when (b : bool) (m : M unit) : M unit :=
  if b then m else mret tt.

(** [for (...) body] over the elements of a list, in order. *)
Fixpoint for_each {A} (l : list A) (body : A -> M unit) : M unit :=
  match l with
  | [] => mret tt
  | x :: l' => body x ;; for_each l' body
  end.

(** ** Field updates *)

Definition set_select (x : Select) (d : Dom) : Dom :=
  {| select := x; wrapperClass := wrapperClass d;
     wrapperLoading := wrapperLoading d; copyButton := copyButton d;
     pasteButton := pasteButton d; labelHidden := labelHidden d;
     copyPasteHidden := copyPasteHidden d; detached := detached d |}.

Definition set_wrapperClass (x : string) (d : Dom) : Dom :=
  {| select := select d; wrapperClass := x;
     wrapperLoading := wrapperLoading d; copyButton := copyButton d;
     pasteButton := pasteButton d; labelHidden := labelHidden d;
     copyPasteHidden := copyPasteHidden d; detached := detached d |}.

Definition set_wrapperLoading (x : bool) (d : Dom) : Dom :=
  {| select := select d; wrapperClass := wrapperClass d;
     wrapperLoading := x; copyButton := copyButton d;
     pasteButton := pasteButton d; labelHidden := labelHidden d;
     copyPasteHidden := copyPasteHidden d; detached := detached d |}.

Definition set_copyButton (x : option jq) (d : Dom) : Dom :=
  {| select := select d; wrapperClass := wrapperClass d;
     wrapperLoading := wrapperLoading d; copyButton := x;
     pasteButton := pasteButton d; labelHidden := labelHidden d;
     copyPasteHidden := copyPasteHidden d; detached := detached d |}.

Definition set_pasteButton (x : option jq) (d : Dom) : Dom :=
  {| select := select d; wrapperClass := wrapperClass d;
     wrapperLoading := wrapperLoading d; copyButton := copyButton d;
     pasteButton := x; labelHidden := labelHidden d;
     copyPasteHidden := copyPasteHidden d; detached := detached d |}.

Definition set_labelHidden (x : bool) (d : Dom) : Dom :=
  {| select := select d; wrapperClass := wrapperClass d;
     wrapperLoading := wrapperLoading d; copyButton := copyButton d;
     pasteButton := pasteButton d; labelHidden := x;
     copyPasteHidden := copyPasteHidden d; detached := detached d |}.

Definition set_copyPasteHidden (x : bool) (d : Dom) : Dom :=
  {| select := select d; wrapperClass := wrapperClass d;
     wrapperLoading := wrapperLoading d; copyButton := copyButton d;
     pasteButton := pasteButton d; labelHidden := labelHidden d;
     copyPasteHidden := x; detached := detached d |}.

Definition set_detached (x : bool) (d : Dom) : Dom :=
  {| select := select d; wrapperClass := wrapperClass d;
     wrapperLoading := wrapperLoading d; copyButton := copyButton d;
     pasteButton := pasteButton d; labelHidden := labelHidden d;
     copyPasteHidden := copyPasteHidden d; detached := x |}.

Definition set_changes (x : list callback) (s : Selector) : Selector :=
  {| self_id := self_id s; params := params s; optional := optional s;
     changes := x; libraries := libraries s;
     currentLibrary := currentLibrary s; libraryName := libraryName s;
     runChangeCallback := runChangeCallback s; children := children s;
     metadataForm := metadataForm s; passReadies := passReadies s;
     readies := readies s; metadataFormWrapper := metadataFormWrapper s;
     metadataButton := metadataButton s; ui := ui s |}.

Definition set_libraries (x : option (list Descriptor))
  (s : Selector) : Selector :=
  {| self_id := self_id s; params := params s; optional := optional s;
     changes := changes s; libraries := x;
     currentLibrary := currentLibrary s; libraryName := libraryName s;
     runChangeCallback := runChangeCallback s; children := children s;
     metadataForm := metadataForm s; passReadies := passReadies s;
     readies := readies s; metadataFormWrapper := metadataFormWrapper s;
     metadataButton := metadataButton s; ui := ui s |}.

Definition set_currentLibrary (x : option string) (s : Selector) : Selector :=
  {| self_id := self_id s; params := params s; optional := optional s;
     changes := changes s; libraries := libraries s; currentLibrary := x;
     libraryName := libraryName s;
     runChangeCallback := runChangeCallback s; children := children s;
     metadataForm := metadataForm s; passReadies := passReadies s;
     readies := readies s; metadataFormWrapper := metadataFormWrapper s;
     metadataButton := metadataButton s; ui := ui s |}.

Definition set_runChangeCallback (x : bool) (s : Selector) : Selector :=
  {| self_id := self_id s; params := params s; optional := optional s;
     changes := changes s; libraries := libraries s;
     currentLibrary := currentLibrary s; libraryName := libraryName s;
     runChangeCallback := x; children := children s;
     metadataForm := metadataForm s; passReadies := passReadies s;
     readies := readies s; metadataFormWrapper := metadataFormWrapper s;
     metadataButton := metadataButton s; ui := ui s |}.

Definition set_children (x : option (list Child)) (s : Selector) : Selector :=
  {| self_id := self_id s; params := params s; optional := optional s;
     changes := changes s; libraries := libraries s;
     currentLibrary := currentLibrary s; libraryName := libraryName s;
     runChangeCallback := runChangeCallback s; children := x;
     metadataForm := metadataForm s; passReadies := passReadies s;
     readies := readies s; metadataFormWrapper := metadataFormWrapper s;
     metadataButton := metadataButton s; ui := ui s |}.

Definition set_metadataForm (x : option MetadataForm)
  (s : Selector) : Selector :=
  {| self_id := self_id s; params := params s; optional := optional s;
     changes := changes s; libraries := libraries s;
     currentLibrary := currentLibrary s; libraryName := libraryName s;
     runChangeCallback := runChangeCallback s; children := children s;
     metadataForm := x; passReadies := passReadies s; readies := readies s;
     metadataFormWrapper := metadataFormWrapper s;
     metadataButton := metadataButton s; ui := ui s |}.

Definition set_passReadies (x : bool) (s : Selector) : Selector :=
  {| self_id := self_id s; params := params s; optional := optional s;
     changes := changes s; libraries := libraries s;
     currentLibrary := currentLibrary s; libraryName := libraryName s;
     runChangeCallback := runChangeCallback s; children := children s;
     metadataForm := metadataForm s; passReadies := x;
     readies := readies s; metadataFormWrapper := metadataFormWrapper s;
     metadataButton := metadataButton s; ui := ui s |}.

Definition set_readies (x : option (list callback))
  (s : Selector) : Selector :=
  {| self_id := self_id s; params := params s; optional := optional s;
     changes := changes s; libraries := libraries s;
     currentLibrary := currentLibrary s; libraryName := libraryName s;
     runChangeCallback := runChangeCallback s; children := children s;
     metadataForm := metadataForm s; passReadies := passReadies s;
     readies := x; metadataFormWrapper := metadataFormWrapper s;
     metadataButton := metadataButton s; ui := ui s |}.

Definition set_metadataFormWrapper (x : bool) (s : Selector) : Selector :=
  {| self_id := self_id s; params := params s; optional := optional s;
     changes := changes s; libraries := libraries s;
     currentLibrary := currentLibrary s; libraryName := libraryName s;
     runChangeCallback := runChangeCallback s; children := children s;
     metadataForm := metadataForm s; passReadies := passReadies s;
     readies := readies s; metadataFormWrapper := x;
     metadataButton := metadataButton s; ui := ui s |}.

Definition set_metadataButton (x : bool) (s : Selector) : Selector :=
  {| self_id := self_id s; params := params s; optional := optional s;
     changes := changes s; libraries := libraries s;
     currentLibrary := currentLibrary s; libraryName := libraryName s;
     runChangeCallback := runChangeCallback s; children := children s;
     metadataForm := metadataForm s; passReadies := passReadies s;
     readies := readies s; metadataFormWrapper := metadataFormWrapper s;
     metadataButton := x; ui := ui s |}.

Definition upd_ui (f : Dom -> Dom) (s : Selector) : Selector :=
  {| self_id := self_id s; params := params s; optional := optional s;
     changes := changes s; libraries := libraries s;
     currentLibrary := currentLibrary s; libraryName := libraryName s;
     runChangeCallback := runChangeCallback s; children := children s;
     metadataForm := metadataForm s; passReadies := passReadies s;
     readies := readies s; metadataFormWrapper := metadataFormWrapper s;
     metadataButton := metadataButton s; ui := f (ui s) |}.

Definition upd_sel (f : Selector -> Selector) (w : World) : World :=
  {| sel := f (sel w); hp := hp w; localStorage := localStorage w;
     clipboard := clipboard w; enableMetadata := enableMetadata w;
     console := console w; fetches := fetches w;
     changeDialog := changeDialog w; replaceDialogs := replaceDialogs w;
     fired := fired w; uuids := uuids w; commonFields := commonFields w;
     removedShared := removedShared w; parentReadies := parentReadies w;
     leaked := leaked w; clipboardified := clipboardified w;
     invoked := invoked w; visited := visited w; notices := notices w |}.

Definition upd_hp (f : heap -> heap) (w : World) : World :=
  {| sel := sel w; hp := f (hp w); localStorage := localStorage w;
     clipboard := clipboard w; enableMetadata := enableMetadata w;
     console := console w; fetches := fetches w;
     changeDialog := changeDialog w; replaceDialogs := replaceDialogs w;
     fired := fired w; uuids := uuids w; commonFields := commonFields w;
     removedShared := removedShared w; parentReadies := parentReadies w;
     leaked := leaked w; clipboardified := clipboardified w;
     invoked := invoked w; visited := visited w; notices := notices w |}.

Definition set_clipboard (x : value) (w : World) : World :=
  {| sel := sel w; hp := hp w; localStorage := localStorage w;
     clipboard := x; enableMetadata := enableMetadata w;
     console := console w; fetches := fetches w;
     changeDialog := changeDialog w; replaceDialogs := replaceDialogs w;
     fired := fired w; uuids := uuids w; commonFields := commonFields w;
     removedShared := removedShared w; parentReadies := parentReadies w;
     leaked := leaked w; clipboardified := clipboardified w;
     invoked := invoked w; visited := visited w; notices := notices w |}.

Definition set_console (x : list string) (w : World) : World :=
  {| sel := sel w; hp := hp w; localStorage := localStorage w;
     clipboard := clipboard w; enableMetadata := enableMetadata w;
     console := x; fetches := fetches w; changeDialog := changeDialog w;
     replaceDialogs := replaceDialogs w; fired := fired w;
     uuids := uuids w; commonFields := commonFields w;
     removedShared := removedShared w; parentReadies := parentReadies w;
     leaked := leaked w; clipboardified := clipboardified w;
     invoked := invoked w; visited := visited w; notices := notices w |}.

Definition set_fetches (x : list (string * value)) (w : World) : World :=
  {| sel := sel w; hp := hp w; localStorage := localStorage w;
     clipboard := clipboard w; enableMetadata := enableMetadata w;
     console := console w; fetches := x; changeDialog := changeDialog w;
     replaceDialogs := replaceDialogs w; fired := fired w;
     uuids := uuids w; commonFields := commonFields w;
     removedShared := removedShared w; parentReadies := parentReadies w;
     leaked := leaked w; clipboardified := clipboardified w;
     invoked := invoked w; visited := visited w; notices := notices w |}.

Definition set_changeDialog (x : bool) (w : World) : World :=
  {| sel := sel w; hp := hp w; localStorage := localStorage w;
     clipboard := clipboard w; enableMetadata := enableMetadata w;
     console := console w; fetches := fetches w; changeDialog := x;
     replaceDialogs := replaceDialogs w; fired := fired w;
     uuids := uuids w; commonFields := commonFields w;
     removedShared := removedShared w; parentReadies := parentReadies w;
     leaked := leaked w; clipboardified := clipboardified w;
     invoked := invoked w; visited := visited w; notices := notices w |}.

Definition set_replaceDialogs (x : list cont) (w : World) : World :=
  {| sel := sel w; hp := hp w; localStorage := localStorage w;
     clipboard := clipboard w; enableMetadata := enableMetadata w;
     console := console w; fetches := fetches w;
     changeDialog := changeDialog w; replaceDialogs := x; fired := fired w;
     uuids := uuids w; commonFields := commonFields w;
     removedShared := removedShared w; parentReadies := parentReadies w;
     leaked := leaked w; clipboardified := clipboardified w;
     invoked := invoked w; visited := visited w; notices := notices w |}.

Definition set_fired (x : list (callback * option Descriptor))
  (w : World) : World :=
  {| sel := sel w; hp := hp w; localStorage := localStorage w;
     clipboard := clipboard w; enableMetadata := enableMetadata w;
     console := console w; fetches := fetches w;
     changeDialog := changeDialog w; replaceDialogs := replaceDialogs w;
     fired := x; uuids := uuids w; commonFields := commonFields w;
     removedShared := removedShared w; parentReadies := parentReadies w;
     leaked := leaked w; clipboardified := clipboardified w;
     invoked := invoked w; visited := visited w; notices := notices w |}.

Definition set_uuids (x : nat) (w : World) : World :=
  {| sel := sel w; hp := hp w; localStorage := localStorage w;
     clipboard := clipboard w; enableMetadata := enableMetadata w;
     console := console w; fetches := fetches w;
     changeDialog := changeDialog w; replaceDialogs := replaceDialogs w;
     fired := fired w; uuids := x; commonFields := commonFields w;
     removedShared := removedShared w; parentReadies := parentReadies w;
     leaked := leaked w; clipboardified := clipboardified w;
     invoked := invoked w; visited := visited w; notices := notices w |}.

Definition set_commonFields (x : list (string * list (string * CommonField)))
  (w : World) : World :=
  {| sel := sel w; hp := hp w; localStorage := localStorage w;
     clipboard := clipboard w; enableMetadata := enableMetadata w;
     console := console w; fetches := fetches w;
     changeDialog := changeDialog w; replaceDialogs := replaceDialogs w;
     fired := fired w; uuids := uuids w; commonFields := x;
     removedShared := removedShared w; parentReadies := parentReadies w;
     leaked := leaked w; clipboardified := clipboardified w;
     invoked := invoked w; visited := visited w; notices := notices w |}.

Definition set_removedShared (x : list (string * string))
  (w : World) : World :=
  {| sel := sel w; hp := hp w; localStorage := localStorage w;
     clipboard := clipboard w; enableMetadata := enableMetadata w;
     console := console w; fetches := fetches w;
     changeDialog := changeDialog w; replaceDialogs := replaceDialogs w;
     fired := fired w; uuids := uuids w; commonFields := commonFields w;
     removedShared := x; parentReadies := parentReadies w;
     leaked := leaked w; clipboardified := clipboardified w;
     invoked := invoked w; visited := visited w; notices := notices w |}.

Definition set_parentReadies (x : list callback) (w : World) : World :=
  {| sel := sel w; hp := hp w; localStorage := localStorage w;
     clipboard := clipboard w; enableMetadata := enableMetadata w;
     console := console w; fetches := fetches w;
     changeDialog := changeDialog w; replaceDialogs := replaceDialogs w;
     fired := fired w; uuids := uuids w; commonFields := commonFields w;
     removedShared := removedShared w; parentReadies := x;
     leaked := leaked w; clipboardified := clipboardified w;
     invoked := invoked w; visited := visited w; notices := notices w |}.

Definition set_leaked (x : option (option MetadataSettings))
  (w : World) : World :=
  {| sel := sel w; hp := hp w; localStorage := localStorage w;
     clipboard := clipboard w; enableMetadata := enableMetadata w;
     console := console w; fetches := fetches w;
     changeDialog := changeDialog w; replaceDialogs := replaceDialogs w;
     fired := fired w; uuids := uuids w; commonFields := commonFields w;
     removedShared := removedShared w; parentReadies := parentReadies w;
     leaked := x; clipboardified := clipboardified w; invoked := invoked w;
     visited := visited w; notices := notices w |}.

Definition set_clipboardified (x : list loc) (w : World) : World :=
  {| sel := sel w; hp := hp w; localStorage := localStorage w;
     clipboard := clipboard w; enableMetadata := enableMetadata w;
     console := console w; fetches := fetches w;
     changeDialog := changeDialog w; replaceDialogs := replaceDialogs w;
     fired := fired w; uuids := uuids w; commonFields := commonFields w;
     removedShared := removedShared w; parentReadies := parentReadies w;
     leaked := leaked w; clipboardified := x; invoked := invoked w;
     visited := visited w; notices := notices w |}.

Definition set_invoked (x : list callback) (w : World) : World :=
  {| sel := sel w; hp := hp w; localStorage := localStorage w;
     clipboard := clipboard w; enableMetadata := enableMetadata w;
     console := console w; fetches := fetches w;
     changeDialog := changeDialog w; replaceDialogs := replaceDialogs w;
     fired := fired w; uuids := uuids w; commonFields := commonFields w;
     removedShared := removedShared w; parentReadies := parentReadies w;
     leaked := leaked w; clipboardified := clipboardified w; invoked := x;
     visited := visited w; notices := notices w |}.

Definition set_visited (x : list nat) (w : World) : World :=
  {| sel := sel w; hp := hp w; localStorage := localStorage w;
     clipboard := clipboard w; enableMetadata := enableMetadata w;
     console := console w; fetches := fetches w;
     changeDialog := changeDialog w; replaceDialogs := replaceDialogs w;
     fired := fired w; uuids := uuids w; commonFields := commonFields w;
     removedShared := removedShared w; parentReadies := parentReadies w;
     leaked := leaked w; clipboardified := clipboardified w;
     invoked := invoked w; visited := x; notices := notices w |}.

Definition set_notices (x : list string) (w : World) : World :=
  {| sel := sel w; hp := hp w; localStorage := localStorage w;
     clipboard := clipboard w; enableMetadata := enableMetadata w;
     console := console w; fetches := fetches w;
     changeDialog := changeDialog w; replaceDialogs := replaceDialogs w;
     fired := fired w; uuids := uuids w; commonFields := commonFields w;
     removedShared := removedShared w; parentReadies := parentReadies w;
     leaked := leaked w; clipboardified := clipboardified w;
     invoked := invoked w; visited := visited w; notices := x |}.

(** ** Reading and writing properties *)

(** [v[k]] as a pure read: [undefined] for a missing key and for a
    primitive. *)
Definition prop_of (h : heap) (v : value) (k : string) : value :=
  match v with
  | VRef l => default VUndef (obj_at h l !! k)
  | _ => VUndef
  end.

(** [v.k]: reading a property of [undefined] or [null] throws. *)
Definition getProp (v : value) (k : string) : M value := fun w =>
  match v with
  | VUndef | VNull => Throw "TypeError" w
  | _ => Ok (prop_of (hp w) v k) w
  end.

(** The store after [o.k = v] and after [delete o.k], for the object
    [o] at [l]. *)
Definition store_set (l : loc) (k : string) (v : value) (h : heap) : heap :=
  <[l := <[k := v]> (obj_at h l)]> h.

Definition store_delete (l : loc) (k : string) (h : heap) : heap :=
  <[l := delete k (obj_at h l)]> h.

(** [o.k = v] on the object at [l]. *)
Definition setProp (l : loc) (k : string) (v : value) : M unit :=
  modify (upd_hp (store_set l k v)).

(** [delete o.k] on the object at [l]. *)
Definition deleteProp (l : loc) (k : string) : M unit :=
  modify (upd_hp (store_delete l k)).

(** [{}] or an object literal: a new object at an unused reference. *)
Definition allocObj (o : obj) : M loc := fun w =>
  let l := fresh (dom (hp w)) in Ok l (upd_hp (fun h => <[l := o]> h) w).

(** [for (k in v) if (v.hasOwnProperty(k)) body(k)]: the keys present
    when the loop starts are visited, a key deleted before its turn is
    skipped; nothing is visited for [undefined] and [null].  Every key of
    the table is an own property.  The order of visit is not the
    insertion order of JavaScript; the two loops of the widget that use
    it give the same object in any order. *)
Definition forIn (v : value) (body : string -> M unit) : M unit :=
  match v with
  | VRef l =>
      ks ← gets (fun w => (map_to_list (obj_at (hp w) l)).*1);
      for_each ks (fun k =>
        present ← gets (fun w => bool_decide (is_Some (obj_at (hp w) l !! k)));
        when present (body k))
  | _ => mret tt
  end.

(** [this.libraries.length], [this.libraries[i]]: throws while the list
    is [undefined]. *)
Definition theLibraries : M (list Descriptor) := fun w =>
  match libraries (sel w) with
  | Some libs => Ok libs w
  | None => Throw "TypeError" w
  end.

(** ** Strings *)

Definition lower_ascii (c : ascii) : ascii :=
  let n := nat_of_ascii c in
  if Nat.leb 65 n && Nat.leb n 90 then ascii_of_nat (n + 32) else c.

(** [s.toLowerCase()], on ASCII letters. *)
Fixpoint toLowerCase (s : string) : string :=
  match s with
  | EmptyString => EmptyString
  | String c r => String (lower_ascii c) (toLowerCase r)
  end.

(** [s.split(sep)[0]]: the part of [s] before the first [sep]. *)
Fixpoint before (sep : ascii) (s : string) : string :=
  match s with
  | EmptyString => EmptyString
  | String c r => if Ascii.eqb c sep then EmptyString
                  else String c (before sep r)
  end.

(** [s.replace(a, b)] for single characters: only the first [a]. *)
Fixpoint replace_first (a b : ascii) (s : string) : string :=
  match s with
  | EmptyString => EmptyString
  | String c r => if Ascii.eqb c a then String b r
                  else String c (replace_first a b r)
  end.

(** The class [loadLibrary] gives the wrapper while a library loads. *)
Definition editorClass (libraryName : string) : string :=
  "libwrap " +:+
  replace_first "." "-" (toLowerCase (before " " libraryName)) +:+
  "-editor".

(** ** Collaborators *)

(** Modelled from the spec: [ns.removeChildren], which is not in this
    file; it "tears down existing child field instances": [remove()] is
    called on every child of the list. *)
Definition ns_removeChildren (cs : list Child) : list Child :=
  map (fun c => {| c_valid := c_valid c; c_item := c_item c;
                   c_rendered := false |}) cs.

(** Modelled from the spec: [ns.loadLibrary], the schema loader; it
    "fetches the schema asynchronously", so the request (with the
    [preserveParams] its callback has captured) stays in flight until the
    schema arrives. *)
Definition ns_loadLibrary (libraryName : string) (preserveParams : value)
  : M unit :=
  modify (fun w => set_fetches (fetches w ++ [(libraryName, preserveParams)]) w).

(** Modelled from the spec: [ns.processSemanticsChunk], the form
    renderer; it "constructs and attaches child field instances",
    "children appended to [parentContext.children]".  [rendered] are the
    instances it builds from the schema. *)
Definition ns_processSemanticsChunk (rendered : list Child) : M unit :=
  modify (upd_sel (fun s =>
    set_children (Some (default [] (children s) ++ rendered)) s)).

(** [H5P.createUUID()] of the host: the [n]-th identifier it hands out. *)
Definition uuid_of (n : nat) : value := VStr ("uuid-" +:+ pretty n).

Definition createUUID : M value :=
  n ← gets uuids;
  modify (set_uuids (S n));;
  mret (uuid_of n).

(** [console.error(msg)]. *)
Definition console_error (msg : string) : M unit :=
  modify (fun w => set_console (console w ++ [msg]) w).

(** ** The selection control and the buttons *)

(** [ns.createOption(value, text, selected)] as the element it
    describes. *)
Definition createOption (v : string) (text : value) (selected : bool)
  : OptionEl :=
  {| o_value := v; o_text := text; o_selected := selected |}.

(** What [.val()] answers after [.html(options)]: the last option marked
    selected, else the first option. *)
Definition shown_value (os : list OptionEl) : value :=
  match last (filter (fun o => o_selected o = true) os) with
  | Some o => VStr (o_value o)
  | None => match os with
            | o :: _ => VStr (o_value o)
            | [] => VNull
            end
  end.

(** [$select.html(options)]. *)
Definition select_html (os : list OptionEl) (sl : Select) : Select :=
  {| options := os; val := shown_value os; hidden := hidden sl |}.

(** [$select.val(v)]: the option with that value becomes the selected
    one; with no such option nothing is selected. *)
Definition select_setVal (v : value) (sl : Select) : Select :=
  {| options := options sl;
     val := match v with
            | VStr s =>
                if existsb (fun o => String.eqb (o_value o) s) (options sl)
                then VStr s else VNull
            | _ => VNull
            end;
     hidden := hidden sl |}.

Definition select_hide (sl : Select) : Select :=
  {| options := options sl; val := val sl; hidden := true |}.

(** [.toggleClass('disabled', state)] and [.hide()] on a handle; on the
    empty set they do nothing. *)
Definition jq_toggleDisabled (state : bool) (j : jq) : jq :=
  match j with
  | JqNone => JqNone
  | JqEl _ sh => JqEl state sh
  end.

Definition jq_hide (j : jq) : jq :=
  match j with
  | JqNone => JqNone
  | JqEl d _ => JqEl d false
  end.

(** [this.$copyButton.toggleClass('disabled', state)]: a call on
    [undefined] throws. *)
Definition copyButton_toggle (state : bool) : M unit := fun w =>
  match copyButton (ui (sel w)) with
  | Some j =>
      Ok tt (upd_sel (upd_ui (set_copyButton
                                (Some (jq_toggleDisabled state j)))) w)
  | None => Throw "TypeError" w
  end.

Definition pasteButton_toggle (state : bool) : M unit := fun w =>
  match pasteButton (ui (sel w)) with
  | Some j =>
      Ok tt (upd_sel (upd_ui (set_pasteButton
                                (Some (jq_toggleDisabled state j)))) w)
  | None => Throw "TypeError" w
  end.

(** ** [removeChildren] *)

(** The inner loop of [removeChildren] over [field.parents]: the entry
    of this selector is spliced out of [parents] and [setValues]; the
    index then moves on, so the entry that slid into its place is not
    looked at. *)
Fixpoint splice_self (me : nat) (holders : CommonField) : CommonField :=
  match holders with
  | [] => []
  | h :: rest =>
      if Nat.eqb h.1 me then
        match rest with
        | [] => []
        | h' :: rest' => h' :: splice_self me rest'
        end
      else h :: splice_self me rest
  end.

(** One [libraryPath] of the ancestor's table: when its library is the
    current one, every field held by a single parent has its shared
    instance removed and the whole path is then deleted; otherwise this
    selector is spliced out of each field.  The answer is the fields
    whose instance was removed and what remains of the entry. *)
Definition release_path (me : nat) (cur : option string)
  (entry : string * list (string * CommonField))
  : list (string * string) * option (string * list (string * CommonField)) :=
  if bool_decide (Some (before "/" entry.1) = cur) then
    let single := filter (fun nf => length nf.2 = 1) entry.2 in
    (map (fun nf => (entry.1, nf.1)) single,
     match single with
     | [] => Some (entry.1, map (fun nf => (nf.1, splice_self me nf.2)) entry.2)
     | _ :: _ => None
     end)
  else ([], Some entry).

Definition release_commonFields : M unit :=
  modify (fun w =>
    let rs := map (release_path (self_id (sel w)) (currentLibrary (sel w)))
                  (commonFields w) in
    set_removedShared (removedShared w ++ concat (map fst rs))
      (set_commonFields (omap snd rs) w)).

Definition removeChildren : M unit :=
  s ← gets sel;
  match metadataForm s with
  | Some mf =>
      match mf_children mf with
      | Some cs =>
          modify (upd_sel (set_metadataForm (Some
            {| mf_children := Some (ns_removeChildren cs);
               mf_titleField := mf_titleField mf;
               mf_buttonAt := mf_buttonAt mf |})))
      | None => mret tt
      end
  | None => mret tt
  end;;
  match children s with
  | None => mret tt
  | Some cs =>
      if bool_decide (currentLibrary s = Some "-") then mret tt
      else
        when (metadataFormWrapper s)
          (modify (upd_sel (set_metadataFormWrapper false));;
           if metadataButton s
           then modify (upd_sel (set_metadataButton false))
           else throw "TypeError");;
        release_commonFields;;
        modify (upd_sel (set_children (Some (ns_removeChildren cs))))
  end.

(** ** [canPaste] *)

(** The loop of [canPaste], from index [i] on: [libs] is the rest of
    [this.libraries]. *)
Fixpoint canPaste_from (clip : value) (libs : list Descriptor) : M bool :=
  match libs with
  | [] => mret false
  | d :: rest =>
      g ← getProp clip "generic";
      lib ← getProp g "library";
      if strict_eq (VStr (uberName d)) lib then mret true
      else canPaste_from clip rest
  end.

Definition canPaste (clip : value) : M bool :=
  if truthy clip then
    g ← getProp clip "generic";
    if truthy g then
      libs ← theLibraries;
      canPaste_from clip libs
    else mret false
  else mret false.

(** ** [change] *)

(** The lookup loop of [change]: the first descriptor whose [uberName]
    is the current library, [undefined] when there is none. *)
Fixpoint find_current (cur : option string) (libs : list Descriptor)
  : option Descriptor :=
  match libs with
  | [] => None
  | d :: rest =>
      if bool_decide (Some (uberName d) = cur) then Some d
      else find_current cur rest
  end.

(** [this.changes[i](library)]: the callback is a listener outside the
    widget; the call is recorded. *)
Definition fire (library : option Descriptor) (c : callback) : M unit :=
  modify (fun w => set_fired (fired w ++ [(c, library)]) w).

Definition change (cb : option callback) : M unit :=
  match cb with
  | Some c => modify (upd_sel (fun s => set_changes (changes s ++ [c]) s))
  | None =>
      libs ← theLibraries;
      cur ← gets (fun w => currentLibrary (sel w));
      cbs ← gets (fun w => changes (sel w));
      for_each cbs (fire (find_current cur libs))
  end.

(** ** [findLibraryMetadataSettings] *)

(** Its loop: a descriptor whose [uberName] is [this.libraryName] has its
    [metadata] stored in [library], a name the function does not
    declare, and the loop stops. *)
Fixpoint findMetadata_from (libs : list Descriptor) : M unit :=
  match libs with
  | [] => mret tt
  | d :: rest =>
      ln ← gets (fun w => libraryName (sel w));
      if strict_eq (VStr (uberName d)) ln
      then modify (set_leaked (Some (metadata d)))
      else findMetadata_from rest
  end.

Definition findLibraryMetadataSettings (name : string)
  : M MetadataSettings :=
  let metadata : option MetadataSettings := None in
  libs ← theLibraries;
  findMetadata_from libs;;
  match metadata with
  | Some m => mret m
  | None =>
      enabled ← gets (fun w => enableMetadata w name);
      mret {| disable := negb enabled; disableExtraTitleField := false |}
  end.

(** ** [loadLibrary] *)

(** The position of the first child with an [$item]. *)
Fixpoint first_item (i : nat) (cs : list Child) : option nat :=
  match cs with
  | [] => None
  | c :: rest => if c_item c then Some i else first_item (S i) rest
  end.

(** The callback [loadLibrary] hands to the schema loader, run when the
    schema of [name] arrives, in two parts.  The first records the
    library and prepares the parameter object. *)
Definition adoptLibrary (name : string) (preserveParams : value) : M unit :=
  modify (upd_sel (set_currentLibrary (Some name)));;
  p ← gets (fun w => params (sel w));
  setProp p "library" (VStr name);;
  when (strict_eq preserveParams VUndef || negb (truthy preserveParams))
    (deleteProp p "subContentId";;
     l ← allocObj ∅;
     setProp p "params" (VRef l);;
     l' ← allocObj ∅;
     setProp p "metadata" (VRef l'));;
  sc ← getProp (VRef p) "subContentId";
  when (strict_eq sc VUndef)
    (u ← createUUID; setProp p "subContentId" u);;
  md ← getProp (VRef p) "metadata";
  when (strict_eq md VUndef)
    (l ← allocObj ∅; setProp p "metadata" (VRef l)).

(** The second part builds the form: the metadata form, the child
    fields, the copy button, and the listeners of [change].  [rendered]
    are the child fields the form renderer builds from the schema and
    [mchildren] the children of a new metadata form. *)
Definition buildForm (name : string) (rendered : list Child)
  (mchildren : option (list Child)) : M unit :=
  modify (upd_sel (upd_ui (set_wrapperLoading false)));;
  ms ← findLibraryMetadataSettings name;
  modify (upd_sel (set_metadataForm
    (if negb (disable ms)
     then Some {| mf_children := mchildren;
                  mf_titleField := negb (disableExtraTitleField ms);
                  mf_buttonAt := None |}
     else None)));;
  ns_processSemanticsChunk rendered;;
  ls ← gets localStorage;
  when ls (copyButton_toggle false);;
  s ← gets sel;
  match metadataForm s with
  | Some mf =>
      when (disableExtraTitleField ms)
        (modify (upd_sel (set_metadataForm (Some
           {| mf_children := mf_children mf;
              mf_titleField := mf_titleField mf;
              mf_buttonAt := first_item 0 (default [] (children s)) |}))))
  | None => mret tt
  end;;
  match libraries s with
  | Some _ => change None
  | None => modify (upd_sel (set_runChangeCallback true))
  end.

Definition schemaLoaded (name : string) (preserveParams : value)
  (rendered : list Child) (mchildren : option (list Child)) : M unit :=
  adoptLibrary name preserveParams;;
  buildForm name rendered mchildren.

Definition loadLibrary (libraryName preserveParams : value) : M unit :=
  removeChildren;;
  p ← gets (fun w => params (sel w));
  if strict_eq libraryName (VStr "-") then
    deleteProp p "library";;
    deleteProp p "params";;
    deleteProp p "subContentId";;
    deleteProp p "metadata";;
    modify (upd_sel (upd_ui (set_wrapperClass "libwrap")));;
    copyButton_toggle true
  else
    modify (upd_sel (upd_ui (set_wrapperLoading true)));;
    match libraryName with
    | VStr name =>
        modify (upd_sel (upd_ui (set_wrapperClass (editorClass name))));;
        ns_loadLibrary name preserveParams
    | _ => throw "TypeError"
    end.

(** ** [validate] *)

(** One validation loop: [valid] becomes [false] at every child whose
    [validate()] is [false]. *)
Definition validate_all (cs : list Child) (valid : bool) : bool :=
  fold_left (fun v c => if strict_eq (c_valid c) (VBool false) then false
                        else v) cs valid.

Definition validate : M bool :=
  s ← gets sel;
  let valid := true in
  let valid :=
    match metadataForm s with
    | Some mf =>
        match mf_children mf with
        | Some cs => validate_all cs valid
        | None => valid
        end
    | None => valid
    end in
  let valid :=
    match children s with
    | Some cs => validate_all cs valid
    | None =>
        match libraries s with
        | Some (_ :: _) => false
        | _ => valid
        end
    end in
  mret (if optional s then true else valid).

(** ** [replaceContent] *)

(** The two loops of the paste: "Delete old params (to keep object
    ref)", then "Update params". *)
Definition overwriteParams (clip : value) : M unit :=
  p ← gets (fun w => params (sel w));
  forIn (VRef p) (fun prop => deleteProp p prop);;
  g ← getProp clip "generic";
  forIn g (fun prop =>
    g' ← getProp clip "generic";
    v ← getProp g' prop;
    setProp p prop v).

(** The function [replaceContent] hands to [ns.confirmReplace]. *)
Definition pasteContent (clip : value) : M unit :=
  g ← getProp clip "generic";
  lib ← getProp g "library";
  modify (upd_sel (upd_ui (fun d => set_select (select_setVal lib (select d)) d)));;
  overwriteParams clip;;
  g ← getProp clip "generic";
  lib ← getProp g "library";
  loadLibrary lib (VBool true).

Definition run_cont (k : cont) : M unit :=
  match k with
  | KPaste clip => pasteContent clip
  | KCall next => modify (fun w => set_invoked (invoked w ++ [next]) w)
  end.

(** Modelled from the spec: [ns.confirmReplace(library, top, next)],
    which is not in this file; it "requests confirmation (only if a
    library is already loaded)" and otherwise runs [next] at once, as the
    method [confirmReplace] of the widget does. *)
Definition ns_confirmReplace (library : value) (next : cont) : M unit :=
  if truthy library
  then modify (fun w => set_replaceDialogs (replaceDialogs w ++ [next]) w)
  else run_cont next.

Definition replaceContent (clip : value) : M unit :=
  ok ← canPaste clip;
  if negb ok then console_error "Tried to paste unsupported sub-content"
  else
    p ← gets (fun w => params (sel w));
    library ← getProp (VRef p) "library";
    ns_confirmReplace library (KPaste clip).

(** The method [confirmReplace(next)]. *)
Definition confirmReplace (next : callback) : M unit :=
  p ← gets (fun w => params (sel w));
  library ← getProp (VRef p) "library";
  if truthy library
  then modify (fun w => set_replaceDialogs (replaceDialogs w ++ [KCall next]) w)
  else run_cont (KCall next).

(** ** [librariesLoaded] *)

(** The test of the loop of [librariesLoaded]: the descriptor is offered
    when it is the selected library, or when it has a title and is not
    restricted.  [cur] is [this.params.library]. *)
Definition offered (cur : value) (d : Descriptor) : bool :=
  strict_eq (VStr (uberName d)) cur
  || (negb (strict_eq (title d) VUndef)
      && (strict_eq (restricted d) VUndef || negb (truthy (restricted d)))).

(** The options the loop builds, after the one for "none". *)
Definition render_options (cur : value) (libs : list Descriptor)
  : list OptionEl :=
  createOption "-" (VStr "-") false ::
  map (fun d => createOption (uberName d) (title d)
                  (strict_eq (VStr (uberName d)) cur))
      (filter (fun d => offered cur d = true) libs).

(** [$select.children(':last').val()]. *)
Definition last_option_value (sl : Select) : value :=
  match last (options sl) with
  | Some o => VStr (o_value o)
  | None => VUndef
  end.

Definition option_map_jq (f : jq -> jq) (b : option jq) : option jq :=
  match b with
  | Some j => Some (f j)
  | None => None
  end.

Definition librariesLoaded (libList : list Descriptor) : M unit :=
  modify (upd_sel (set_libraries (Some libList)));;
  p ← gets (fun w => params (sel w));
  cur ← getProp (VRef p) "library";
  modify (upd_sel (upd_ui (fun d =>
    set_select (select_html (render_options cur libList) (select d)) d)));;
  (if bool_decide (length libList = 1) then
     modify (upd_sel (upd_ui (fun d =>
       set_select (select_hide (select d))
         (set_labelHidden true
            (set_copyButton (option_map_jq jq_hide (copyButton d))
               (set_pasteButton (option_map_jq jq_hide (pasteButton d)) d))))));;
     v ← gets (fun w => last_option_value (select (ui (sel w))));
     loadLibrary v (VBool true)
   else
     ls ← gets localStorage;
     when ls
       (clip ← gets clipboard;
        ok ← canPaste clip;
        when ok (pasteButton_toggle false)));;
  run ← gets (fun w => runChangeCallback (sel w));
  when run
    (change None;;
     modify (upd_sel (set_runChangeCallback false)));;
  library ← getProp (VRef p) "library";
  when (negb (strict_eq library VUndef)) (loadLibrary library (VBool true)).

(** ** Events *)

(** The author picks the option of value [v]; the [change] handler of the
    select then runs (after its timeout). *)
Definition selectChanged (v : string) : M unit :=
  modify (upd_sel (upd_ui (fun d =>
    set_select (select_setVal (VStr v) (select d)) d)));;
  p ← gets (fun w => params (sel w));
  library ← getProp (VRef p) "library";
  if truthy library then modify (set_changeDialog true)
  else
    v ← gets (fun w => val (select (ui (sel w))));
    loadLibrary v VUndef.

(** [confirmChangeLibrary] emits [confirmed]. *)
Definition changeConfirmed : M unit :=
  modify (set_changeDialog false);;
  v ← gets (fun w => val (select (ui (sel w))));
  loadLibrary v VUndef.

(** [confirmChangeLibrary] emits [canceled]. *)
Definition changeCanceled : M unit :=
  modify (set_changeDialog false);;
  modify (upd_sel (fun s => upd_ui (fun d =>
    set_select (select_setVal
                  (match currentLibrary s with
                   | Some c => VStr c
                   | None => VUndef
                   end) (select d)) d) s)).

(** The [i]-th dialog opened by a replace is confirmed or dismissed. *)
Definition replaceConfirmed (i : nat) : M unit :=
  ds ← gets replaceDialogs;
  match ds !! i with
  | Some k => modify (set_replaceDialogs (delete i ds));; run_cont k
  | None => mret tt
  end.

Definition replaceDismissed (i : nat) : M unit :=
  modify (fun w => set_replaceDialogs (delete i (replaceDialogs w)) w).

(** The [i]-th schema request in flight is answered. *)
Definition schemaArrived (i : nat) (rendered : list Child)
  (mchildren : option (list Child)) : M unit :=
  fs ← gets fetches;
  match fs !! i with
  | Some (name, preserveParams) =>
      modify (set_fetches (delete i fs));;
      schemaLoaded name preserveParams rendered mchildren
  | None => mret tt
  end.

(** The listener for [datainclipboard]. *)
Definition dataInClipboard (reset : bool) : M unit :=
  libs ← gets (fun w => libraries (sel w));
  match libs with
  | None => mret tt
  | Some _ =>
      ok ← (if negb reset
            then clip ← gets clipboard; canPaste clip
            else (mret false : M bool));
      pasteButton_toggle (negb ok)
  end.

(** The callback the constructor gives to [parent.ready]. *)
Definition parentIsReady : M unit :=
  modify (upd_sel (set_passReadies false)).

(** ** The remaining methods *)

Definition hideLibrarySelector : M unit :=
  modify (upd_sel (upd_ui (fun d => set_select (select_hide (select d)) d))).

Definition hideCopyPaste : M unit :=
  modify (upd_sel (upd_ui (set_copyPasteHidden true))).

Definition hide : M unit :=
  hideLibrarySelector;; hideCopyPaste.

Definition ready (f : callback) : M unit :=
  s ← gets sel;
  if passReadies s
  then modify (fun w => set_parentReadies (parentReadies w ++ [f]) w)
  else
    match readies s with
    | Some rs => modify (upd_sel (set_readies (Some (rs ++ [f]))))
    | None => throw "TypeError"
    end.

(** The loop of [forEachChild], from index [i] on: [task] is the
    caller's function, known by what it answers; each call is
    recorded. *)
Fixpoint forEachChild_from (task : Child -> nat -> bool) (i : nat)
  (cs : list Child) : M unit :=
  match cs with
  | [] => mret tt
  | c :: rest =>
      modify (fun w => set_visited (visited w ++ [i]) w);;
      if task c i then mret tt else forEachChild_from task (S i) rest
  end.

Definition forEachChild (task : Child -> nat -> bool) : M unit :=
  cs ← gets (fun w => children (sel w));
  match cs with
  | Some cs => forEachChild_from task 0 cs
  | None => throw "TypeError"
  end.

(** [remove()]; the select exists once the widget is appended. *)
Definition remove : M unit :=
  removeChildren;;
  modify (upd_sel (upd_ui (set_detached true))).

(** ** Every way into the widget *)

Inductive Op : Type :=
  | OCanPaste (clip : value)
  | OReplaceContent (clip : value)
  | OConfirmReplace (next : callback)
  | OReplaceConfirmed (i : nat)
  | OReplaceDismissed (i : nat)
  | OLibrariesLoaded (libList : list Descriptor)
  | OSelectChanged (v : string)
  | OChangeConfirmed
  | OChangeCanceled
  | OLoadLibrary (libraryName preserveParams : value)
  | OSchemaArrived (i : nat) (rendered : list Child)
      (mchildren : option (list Child))
  | OFindLibraryMetadataSettings (name : string)
  | OChange (cb : option callback)
  | OValidate
  | ODataInClipboard (reset : bool)
  | OParentIsReady
  | OHide
  | OHideLibrarySelector
  | OHideCopyPaste
  | OReady (f : callback)
  | ORemoveChildren
  | OForEachChild (task : Child -> nat -> bool)
  | ORemove.

Definition run (op : Op) : M unit :=
  match op with
  | OCanPaste clip => canPaste clip ;; mret tt
  | OReplaceContent clip => replaceContent clip
  | OConfirmReplace next => confirmReplace next
  | OReplaceConfirmed i => replaceConfirmed i
  | OReplaceDismissed i => replaceDismissed i
  | OLibrariesLoaded libList => librariesLoaded libList
  | OSelectChanged v => selectChanged v
  | OChangeConfirmed => changeConfirmed
  | OChangeCanceled => changeCanceled
  | OLoadLibrary libraryName preserveParams =>
      loadLibrary libraryName preserveParams
  | OSchemaArrived i rendered mchildren => schemaArrived i rendered mchildren
  | OFindLibraryMetadataSettings name =>
      findLibraryMetadataSettings name ;; mret tt
  | OChange cb => change cb
  | OValidate => validate ;; mret tt
  | ODataInClipboard reset => dataInClipboard reset
  | OParentIsReady => parentIsReady
  | OHide => hide
  | OHideLibrarySelector => hideLibrarySelector
  | OHideCopyPaste => hideCopyPaste
  | OReady f => ready f
  | ORemoveChildren => removeChildren
  | OForEachChild task => forEachChild task
  | ORemove => remove
  end.

(** A run of the widget: the operations one after the other; a throw
    ends the operation it happens in, not the widget. *)
Definition run_all (ops : list Op) (w : World) : World :=
  fold_left (fun w op => world_of (run op w)) ops w.

(** ** The constructor and [appendTo] *)

(** A library name as [ns.libraryFromString] parses it. *)
Record Library : Type := {
  machineName : string;
  majorVersion : Z;
  minorVersion : Z
}.

(** The table [config] of [enableCopyAndPaste]: the first version of a
    content type whose editor leaves copy and paste to the selector. *)
Definition copyPasteConfig (name : string) : option (Z * Z) :=
  if String.eqb name "H5P.CoursePresentation" then Some (1, 20)%Z
  else if String.eqb name "H5P.InteractiveVideo" then Some (1, 20)%Z
  else if String.eqb name "H5P.DragQuestion" then Some (1, 13)%Z
  else None.

(** [enableCopyAndPaste()] of [appendTo]; [ancestor] is the current
    library of the ancestor selector, parsed, and [None] when the
    ancestor has none. *)
Definition enableCopyAndPaste (ancestor : option Library) : bool :=
  match ancestor with
  | Some library =>
      match copyPasteConfig (machineName library) with
      | None => true
      | Some (major, minor) =>
          (majorVersion library >? major)%Z
          || ((majorVersion library =? major)%Z
              && (minorVersion library >=? minor)%Z)
      end
  | None => true
  end.

(** What a widget is created with: the [params] argument ([None] for
    [undefined]), [field.optional], the surroundings, and the state in
    which [ns.createCopyPasteButtons] renders the two buttons. *)
Record Setup : Type := {
  su_id : nat;
  su_params : option loc;
  su_optional : bool;
  su_heap : heap;
  su_localStorage : bool;
  su_ancestor : option Library;
  su_buttonsDisabled : bool;
  su_clipboard : value;
  su_enableMetadata : string -> bool;
  su_commonFields : list (string * list (string * CommonField))
}.

(** The handle [appendTo] keeps on a button: none without
    [window.localStorage], else what [.find(...)] matches, which is
    nothing when the buttons were not created. *)
Definition button_handle (su : Setup) : option jq :=
  if su_localStorage su then
    Some (if enableCopyAndPaste (su_ancestor su)
          then JqEl (su_buttonsDisabled su) true
          else JqNone)
  else None.

(** [new ns.Library(parent, field, params, setValue)] followed by
    [appendTo($wrapper)], up to the request for the library list. *)
Definition mount (su : Setup) : World :=
  let h := su_heap su in
  let '(p, h') :=
    match su_params su with
    | Some l => (l, h)
    | None =>
        let inner := fresh (dom h) in
        let h1 := <[inner := ∅]> h in
        let outer := fresh (dom h1) in
        (outer, <[outer := {[ "params" := VRef inner ]}]> h1)
    end in
  {| sel := {| self_id := su_id su; params := p;
               optional := su_optional su; changes := [];
               libraries := None; currentLibrary := None;
               libraryName := VUndef; runChangeCallback := false;
               children := None; metadataForm := None;
               passReadies := true; readies := None;
               metadataFormWrapper := false; metadataButton := false;
               ui := {| select :=
                          {| options := [createOption "-" (VStr "Loading...")
                                           false];
                             val := VStr "-"; hidden := false |};
                        wrapperClass := "libwrap";
                        wrapperLoading := false;
                        copyButton := button_handle su;
                        pasteButton := button_handle su;
                        labelHidden := false; copyPasteHidden := false;
                        detached := false |} |};
     hp := h'; localStorage := su_localStorage su;
     clipboard := su_clipboard su;
     enableMetadata := su_enableMetadata su; console := [];
     fetches := []; changeDialog := false; replaceDialogs := [];
     fired := []; uuids := 0; commonFields := su_commonFields su;
     removedShared := []; parentReadies := []; leaked := None;
     clipboardified := []; invoked := []; visited := []; notices := [] |}.

(** The states a widget can be in: created, then any operations. *)
Definition reachable (w : World) : Prop :=
  exists su ops, w = run_all ops (mount su).

(** ** What the specification says, as predicates *)

(** What the specification asks of a clipboard value for a paste to be
    possible: the value is present, it has a generic payload, and the
    library the payload declares is the [uberName] of a known
    descriptor. *)
Definition pastable (h : heap) (libs : list Descriptor) (clip : value)
  : Prop :=
  truthy clip = true /\
  truthy (prop_of h clip "generic") = true /\
  exists d, d ∈ libs /\
    prop_of h (prop_of h clip "generic") "library" = VStr (uberName d).

(** ** Relations every operation respects *)

(** [m] takes every world to one related to it by [R], whether it
    returns or throws. *)
Definition keeps {A} (R : relation World) (m : M A) : Prop :=
  forall w, R w (world_of (m w)).

(** What holds of every state the widget reaches: neither the current
    library nor a schema request in flight names the "none" sentinel, and
    [this.$metadataFormWrapper] and [this.libraryName], which nothing in
    the widget assigns, are [undefined]. *)
Definition sane (w : World) : Prop :=
  currentLibrary (sel w) ≠ Some "-" /\
  Forall (fun f => f.1 ≠ "-") (fetches w) /\
  metadataFormWrapper (sel w) = false /\
  libraryName (sel w) = VUndef.

(** What no operation changes: the widget holds the same parameter
    object, [this.libraryName] is what it was, [window.localStorage] is
    as available as it was, [this.$copyButton] is [undefined] exactly if
    it was, the flag [runChangeCallback] has not been raised, and (under
    the assumption [P] on what the operation is given) a sane state
    stays sane. *)
Definition steady_if (P : Prop) : relation World := fun w w' =>
  params (sel w') = params (sel w) /\
  libraryName (sel w') = libraryName (sel w) /\
  localStorage w' = localStorage w /\
  (copyButton (ui (sel w')) = None <-> copyButton (ui (sel w)) = None) /\
  (runChangeCallback (sel w) = false -> runChangeCallback (sel w') = false) /\
  (P -> sane w -> sane w').

Abbreviation steady := (steady_if True).

(** [w'] is [w] with a store that differs from the store of [w] at the
    object [p] only. *)
Definition writes_only (p : loc) (w w' : World) : Prop :=
  w' = upd_hp (fun _ => hp w') w /\
  forall l, l ≠ p -> hp w' !! l = hp w !! l.

(** The bodies of the two loops of [overwriteParams], as [forIn] runs
    them. *)
Definition clear_step (p : loc) (k : string) : M unit :=
  present ← gets (fun w => bool_decide (is_Some (obj_at (hp w) p !! k)));
  when present (deleteProp p k).

Definition copy_step (clip : value) (g p : loc) (k : string) : M unit :=
  present ← gets (fun w => bool_decide (is_Some (obj_at (hp w) g !! k)));
  when present
    (g' ← getProp clip "generic";
     v ← getProp g' k;
     setProp p k v).

(** The object store is what it was. *)
Definition same_store : relation World := fun w w' => hp w' = hp w.

(** No child field, of the widget or of its metadata form, is still
    rendered. *)
Definition none_rendered (w : World) : Prop :=
  (forall cs, children (sel w) = Some cs ->
     Forall (fun c => c_rendered c = false) cs) /\
  (forall mf cs, metadataForm (sel w) = Some mf ->
     mf_children mf = Some cs ->
     Forall (fun c => c_rendered c = false) cs).

(** Two worlds agree on everything but what a teardown of the children
    touches (the child lists, the old metadata wrapper and button, and
    the ancestor's common fields) when they are equal once those are
    erased. *)
Definition but_children (w : World) : World :=
  upd_sel (fun s =>
      set_children None (set_metadataForm None
        (set_metadataFormWrapper false (set_metadataButton false s))))
    (set_commonFields [] (set_removedShared [] w)).

Definition same_but_children : relation World := fun w w' =>
  but_children w' = but_children w.

(** Agreement on everything but the store and what a teardown touches. *)
Definition but_store (w : World) : World :=
  upd_hp (fun _ => ∅) (but_children w).

Definition only_cleared (w w' : World) : Prop :=
  but_store w' = but_store w.

(** Agreement on everything but the store, what a teardown touches, the
    class of the wrapper and the copy button. *)
Definition but_display (w : World) : World :=
  upd_sel (upd_ui (fun d => set_wrapperClass "" (set_copyButton None d)))
    (but_store w).

Definition cleared_and_shown (w w' : World) : Prop :=
  but_display w' = but_display w.

(** The four library keys are gone from the parameter object. *)
Definition library_keys_cleared (w : World) : Prop :=
  Forall (fun k => obj_at (hp w) (params (sel w)) !! k = None)
         ["library"; "params"; "subContentId"; "metadata"].

(** C4 as the specification states it, at a state [w]: selecting "none"
    returns, the four keys are gone, no child is rendered, no schema is
    requested and no other state has changed. *)
Definition none_changes_nothing_else (w : World) : Prop :=
  exists w', loadLibrary (VStr "-") VUndef w = Ok tt w' /\
    library_keys_cleared w' /\
    none_rendered w' /\
    fetches w' = fetches w /\
    only_cleared w w'.

(** C10 as the specification states it, for a widget created by [su]:
    when the copy and paste buttons were not created, selecting "none"
    throws. *)
Definition none_throws_without_buttons (su : Setup) : Prop :=
  su_localStorage su && enableCopyAndPaste (su_ancestor su) = false ->
  exists e w', loadLibrary (VStr "-") VUndef (mount su) = Throw e w'.

(** ** Sample states *)

Definition blanks : Descriptor :=
  {| uberName := "H5P.Blanks 1.3"; title := VStr "Blanks";
     restricted := VUndef; metadata := None |}.

Definition essay : Descriptor :=
  {| uberName := "H5P.Essay 1.2"; title := VStr "Essay";
     restricted := VBool true; metadata := None |}.

Definition untitled : Descriptor :=
  {| uberName := "H5P.Legacy 1.0"; title := VUndef;
     restricted := VUndef; metadata := None |}.

(** A clipboard value [{generic: {library: 'H5P.Blanks 1.3', params:
    {}}}] at the references 10, 11 and 12. *)
Definition sample_store : heap :=
  {[ 10%positive := {[ "generic" := VRef 11 ]};
     11%positive := {[ "library" := VStr "H5P.Blanks 1.3";
                       "params" := VRef 12 ]};
     12%positive := ∅ ]}.

Definition sample_setup (storage : bool) (ancestor : option Library)
  (opt : bool) : Setup :=
  {| su_id := 0; su_params := None; su_optional := opt;
     su_heap := sample_store; su_localStorage := storage;
     su_ancestor := ancestor; su_buttonsDisabled := true;
     su_clipboard := VRef 10; su_enableMetadata := fun _ => true;
     su_commonFields := [] |}.

Definition valid_child : Child :=
  {| c_valid := VBool true; c_item := true; c_rendered := true |}.

Definition invalid_child : Child :=
  {| c_valid := VBool false; c_item := true; c_rendered := true |}.

(** A content type whose editor handles copy and paste itself. *)
Definition old_presentation : Library :=
  {| machineName := "H5P.CoursePresentation";
     majorVersion := 1; minorVersion := 19 |}.

(** The widget once the library list has arrived. *)
Definition listed (storage : bool) (ancestor : option Library) (opt : bool)
  : World :=
  run_all [OLibrariesLoaded [blanks; essay]]
          (mount (sample_setup storage ancestor opt)).

(** The widget once the author has chosen Blanks and its schema, with
    the child [c], has arrived. *)
Definition loaded (storage : bool) (ancestor : option Library) (opt : bool)
  (c : Child) : World :=
  run_all [OSelectChanged "H5P.Blanks 1.3"; OSchemaArrived 0 [c] (Some [])]
          (listed storage ancestor opt).

(** ** C6 and C7 as the specification states them *)

(** No child of the list answers [false] to [validate()]. *)
Definition none_fails (cs : option (list Child)) : bool :=
  forallb (fun c => negb (strict_eq (c_valid c) (VBool false)))
          (default [] cs).

(** Every metadata-form child and every child field validates. *)
Definition all_validate (w : World) : bool :=
  none_fails (mf ← metadataForm (sel w); mf_children mf)
  && none_fails (children (sel w)).

(** A library is in fact selected: the parameter object names one. *)
Definition selected (w : World) : bool :=
  truthy (prop_of (hp w) (VRef (params (sel w))) "library").

(** C6 as stated: [validate()] answers [true] only if every child
    validates and a library is selected, or the slot is optional and
    unselected; optional and unselected gives [true], required and
    unselected gives [false]. *)
Definition validate_as_specified (w : World) : Prop :=
  exists b, validate w = Ok b w /\
    (b = true ->
     (all_validate w = true /\ selected w = true) \/
     (optional (sel w) = true /\ selected w = false)) /\
    (optional (sel w) = true -> selected w = false -> b = true) /\
    (optional (sel w) = false -> selected w = false -> b = false).

(** The descriptors C7 as stated lets into the option list: those with a
    title that are unrestricted or selected. *)
Definition offered_as_specified (cur : value) (d : Descriptor) : bool :=
  negb (strict_eq (title d) VUndef)
  && ((strict_eq (restricted d) VUndef || negb (truthy (restricted d)))
      || strict_eq (VStr (uberName d)) cur).

Definition options_as_specified (libList : list Descriptor) (w : World)
  : Prop :=
  let cur := prop_of (hp w) (VRef (params (sel w))) "library" in
  options (select (ui (sel (world_of (librariesLoaded libList w)))))
  = createOption "-" (VStr "-") false ::
    map (fun d => createOption (uberName d) (title d)
                    (strict_eq (VStr (uberName d)) cur))
        (filter (fun d => offered_as_specified cur d = true) libList).

(** The selection control shows the same options. *)
Definition same_options : relation World := fun w w' =>
  options (select (ui (sel w'))) = options (select (ui (sel w))).

(** A widget created on a parameter object that names a library without
    a title. *)
Definition legacy_setup : Setup :=
  {| su_id := 0; su_params := Some 20%positive; su_optional := false;
     su_heap := {[ 20%positive := {[ "library" := VStr "H5P.Legacy 1.0" ]} ]};
     su_localStorage := true; su_ancestor := None;
     su_buttonsDisabled := true; su_clipboard := VUndef;
     su_enableMetadata := fun _ => true; su_commonFields := [] |}.

(** ** C8 as the specification states it *)

(** Agreement on everything but the store and the identifiers handed
    out so far. *)
Definition but_params (w : World) : World :=
  upd_hp (fun _ => ∅) (set_uuids 0 w).

Definition only_params : relation World := fun w w' =>
  but_params w' = but_params w.

(** The widget with the listener 3 of [change], once the author has
    chosen Blanks and the load has called the listener. *)
Definition notified : World :=
  run_all [OChange (Some 3); OLibrariesLoaded [blanks; essay];
           OSelectChanged "H5P.Blanks 1.3";
           OSchemaArrived 0 [valid_child] (Some [])]
          (mount (sample_setup true None false)).

(** The last part of C8 as stated: the callback [cb], registered in [w]
    where a load has called the listeners already, is called in the
    course of the operations [ops] that follow, or the run-once-ready
    flag is raised for it. *)
Definition fires_after_late_registration (w : World) (cb : callback)
  (ops : list Op) : Prop :=
  let w' := run_all (OChange (Some cb) :: ops) w in
  (exists d, (cb, d) ∈ fired w') \/ runChangeCallback (sel w') = true.

(** The operations that call the listeners of [change] whatever the
    state: the arrival of a schema and [change()] itself. *)
Definition calls_listeners (op : Op) : bool :=
  match op with
  | OSchemaArrived _ _ _ | OChange None => true
  | _ => false
  end.

(** While the run-once-ready flag is down it stays down and no listener
    is called. *)
Definition quiet : relation World := fun w w' =>
  runChangeCallback (sel w) = false ->
  runChangeCallback (sel w') = false /\ fired w' = fired w.

(** ** Predicates for the remaining code *)

(** The character [c] occurs in [s]. *)
Fixpoint has_char (c : ascii) (s : string) : bool :=
  match s with
  | EmptyString => false
  | String c' r => Ascii.eqb c' c || has_char c r
  end.

(** The version [(major, minor)] is at least [(major', minor')]. *)
Definition version_le (v v' : Z * Z) : Prop :=
  (v.1 < v'.1 \/ (v.1 = v'.1 /\ v.2 <= v'.2))%Z.

(** A widget whose library Blanks has a field shared with the selector
    4, and the widget once Blanks is loaded. *)
Definition shared_setup : Setup :=
  {| su_id := 0; su_params := None; su_optional := false;
     su_heap := sample_store; su_localStorage := true;
     su_ancestor := None; su_buttonsDisabled := true;
     su_clipboard := VRef 10; su_enableMetadata := fun _ => true;
     su_commonFields :=
       [("H5P.Blanks 1.3/behaviour",
         [("feedback", [(0, 1); (4, 2)])])] |}.

Definition sharing : World :=
  run_all [OLibrariesLoaded [blanks; essay];
           OSelectChanged "H5P.Blanks 1.3";
           OSchemaArrived 0 [valid_child] (Some [])]
          (mount shared_setup).

(** Agreement on everything but what the start of a load touches: what
    a teardown touches, the schema requests in flight, and the class and
    loading text of the wrapper. *)
Definition but_loading (w : World) : World :=
  upd_sel (upd_ui (fun d => set_wrapperClass "" (set_wrapperLoading false d)))
    (set_fetches [] (but_children w)).

Definition only_loading (w w' : World) : Prop :=
  but_loading w' = but_loading w.

(** [this.$pasteButton] is [undefined] exactly if it was. *)
Definition paste_kept : relation World := fun w w' =>
  pasteButton (ui (sel w')) = None <-> pasteButton (ui (sel w)) = None.

(** Agreement on everything but what the form built at the arrival of a
    schema touches: the metadata form, the children, the loading text,
    the copy button and the calls of the listeners. *)
Definition but_form (w : World) : World :=
  upd_sel (fun s =>
      set_metadataForm None (set_children None
        (upd_ui (fun d => set_wrapperLoading false (set_copyButton None d))
                s)))
    (set_fired [] w).

Definition only_form (w w' : World) : Prop := but_form w' = but_form w.

(** The part [π] of the world is what it was. *)
Definition same_at {A} (π : World -> A) : relation World := fun w w' =>
  π w' = π w.

(** The operations that may write to the object store: a paste, a load
    (of "none" at once, of a library when its schema arrives) and what
    may start one. *)
Definition may_write_store (op : Op) : bool :=
  match op with
  | OReplaceContent _ | OReplaceConfirmed _ | OLibrariesLoaded _
  | OSelectChanged _ | OChangeConfirmed | OLoadLibrary _ _
  | OSchemaArrived _ _ _ => true
  | _ => false
  end.

(** ** The click on the paste button *)

(** What [ns.canPastePlus(H5P.getClipboard(), that.libraries)] answers:
    [canPaste], [reason] and [description]. *)
Record PasteCheck : Type := {
  pc_canPaste : value;
  pc_reason : value;
  pc_description : string
}.

(** Modelled from the spec: [that.confirmPasteError] and
    [ns.attachToastTo], which are not in this file; a paste that is too
    old or too new "triggers a distinguishable user-facing error", and
    "any other unsupported-paste reason surfaces as a transient toast
    notification rather than a blocking dialog".  Both are recorded with
    the description they show. *)
Definition confirmPasteError (description : string) : M unit :=
  modify (fun w => set_notices (notices w ++ ["dialog: " +:+ description]) w).

Definition ns_attachToastTo (description : string) : M unit :=
  modify (fun w => set_notices (notices w ++ ["toast: " +:+ description]) w).

(** The click handler [appendTo] gives the paste button; [check] is the
    answer of [ns.canPastePlus], asked for only when the button is
    disabled.  Without a button there is no click. *)
Definition pasteClicked (check : PasteCheck) : M unit :=
  b ← gets (fun w => pasteButton (ui (sel w)));
  match b with
  | Some (JqEl disabled _) =>
      if disabled && negb (strict_eq (pc_canPaste check) (VBool true)) then
        if strict_eq (pc_reason check) (VStr "pasteTooOld")
           || strict_eq (pc_reason check) (VStr "pasteTooNew")
        then confirmPasteError (pc_description check)
        else ns_attachToastTo (pc_description check)
      else
        clip ← gets clipboard;
        replaceContent clip
  | _ => mret tt
  end.

(** The widget once a library list without Blanks has arrived: the
    clipboard, which holds Blanks, cannot be pasted. *)
Definition listed_without_blanks : World :=
  run_all [OLibrariesLoaded [essay; untitled]]
          (mount (sample_setup true None false)).

(** What is hidden stays hidden: the selection control and the
    wrapper of the two buttons. *)
Definition stays_hidden : relation World := fun w w' =>
  (hidden (select (ui (sel w))) = true ->
   hidden (select (ui (sel w'))) = true) /\
  (copyPasteHidden (ui (sel w)) = true ->
   copyPasteHidden (ui (sel w')) = true).

(** ** Reasoning about computations *)

Lemma bind_Ok {A B} (m : M A) (k : A -> M B) w a w' :
  m w = Ok a w' -> (m ≫= k) w = k a w'.
Proof. intros H. unfold mbind, M_bind. by rewrite H. Qed.

Lemma bind_Throw {A B} (m : M A) (k : A -> M B) w e w' :
  m w = Throw e w' -> (m ≫= k) w = Throw e w'.
Proof. intros H. unfold mbind, M_bind. by rewrite H. Qed.

Lemma getProp_truthy v k w :
  truthy v = true -> getProp v k w = Ok (prop_of (hp w) v k) w.
Proof. by destruct v. Qed.

(** Reads of fields through field updates. *)
Ltac fields :=
  cbn [
    mret M_ret disable disableExtraTitleField mf_children mf_titleField
    mf_buttonAt sel hp localStorage clipboard enableMetadata console fetches
    changeDialog replaceDialogs fired uuids commonFields removedShared
    parentReadies leaked clipboardified invoked visited notices self_id
    params optional changes libraries currentLibrary libraryName
    runChangeCallback children metadataForm passReadies readies
    metadataFormWrapper metadataButton ui select wrapperClass
    wrapperLoading copyButton pasteButton labelHidden copyPasteHidden
    detached world_of set_changeDialog set_changes set_children
    set_clipboard set_clipboardified set_commonFields set_console
    set_copyButton set_copyPasteHidden set_currentLibrary set_detached
    set_fetches set_fired set_invoked set_labelHidden set_leaked
    set_libraries set_metadataButton set_metadataForm
    set_metadataFormWrapper set_notices set_parentReadies
    set_passReadies set_pasteButton set_readies set_removedShared
    set_replaceDialogs set_runChangeCallback set_select set_uuids
    set_visited set_wrapperClass set_wrapperLoading upd_hp upd_sel
    upd_ui ].

Tactic Notation "fields" "in" hyp(H) :=
  cbn [
    mret M_ret disable disableExtraTitleField mf_children mf_titleField
    mf_buttonAt sel hp localStorage clipboard enableMetadata console fetches
    changeDialog replaceDialogs fired uuids commonFields removedShared
    parentReadies leaked clipboardified invoked visited notices self_id
    params optional changes libraries currentLibrary libraryName
    runChangeCallback children metadataForm passReadies readies
    metadataFormWrapper metadataButton ui select wrapperClass
    wrapperLoading copyButton pasteButton labelHidden copyPasteHidden
    detached world_of set_changeDialog set_changes set_children
    set_clipboard set_clipboardified set_commonFields set_console
    set_copyButton set_copyPasteHidden set_currentLibrary set_detached
    set_fetches set_fired set_invoked set_labelHidden set_leaked
    set_libraries set_metadataButton set_metadataForm
    set_metadataFormWrapper set_notices set_parentReadies
    set_passReadies set_pasteButton set_readies set_removedShared
    set_replaceDialogs set_runChangeCallback set_select set_uuids
    set_visited set_wrapperClass set_wrapperLoading upd_hp upd_sel
    upd_ui ] in H.

(** ** Running straight-line code *)

Lemma bind_gets {A B} (f : World -> A) (k : A -> M B) w :
  (gets f ≫= k) w = k (f w) w.
Proof. reflexivity. Qed.

Lemma bind_modify {B} g (k : unit -> M B) w :
  (modify g ≫= k) w = k tt (g w).
Proof. reflexivity. Qed.

Lemma bind_ret {A B} (a : A) (k : A -> M B) w : (mret a ≫= k) w = k a w.
Proof. reflexivity. Qed.

Lemma bind_assoc {A B C} (m : M A) (k : A -> M B) (k' : B -> M C) w :
  ((m ≫= k) ≫= k') w = (m ≫= fun a => k a ≫= k') w.
Proof. unfold mbind, M_bind. by destruct (m w). Qed.

Ltac step :=
  repeat first
    [ rewrite bind_assoc | rewrite bind_gets | rewrite bind_modify
    | rewrite bind_ret ].

(** *** The loops of [findLibraryMetadataSettings] and [change] *)

Lemma string_is_defined s : strict_eq (VStr s) VUndef = false.
Proof. unfold strict_eq. by apply bool_decide_eq_false_2. Qed.

(** The loop returns; at most it has stored a descriptor's metadata in
    the undeclared [library], and not even that while [this.libraryName]
    is [undefined]. *)
Lemma findMetadata_from_returns libs w :
  exists w', findMetadata_from libs w = Ok tt w' /\
    (w' = w \/ exists m, w' = set_leaked (Some m) w) /\
    (libraryName (sel w) = VUndef -> w' = w).
Proof.
  induction libs as [|d rest IH]; simpl.
  - exists w. split; [done|]. split; [by left | done].
  - step. destruct (strict_eq (VStr (uberName d)) (libraryName (sel w)))
      eqn:E.
    + eexists. split; [reflexivity|]. split; [right; by eexists|].
      intros Hu. by rewrite Hu, string_is_defined in E.
    + exact IH.
Qed.

Lemma findLibraryMetadataSettings_default name w libs :
  libraries (sel w) = Some libs ->
  exists w', findLibraryMetadataSettings name w
             = Ok {| disable := negb (enableMetadata w name);
                     disableExtraTitleField := false |} w' /\
    (w' = w \/ exists m, w' = set_leaked (Some m) w) /\
    (libraryName (sel w) = VUndef -> w' = w).
Proof.
  intros Hlibs. unfold findLibraryMetadataSettings.
  assert (theLibraries w = Ok libs w) as Hth
    by (unfold theLibraries; by rewrite Hlibs).
  rewrite (bind_Ok _ _ _ _ _ Hth).
  destruct (findMetadata_from_returns libs w) as (w' & E & Hw & Hu).
  exists w'. rewrite (bind_Ok _ _ _ _ _ E). step.
  split; [|done].
  destruct Hw as [->|[m ->]]; reflexivity.
Qed.

Lemma findLibraryMetadataSettings_unloaded name w :
  libraries (sel w) = None ->
  findLibraryMetadataSettings name w = Throw "TypeError" w.
Proof.
  intros Hlibs. unfold findLibraryMetadataSettings.
  apply bind_Throw. unfold theLibraries. by rewrite Hlibs.
Qed.

Lemma fire_all library cbs w :
  for_each cbs (fire library) w
  = Ok tt (set_fired (fired w ++ map (fun c => (c, library)) cbs) w).
Proof.
  revert w. induction cbs as [|c cbs IH]; intros w; simpl.
  - rewrite app_nil_r. by destruct w.
  - change (fire library c)
      with (modify (fun w0 => set_fired (fired w0 ++ [(c, library)]) w0)).
    step. rewrite IH. fields. by rewrite <- app_assoc.
Qed.

(** [change()] calls every registered callback, in the order of
    registration, with the descriptor of the current library. *)
Lemma change_fires w libs :
  libraries (sel w) = Some libs ->
  change None w
  = Ok tt (set_fired
             (fired w ++
              map (fun c => (c, find_current (currentLibrary (sel w)) libs))
                  (changes (sel w))) w).
Proof.
  intros Hlibs. unfold change.
  assert (theLibraries w = Ok libs w) as Hth
    by (unfold theLibraries; by rewrite Hlibs).
  rewrite (bind_Ok _ _ _ _ _ Hth). step. apply fire_all.
Qed.

Lemma change_unloaded w :
  libraries (sel w) = None -> change None w = Throw "TypeError" w.
Proof.
  intros Hlibs. unfold change. apply bind_Throw.
  unfold theLibraries. by rewrite Hlibs.
Qed.

(** ** C1: [canPaste] *)

Lemma canPaste_from_iff clip libs w :
  truthy clip = true ->
  truthy (prop_of (hp w) clip "generic") = true ->
  exists b, canPaste_from clip libs w = Ok b w /\
    (b = true <->
     exists d, d ∈ libs /\
       prop_of (hp w) (prop_of (hp w) clip "generic") "library"
       = VStr (uberName d)).
Proof.
  intros Hc Hg. induction libs as [|d rest IH]; simpl.
  - exists false. split; [done|]. split; [done|].
    intros (d & Hd & _). by apply elem_of_nil in Hd.
  - rewrite (bind_Ok _ _ _ _ _ (getProp_truthy _ "generic" w Hc)).
    rewrite (bind_Ok _ _ _ _ _ (getProp_truthy _ "library" w Hg)).
    unfold strict_eq. case_bool_decide as Heq.
    + exists true. split; [done|]. split; [|done].
      intros _. exists d. split; [apply elem_of_cons; by left | done].
    + destruct IH as (b & Hb & Hiff). exists b. split; [done|].
      rewrite Hiff. split.
      * intros (d' & Hd' & E). exists d'. split; [|done].
        apply elem_of_cons. by right.
      * intros (d' & Hd' & E). apply elem_of_cons in Hd' as [->|Hd'].
        -- by rewrite E in Heq.
        -- by exists d'.
Qed.

Lemma canPaste_loaded clip w libs :
  libraries (sel w) = Some libs ->
  exists b, canPaste clip w = Ok b w /\
    (b = true <-> pastable (hp w) libs clip).
Proof.
  intros Hlibs. unfold canPaste, pastable.
  destruct (truthy clip) eqn:Hc.
  - rewrite (bind_Ok _ _ _ _ _ (getProp_truthy _ "generic" w Hc)).
    destruct (truthy (prop_of (hp w) clip "generic")) eqn:Hg.
    + assert (theLibraries w = Ok libs w) as Hth
        by (unfold theLibraries; by rewrite Hlibs).
      rewrite (bind_Ok _ _ _ _ _ Hth).
      destruct (canPaste_from_iff clip libs w Hc Hg) as (b & Hb & Hiff).
      exists b. split; [done|]. rewrite Hiff. intuition.
    + exists false. split; [done|]. intuition congruence.
  - exists false. split; [done|]. intuition congruence.
Qed.

(** C1. [canPaste] answers [false] for an absent clipboard ([undefined]
    or [null]) and for an object without a [generic] key, whatever the
    state of the widget; and once the library list is loaded it returns,
    leaves the world as it is, and answers [true] exactly when the value
    is present, has a generic payload, and the library declared by the
    payload is, as a string, the [uberName] of a descriptor of the
    list. *)
Theorem canPaste_iff_known_library (clip : value) (w : World) :
  (canPaste VUndef w = Ok false w /\
   canPaste VNull w = Ok false w /\
   forall l, obj_at (hp w) l !! "generic" = None ->
     canPaste (VRef l) w = Ok false w) /\
  forall libs, libraries (sel w) = Some libs ->
    exists b, canPaste clip w = Ok b w /\
      (b = true <-> pastable (hp w) libs clip).
Proof.
  split.
  - split; [done|]. split; [done|]. intros l Hl. unfold canPaste. simpl.
    unfold mbind, M_bind, getProp, prop_of. by rewrite Hl.
  - apply canPaste_loaded.
Qed.

(** ** C2: [replaceContent] refuses what cannot be pasted *)

(** C2. When [canPaste] answers [false] for the clipboard value,
    [replaceContent] returns having only reported
    "Tried to paste unsupported sub-content" on the console: the object
    store (so every key of the parameter object), the widget with its
    current library, the schema requests and the dialogs are as
    before. *)
Theorem replaceContent_unsupported_is_noop (clip : value) (w : World) :
  canPaste clip w = Ok false w ->
  let w' := world_of (replaceContent clip w) in
  replaceContent clip w = Ok tt w' /\
  console w' = console w ++ ["Tried to paste unsupported sub-content"] /\
  hp w' = hp w /\
  sel w' = sel w /\
  fetches w' = fetches w /\
  replaceDialogs w' = replaceDialogs w /\
  w' = set_console (console w') w.
Proof.
  intros Hno. unfold replaceContent.
  rewrite (bind_Ok _ _ _ _ _ Hno). simpl. by destruct w.
Qed.

(** ** Relations kept by every operation *)

Section Keeps.
Context (R : relation World) `{!PreOrder R}.

Lemma keeps_ret {A} (a : A) : keeps R (mret a).
Proof. intros w. simpl. reflexivity. Qed.

Lemma keeps_throw {A} e : keeps R (@throw A e).
Proof. intros w. simpl. reflexivity. Qed.

Lemma keeps_gets {A} (f : World -> A) : keeps R (gets f).
Proof. intros w. simpl. reflexivity. Qed.

Lemma keeps_modify g : (forall w, R w (g w)) -> keeps R (modify g).
Proof. intros H w. apply H. Qed.

Lemma keeps_bind {A B} (m : M A) (k : A -> M B) :
  keeps R m -> (forall a, keeps R (k a)) -> keeps R (m ≫= k).
Proof.
  intros Hm Hk w. specialize (Hm w). unfold mbind, M_bind.
  destruct (m w) as [a w'|e w']; simpl in *; [|done].
  etrans; [exact Hm | apply (Hk a w')].
Qed.

Lemma keeps_when b m : keeps R m -> keeps R (when b m).
Proof. destruct b; [done|]. intros _. apply keeps_ret. Qed.

Lemma keeps_for_each {A} (l : list A) body :
  (forall x, keeps R (body x)) -> keeps R (for_each l body).
Proof.
  intros H. induction l as [|x l IH]; simpl.
  - apply keeps_ret.
  - apply keeps_bind; [apply H | intros _; apply IH].
Qed.

Lemma keeps_getProp v k : keeps R (getProp v k).
Proof. intros w. destruct v; simpl; reflexivity. Qed.

Lemma keeps_theLibraries : keeps R theLibraries.
Proof.
  intros w. unfold theLibraries. destruct (libraries (sel w)); reflexivity.
Qed.

Lemma keeps_forIn v body :
  (forall k, keeps R (body k)) -> keeps R (forIn v body).
Proof.
  intros H. destruct v; simpl; try apply keeps_ret.
  apply keeps_bind; [apply keeps_gets|]. intros ks.
  apply keeps_for_each. intros k.
  apply keeps_bind; [apply keeps_gets|]. intros b. by apply keeps_when.
Qed.
End Keeps.

#[global] Instance steady_preorder P : PreOrder (steady_if P).
Proof.
  split.
  - intros w. by unfold steady_if.
  - intros w1 w2 w3 (H1 & H2 & H3 & H4 & H5 & H6)
      (H7 & H8 & H9 & H10 & H11 & H12).
    unfold steady_if. split; [congruence|]. split; [congruence|].
    split; [congruence|]. split; [by rewrite H10|]. split; tauto.
Qed.

(** A change that leaves the widget's own fields and the requests in
    flight alone is steady. *)
Ltac steady_side :=
  unfold steady_if, sane; fields;
  split; [reflexivity |];
  split; [reflexivity |];
  split; [reflexivity |];
  split;
  [ first [ reflexivity
          | by destruct (copyButton (ui (sel _))) ] |];
  split; [ first [ tauto | reflexivity ] |];
  first [ tauto
        | intros ? (? & ? & ? & ?);
          repeat split; first [assumption | congruence | reflexivity] ].

Create HintDb keeps.

Ltac keeps_step_by side :=
  lazymatch goal with
  | |- PreOrder _ => tc_solve
  | |- keeps _ (mret _) => apply keeps_ret
  | |- keeps _ (throw _) => apply keeps_throw
  | |- keeps _ (gets _) => apply keeps_gets
  | |- keeps _ (getProp _ _) => apply keeps_getProp
  | |- keeps _ theLibraries => apply keeps_theLibraries
  | |- keeps _ (when _ _) => apply keeps_when
  | |- keeps _ (for_each _ _) => apply keeps_for_each; [| intros ?]
  | |- keeps _ (forIn _ _) => apply keeps_forIn; [| intros ?]
  | |- keeps _ (modify _) => apply keeps_modify; intros ?; side
  | |- keeps _ (_ ≫= _) => apply keeps_bind; [| | intros ?]
  | |- keeps _ (match ?x with _ => _ end) => destruct x
  | |- keeps _ _ => solve [auto with keeps]
  end.

Ltac keeps_tac := repeat (keeps_step_by ltac:(steady_side)).

Section Steady.
Context (P : Prop).

Lemma steady_setProp l k v : keeps (steady_if P) (setProp l k v).
Proof. unfold setProp. keeps_tac. Qed.

Lemma steady_deleteProp l k : keeps (steady_if P) (deleteProp l k).
Proof. unfold deleteProp. keeps_tac. Qed.

Lemma steady_allocObj o : keeps (steady_if P) (allocObj o).
Proof. intros w. unfold allocObj. steady_side. Qed.

Lemma steady_copyButton_toggle b :
  keeps (steady_if P) (copyButton_toggle b).
Proof.
  intros w. unfold copyButton_toggle, steady_if.
  destruct (copyButton (ui (sel w))) eqn:E; fields; rewrite ?E;
    do 5 (split; [done|]); unfold sane; fields; tauto.
Qed.

Lemma steady_pasteButton_toggle b :
  keeps (steady_if P) (pasteButton_toggle b).
Proof.
  intros w. unfold pasteButton_toggle.
  destruct (pasteButton (ui (sel w))); steady_side.
Qed.

Hint Resolve steady_setProp steady_deleteProp steady_allocObj
  steady_copyButton_toggle steady_pasteButton_toggle : keeps.

Lemma steady_canPaste_from clip libs :
  keeps (steady_if P) (canPaste_from clip libs).
Proof. induction libs; simpl; keeps_tac. Qed.
Hint Resolve steady_canPaste_from : keeps.

Lemma steady_canPaste clip : keeps (steady_if P) (canPaste clip).
Proof. unfold canPaste. keeps_tac. Qed.
Hint Resolve steady_canPaste : keeps.

Lemma steady_removeChildren : keeps (steady_if P) removeChildren.
Proof. unfold removeChildren, release_commonFields. keeps_tac. Qed.
Hint Resolve steady_removeChildren : keeps.

Lemma steady_change cb : keeps (steady_if P) (change cb).
Proof. unfold change, fire. keeps_tac. Qed.
Hint Resolve steady_change : keeps.

Lemma steady_findMetadata_from libs :
  keeps (steady_if P) (findMetadata_from libs).
Proof. induction libs; simpl; keeps_tac. Qed.
Hint Resolve steady_findMetadata_from : keeps.

Lemma steady_findLibraryMetadataSettings name :
  keeps (steady_if P) (findLibraryMetadataSettings name).
Proof. unfold findLibraryMetadataSettings. keeps_tac. Qed.
Hint Resolve steady_findLibraryMetadataSettings : keeps.

Lemma steady_ns_loadLibrary name pp :
  name ≠ "-" -> keeps (steady_if P) (ns_loadLibrary name pp).
Proof.
  intros Hne. unfold ns_loadLibrary. apply keeps_modify. intros w.
  unfold steady_if, sane. fields. do 5 (split; [done|]).
  intros _ (H1 & H2 & H3 & H4). split; [done|]. split; [|done].
  apply Forall_app. split; [done|]. by constructor.
Qed.

Lemma steady_loadLibrary libraryName preserveParams :
  keeps (steady_if P) (loadLibrary libraryName preserveParams).
Proof.
  unfold loadLibrary.
  apply keeps_bind; [tc_solve | keeps_tac | intros _].
  apply keeps_bind; [tc_solve | keeps_tac | intros p].
  destruct (strict_eq libraryName (VStr "-")) eqn:E; [keeps_tac|].
  apply keeps_bind; [tc_solve | keeps_tac | intros _].
  destruct libraryName as [| | | |name|]; try (by keeps_tac).
  apply keeps_bind; [tc_solve | keeps_tac | intros _].
  apply steady_ns_loadLibrary. intros ->.
  unfold strict_eq in E. by rewrite bool_decide_eq_false in E.
Qed.
Hint Resolve steady_loadLibrary : keeps.

Lemma steady_overwriteParams clip :
  keeps (steady_if P) (overwriteParams clip).
Proof. unfold overwriteParams. keeps_tac. Qed.
Hint Resolve steady_overwriteParams : keeps.

Lemma steady_pasteContent clip : keeps (steady_if P) (pasteContent clip).
Proof. unfold pasteContent. keeps_tac. Qed.
Hint Resolve steady_pasteContent : keeps.

Lemma steady_run_cont k : keeps (steady_if P) (run_cont k).
Proof. unfold run_cont. keeps_tac. Qed.
Hint Resolve steady_run_cont : keeps.

Lemma steady_replaceContent clip :
  keeps (steady_if P) (replaceContent clip).
Proof. unfold replaceContent, ns_confirmReplace, console_error. keeps_tac. Qed.

Lemma steady_confirmReplace next :
  keeps (steady_if P) (confirmReplace next).
Proof. unfold confirmReplace. keeps_tac. Qed.

Lemma steady_replaceConfirmed i : keeps (steady_if P) (replaceConfirmed i).
Proof. unfold replaceConfirmed. keeps_tac. Qed.

Lemma steady_replaceDismissed i : keeps (steady_if P) (replaceDismissed i).
Proof. unfold replaceDismissed. keeps_tac. Qed.

Lemma steady_librariesLoaded libList :
  keeps (steady_if P) (librariesLoaded libList).
Proof. unfold librariesLoaded. keeps_tac. Qed.

Lemma steady_selectChanged v : keeps (steady_if P) (selectChanged v).
Proof. unfold selectChanged. keeps_tac. Qed.

Lemma steady_changeConfirmed : keeps (steady_if P) changeConfirmed.
Proof. unfold changeConfirmed. keeps_tac. Qed.

Lemma steady_changeCanceled : keeps (steady_if P) changeCanceled.
Proof. unfold changeCanceled. keeps_tac. Qed.

Lemma steady_dataInClipboard reset :
  keeps (steady_if P) (dataInClipboard reset).
Proof. unfold dataInClipboard. keeps_tac. Qed.

Lemma steady_validate : keeps (steady_if P) validate.
Proof. unfold validate. keeps_tac. Qed.

Lemma steady_ready f : keeps (steady_if P) (ready f).
Proof. unfold ready. keeps_tac. Qed.

Lemma steady_forEachChild_from task i cs :
  keeps (steady_if P) (forEachChild_from task i cs).
Proof. revert i. induction cs; intros i; simpl; keeps_tac. Qed.
Hint Resolve steady_forEachChild_from : keeps.

Lemma steady_forEachChild task : keeps (steady_if P) (forEachChild task).
Proof. unfold forEachChild. keeps_tac. Qed.

Lemma steady_remove : keeps (steady_if P) remove.
Proof. unfold remove. keeps_tac. Qed.

Lemma steady_hide : keeps (steady_if P) hide.
Proof. unfold hide, hideLibrarySelector, hideCopyPaste. keeps_tac. Qed.
End Steady.

#[global] Hint Resolve steady_setProp steady_deleteProp steady_allocObj
  steady_copyButton_toggle steady_pasteButton_toggle steady_canPaste_from
  steady_canPaste steady_removeChildren steady_change
  steady_findMetadata_from steady_findLibraryMetadataSettings
  steady_loadLibrary steady_overwriteParams steady_pasteContent
  steady_run_cont steady_replaceContent steady_confirmReplace
  steady_replaceConfirmed steady_replaceDismissed steady_librariesLoaded
  steady_selectChanged steady_changeConfirmed steady_changeCanceled
  steady_dataInClipboard steady_validate steady_ready
  steady_forEachChild steady_remove steady_hide : keeps.

(** The second part of the callback of a schema request is steady: it
    reaches the assignment of [runChangeCallback] only without a library
    list, and without one [findLibraryMetadataSettings] has thrown
    before. *)
Lemma steady_buildForm P name rendered mchildren :
  keeps (steady_if P) (buildForm name rendered mchildren).
Proof.
  intros w. unfold buildForm. step.
  set (w0 := upd_sel (upd_ui (set_wrapperLoading false)) w).
  destruct (libraries (sel w)) as [libs|] eqn:Hlibs.
  - destruct (findLibraryMetadataSettings_default name w0 libs Hlibs)
      as (w1 & E1 & Hw & _).
    rewrite (bind_Ok _ _ _ _ _ E1).
    unfold ns_processSemanticsChunk. step.
    assert (libraries (sel w1) = Some libs) as Hlibs1
      by (destruct Hw as [->|[m ->]]; exact Hlibs).
    assert (steady_if P w w1) as Hst
      by (destruct Hw as [->|[m ->]]; subst w0; steady_side).
    etrans; [exact Hst|]. clear Hst Hw E1. fields.
    destruct (localStorage w1), (copyButton (ui (sel w1))) as [j|] eqn:Ej;
      unfold when, copyButton_toggle, mbind, M_bind, gets, modify;
      fields; rewrite ?Ej; fields;
      try (destruct (negb (negb (enableMetadata w0 name))); fields);
      rewrite ?Hlibs1;
      try (erewrite change_fires by (fields; exact Hlibs1));
      unfold steady_if, sane; fields; rewrite ?Ej;
      repeat split; try done; tauto.
  - rewrite (bind_Throw _ _ _ _ _
               (findLibraryMetadataSettings_unloaded name w0 Hlibs)).
    subst w0. steady_side.
Qed.
#[global] Hint Resolve steady_buildForm : keeps.

(** The callback of a schema request makes its library the current one:
    that is not the sentinel when the request did not name it. *)
Lemma steady_schemaLoaded name pp rendered mchildren :
  keeps (steady_if (name ≠ "-")) (schemaLoaded name pp rendered mchildren).
Proof.
  unfold schemaLoaded, adoptLibrary, createUUID. keeps_tac.
Qed.

Lemma steady_schemaArrived P i rendered mchildren :
  keeps (steady_if P) (schemaArrived i rendered mchildren).
Proof.
  intros w. unfold schemaArrived, mbind, M_bind. simpl.
  destruct (fetches w !! i) as [[name pp]|] eqn:E; simpl;
    [|by unfold steady_if].
  set (w1 := set_fetches (delete i (fetches w)) w).
  destruct (steady_schemaLoaded name pp rendered mchildren w1)
    as (H1 & H2 & H3 & H4 & H5 & H6).
  split; [exact H1|]. split; [exact H2|]. split; [exact H3|].
  split; [exact H4|]. split; [exact H5|].
  intros _ (Hc & Hf & Hm). apply H6.
  - intros ->. rewrite Forall_lookup in Hf. by apply (Hf i _ E).
  - split; [exact Hc|]. split; [|exact Hm]. simpl. by apply Forall_delete.
Qed.

(** Every operation is steady. *)
Lemma steady_run op : keeps steady (run op).
Proof.
  destruct op; simpl;
    try (unfold parentIsReady, hideLibrarySelector, hideCopyPaste;
         by keeps_tac).
  apply steady_schemaArrived.
Qed.

Lemma steady_run_all ops w : steady w (run_all ops w).
Proof.
  revert w. induction ops as [|op ops IH]; intros w; simpl.
  - reflexivity.
  - etrans; [apply (steady_run op w) | apply IH].
Qed.

Lemma mount_sane su : sane (mount su).
Proof.
  unfold mount, sane. destruct (su_params su); simpl; by repeat split.
Qed.

(** Every state the widget can reach is sane. *)
Lemma reachable_sane w : reachable w -> sane w.
Proof.
  intros (su & ops & ->).
  destruct (steady_run_all ops (mount su)) as (_ & _ & _ & _ & _ & H).
  apply H; [done | apply mount_sane].
Qed.

(** ** The two loops of the paste *)

#[global] Instance writes_only_preorder p : PreOrder (writes_only p).
Proof.
  split.
  - intros w. split; [by destruct w | done].
  - intros w1 w2 w3 [E1 H1] [E2 H2]. split.
    + rewrite E2, E1 at 1. by destruct w1.
    + intros l Hl. by rewrite H2, H1.
Qed.

Lemma writes_only_store p o w :
  writes_only p w (upd_hp (fun h => <[p := o]> h) w).
Proof.
  split; [by destruct w|]. intros l Hl. simpl. by rewrite lookup_insert_ne.
Qed.

Lemma writes_only_obj_at p w w' l :
  writes_only p w w' -> l ≠ p -> obj_at (hp w') l = obj_at (hp w) l.
Proof. intros [_ H] Hl. unfold obj_at. by rewrite H. Qed.

Lemma writes_only_sel p w w' : writes_only p w w' -> sel w' = sel w.
Proof. intros [-> _]. done. Qed.

Lemma obj_at_store (h : heap) p o : obj_at (<[p := o]> h) p = o.
Proof. unfold obj_at. by rewrite lookup_insert_eq. Qed.

Lemma obj_at_store_ne (h : heap) p l o :
  l ≠ p -> obj_at (<[p := o]> h) l = obj_at h l.
Proof. intros H. unfold obj_at. by rewrite lookup_insert_ne. Qed.

Lemma obj_at_store_set h p k v :
  obj_at (store_set p k v h) p = <[k := v]> (obj_at h p).
Proof. apply obj_at_store. Qed.

Lemma obj_at_store_delete h p k :
  obj_at (store_delete p k h) p = delete k (obj_at h p).
Proof. apply obj_at_store. Qed.

Lemma lookup_store_set_ne h p l k v :
  l ≠ p -> store_set p k v h !! l = h !! l.
Proof. intros H. unfold store_set. by rewrite lookup_insert_ne. Qed.

Lemma lookup_store_delete_ne h p l k :
  l ≠ p -> store_delete p k h !! l = h !! l.
Proof. intros H. unfold store_delete. by rewrite lookup_insert_ne. Qed.

Lemma obj_at_store_set_ne h p l k v :
  l ≠ p -> obj_at (store_set p k v h) l = obj_at h l.
Proof. intros H. unfold obj_at. by rewrite lookup_store_set_ne. Qed.

Lemma obj_at_store_delete_ne h p l k :
  l ≠ p -> obj_at (store_delete p k h) l = obj_at h l.
Proof. intros H. unfold obj_at. by rewrite lookup_store_delete_ne. Qed.

Lemma lookup_clear (ks : list string) (m : obj) (i : string) :
  foldl (fun o k => delete k o) m ks !! i
  = if decide (i ∈ ks) then None else m !! i.
Proof.
  revert m. induction ks as [|k ks IH]; intros m; cbn [foldl].
  - case_decide as H; [by apply elem_of_nil in H | done].
  - rewrite IH. destruct (decide (i ∈ ks)) as [Hin|Hnin].
    + rewrite decide_True; [done | set_solver].
    + destruct (decide (i = k)) as [->|Hne].
      * rewrite decide_True by set_solver. apply lookup_delete_eq.
      * rewrite decide_False by (intros [?|?]%elem_of_cons; done).
        by apply lookup_delete_ne.
Qed.

Lemma clear_all (m : obj) :
  foldl (fun o k => delete k o) m (map_to_list m).*1 = ∅.
Proof.
  apply map_eq. intros i. rewrite lookup_clear, lookup_empty.
  case_decide as Hin; [done|].
  destruct (m !! i) as [v|] eqn:E; [|done]. exfalso. apply Hin.
  apply list_elem_of_fmap. exists (i, v). split; [done|].
  by apply elem_of_map_to_list.
Qed.

Lemma clear_step_spec p k w :
  exists w', clear_step p k w = Ok tt w' /\ writes_only p w w' /\
    obj_at (hp w') p = delete k (obj_at (hp w) p).
Proof.
  unfold clear_step, mbind, M_bind. simpl. case_bool_decide as Hs; simpl.
  - eexists. split; [done|]. split; [apply writes_only_store|].
    apply obj_at_store.
  - exists w. split; [done|]. split; [reflexivity|].
    symmetry. apply delete_id. by apply eq_None_not_Some.
Qed.

Lemma clear_loop p ks w :
  exists w', for_each ks (clear_step p) w = Ok tt w' /\
    writes_only p w w' /\
    obj_at (hp w') p = foldl (fun o k => delete k o) (obj_at (hp w) p) ks.
Proof.
  revert w. induction ks as [|k ks IH]; intros w; simpl.
  - exists w. split; [done|]. split; [reflexivity | done].
  - destruct (clear_step_spec p k w) as (w1 & E1 & W1 & O1).
    destruct (IH w1) as (w2 & E2 & W2 & O2).
    exists w2. rewrite (bind_Ok _ _ _ _ _ E1). split; [done|].
    split; [by etrans|]. by rewrite O2, O1.
Qed.

Lemma lookup_copy (G : obj) (ks : list string) (o : obj) (i : string) :
  foldl (fun o k => match G !! k with
                    | Some v => <[k := v]> o
                    | None => o
                    end) o ks !! i
  = if decide (i ∈ ks)
    then match G !! i with Some v => Some v | None => o !! i end
    else o !! i.
Proof.
  revert o. induction ks as [|k ks IH]; intros o; cbn [foldl].
  - case_decide as H; [by apply elem_of_nil in H | done].
  - rewrite IH. destruct (decide (i = k)) as [->|Hne].
    + rewrite (decide_True (P := k ∈ k :: ks)) by apply list_elem_of_here.
      destruct (G !! k) as [v|] eqn:E.
      * rewrite lookup_insert_eq. by case_decide.
      * by case_decide.
    + assert (o' : (match G !! k with
                    | Some v => <[k := v]> o
                    | None => o
                    end) !! i = o !! i).
      { destruct (G !! k); [by rewrite lookup_insert_ne | done]. }
      rewrite o'. destruct (decide (i ∈ ks)) as [Hin|Hnin].
      * rewrite decide_True by (by apply list_elem_of_further). done.
      * rewrite decide_False by (intros [?|?]%elem_of_cons; done). done.
Qed.

Lemma copy_all (G : obj) :
  foldl (fun o k => match G !! k with
                    | Some v => <[k := v]> o
                    | None => o
                    end) ∅ (map_to_list G).*1 = G.
Proof.
  apply map_eq. intros i. rewrite lookup_copy, lookup_empty.
  destruct (G !! i) as [v|] eqn:E.
  - rewrite decide_True; [done|].
    apply list_elem_of_fmap. exists (i, v). split; [done|].
    by apply elem_of_map_to_list.
  - by case_decide.
Qed.

Lemma copy_step_spec c g p k w :
  c ≠ p -> g ≠ p ->
  obj_at (hp w) c !! "generic" = Some (VRef g) ->
  exists w', copy_step (VRef c) g p k w = Ok tt w' /\
    writes_only p w w' /\
    obj_at (hp w') p = match obj_at (hp w) g !! k with
                       | Some v => <[k := v]> (obj_at (hp w) p)
                       | None => obj_at (hp w) p
                       end.
Proof.
  intros Hc Hg Hgen. unfold copy_step, mbind, M_bind. simpl.
  destruct (obj_at (hp w) g !! k) as [v|] eqn:E; simpl.
  - rewrite Hgen. simpl. rewrite E. simpl.
    eexists. split; [done|]. split; [apply writes_only_store|].
    apply obj_at_store.
  - exists w. split; [done|]. split; [reflexivity | done].
Qed.

Lemma copy_loop c g p ks w :
  c ≠ p -> g ≠ p ->
  obj_at (hp w) c !! "generic" = Some (VRef g) ->
  exists w', for_each ks (copy_step (VRef c) g p) w = Ok tt w' /\
    writes_only p w w' /\
    obj_at (hp w') p
    = foldl (fun o k => match obj_at (hp w) g !! k with
                        | Some v => <[k := v]> o
                        | None => o
                        end) (obj_at (hp w) p) ks.
Proof.
  intros Hc Hg. revert w. induction ks as [|k ks IH]; intros w Hgen; simpl.
  - exists w. split; [done|]. split; [reflexivity | done].
  - destruct (copy_step_spec c g p k w Hc Hg Hgen) as (w1 & E1 & W1 & O1).
    assert (obj_at (hp w1) c !! "generic" = Some (VRef g)) as Hgen1
      by (by rewrite (writes_only_obj_at p w w1 c W1 Hc)).
    destruct (IH w1 Hgen1) as (w2 & E2 & W2 & O2).
    exists w2. rewrite (bind_Ok _ _ _ _ _ E1). split; [done|].
    split; [by etrans|].
    rewrite O2, O1, (writes_only_obj_at p w w1 g W1 Hg). done.
Qed.

(** The two loops leave, in the parameter object itself, exactly the
    properties of the payload; nothing else in the world changes. *)
Lemma overwriteParams_spec c g w :
  c ≠ params (sel w) -> g ≠ params (sel w) ->
  obj_at (hp w) c !! "generic" = Some (VRef g) ->
  exists w', overwriteParams (VRef c) w = Ok tt w' /\
    writes_only (params (sel w)) w w' /\
    obj_at (hp w') (params (sel w)) = obj_at (hp w) g.
Proof.
  intros Hc Hg Hgen. set (p := params (sel w)).
  destruct (clear_loop p (map_to_list (obj_at (hp w) p)).*1 w)
    as (w1 & E1 & W1 & O1).
  rewrite clear_all in O1.
  assert (obj_at (hp w1) c !! "generic" = Some (VRef g)) as Hgen1
    by (by rewrite (writes_only_obj_at p w w1 c W1 Hc)).
  destruct (copy_loop c g p (map_to_list (obj_at (hp w1) g)).*1 w1 Hc Hg Hgen1)
    as (w2 & E2 & W2 & O2).
  rewrite O1, copy_all, (writes_only_obj_at p w w1 g W1 Hg) in O2.
  exists w2. split; [|split; [by etrans | done]].
  unfold overwriteParams, forIn, mbind, M_bind. simpl. fold p.
  change (for_each ?ks _ w) with (for_each ks (clear_step p) w).
  rewrite E1. simpl. rewrite Hgen1. simpl.
  change (for_each ?ks _ w1) with (for_each ks (copy_step (VRef c) g p) w1).
  by rewrite E2.
Qed.

(** ** What a paste does to the store *)

#[global] Instance same_store_preorder : PreOrder same_store.
Proof.
  split; [by intros w|]. intros w1 w2 w3 H1 H2. unfold same_store in *.
  congruence.
Qed.

Lemma same_store_removeChildren : keeps same_store removeChildren.
Proof.
  unfold removeChildren, release_commonFields.
  repeat (keeps_step_by ltac:(reflexivity)).
Qed.

(** Loading a library other than the sentinel sends a request and
    touches no object. *)
Lemma same_store_loadLibrary name pp :
  name ≠ "-" -> keeps same_store (loadLibrary (VStr name) pp).
Proof.
  intros Hne. unfold loadLibrary.
  apply keeps_bind; [tc_solve | apply same_store_removeChildren | intros _].
  apply keeps_bind; [tc_solve | apply keeps_gets; tc_solve | intros p].
  assert (strict_eq (VStr name) (VStr "-") = false) as ->.
  { unfold strict_eq. apply bool_decide_eq_false_2. congruence. }
  unfold ns_loadLibrary. repeat (keeps_step_by ltac:(reflexivity)).
Qed.

Lemma getProp_ref l k w v :
  obj_at (hp w) l !! k = Some v -> getProp (VRef l) k w = Ok v w.
Proof. intros H. unfold getProp, prop_of. by rewrite H. Qed.

(** The whole paste: after it the parameter object, the same one, holds
    exactly the properties of the payload. *)
Lemma pasteContent_overwrites c g u w :
  c ≠ params (sel w) -> g ≠ params (sel w) ->
  obj_at (hp w) c !! "generic" = Some (VRef g) ->
  obj_at (hp w) g !! "library" = Some (VStr u) ->
  u ≠ "-" ->
  params (sel (world_of (pasteContent (VRef c) w))) = params (sel w) /\
  obj_at (hp (world_of (pasteContent (VRef c) w))) (params (sel w))
  = obj_at (hp w) g.
Proof.
  intros Hc Hg Hgen Hlib Hu.
  split; [apply (steady_pasteContent True (VRef c) w)|].
  unfold pasteContent.
  rewrite (bind_Ok _ _ _ _ _ (getProp_ref c "generic" w _ Hgen)).
  rewrite (bind_Ok _ _ _ _ _ (getProp_ref g "library" w _ Hlib)).
  match goal with |- context [modify ?f ≫= _] => set (w0 := f w) end.
  rewrite (bind_Ok _ _ w tt w0) by done.
  destruct (overwriteParams_spec c g w0 Hc Hg Hgen) as (w1 & E1 & W1 & O1).
  rewrite (bind_Ok _ _ _ _ _ E1).
  assert (obj_at (hp w1) c !! "generic" = Some (VRef g)) as Hgen1
    by (by rewrite (writes_only_obj_at _ w0 w1 c W1 Hc)).
  assert (obj_at (hp w1) g !! "library" = Some (VStr u)) as Hlib1
    by (by rewrite (writes_only_obj_at _ w0 w1 g W1 Hg)).
  rewrite (bind_Ok _ _ _ _ _ (getProp_ref c "generic" w1 _ Hgen1)).
  rewrite (bind_Ok _ _ _ _ _ (getProp_ref g "library" w1 _ Hlib1)).
  rewrite (same_store_loadLibrary u (VBool true) Hu w1). exact O1.
Qed.

Lemma replaceContent_pastes clip w libs :
  libraries (sel w) = Some libs ->
  pastable (hp w) libs clip ->
  truthy (prop_of (hp w) (VRef (params (sel w))) "library") = false ->
  replaceContent clip w = pasteContent clip w.
Proof.
  intros Hlibs Hp Hnone.
  destruct (canPaste_loaded clip w libs Hlibs) as (b & Hb & Hiff).
  apply Hiff in Hp as ->. unfold replaceContent.
  rewrite (bind_Ok _ _ _ _ _ Hb). simpl.
  unfold ns_confirmReplace, mbind, M_bind. cbn [gets getProp].
  by rewrite Hnone.
Qed.

(** ** C3: the parameter object keeps its identity *)


(** ** C4 and C10: selecting "none" *)

Lemma ns_removeChildren_unrendered cs :
  Forall (fun c => c_rendered c = false) (ns_removeChildren cs).
Proof. unfold ns_removeChildren. apply Forall_forall. intros c Hc.
  apply list_elem_of_fmap in Hc as (c' & -> & _). done. Qed.

#[global] Instance same_but_children_preorder : PreOrder same_but_children.
Proof.
  split; [by intros w|]. intros w1 w2 w3 H1 H2.
  unfold same_but_children in *. congruence.
Qed.

(** The teardown touches nothing but the child lists and the common
    fields. *)
Lemma removeChildren_frame : keeps same_but_children removeChildren.
Proof.
  unfold removeChildren, release_commonFields.
  repeat (keeps_step_by ltac:(unfold same_but_children; reflexivity)).
Qed.

(** In a sane state the teardown returns, having called [remove()] on
    every child. *)
Lemma removeChildren_returns w :
  sane w ->
  exists w1, removeChildren w = Ok tt w1 /\
    children (sel w1) = ns_removeChildren <$> children (sel w) /\
    none_rendered w1.
Proof.
  intros (Hc & _ & Hm & _).
  unfold removeChildren, release_commonFields, mbind, M_bind, gets, modify,
    when, none_rendered.
  rewrite Hm.
  destruct (metadataForm (sel w)) as [[[mcs|] tf ba]|] eqn:Emf,
    (children (sel w)) as [cs|] eqn:Ecs;
    try (rewrite bool_decide_eq_false_2 by done);
    (eexists; split; [reflexivity|]; fields; rewrite ?Emf, ?Ecs;
     split; [reflexivity|]; split;
     [ intros ? [= <-] || intros ? [=]
     | intros ? ? [= <-] [= <-] || intros ? ? [= <-] [=] || intros ? ? [=] ];
     apply ns_removeChildren_unrendered).
Qed.

Lemma strict_eq_refl v : strict_eq v v = true.
Proof. unfold strict_eq. by apply bool_decide_eq_true_2. Qed.

(** What [loadLibrary('-')] does in a sane state, up to its last
    statement; whether it then returns or throws depends on
    [this.$copyButton] alone. *)
Lemma loadLibrary_none_outcome w pp :
  sane w ->
  exists w',
    loadLibrary (VStr "-") pp w
    = match copyButton (ui (sel w)) with
      | Some _ => Ok tt w'
      | None => Throw "TypeError" w'
      end /\
    cleared_and_shown w w' /\
    obj_at (hp w') (params (sel w))
    = delete "metadata" (delete "subContentId" (delete "params"
        (delete "library" (obj_at (hp w) (params (sel w)))))) /\
    (forall l, l ≠ params (sel w) -> hp w' !! l = hp w !! l) /\
    none_rendered w' /\
    children (sel w') = ns_removeChildren <$> children (sel w) /\
    wrapperClass (ui (sel w')) = "libwrap" /\
    copyButton (ui (sel w'))
    = jq_toggleDisabled true <$> copyButton (ui (sel w)).
Proof.
  intros Hs.
  destruct (removeChildren_returns w Hs) as (w1 & E1 & C1 & R1).
  pose proof (removeChildren_frame w) as F1. rewrite E1 in F1.
  unfold same_but_children in F1. cbn [world_of] in F1.
  assert (hp w1 = hp w) as Hh by exact (f_equal hp F1).
  assert (ui (sel w1) = ui (sel w)) as Hu
    by exact (f_equal (fun x => ui (sel x)) F1).
  assert (params (sel w1) = params (sel w)) as Hp
    by exact (f_equal (fun x => params (sel x)) F1).
  unfold loadLibrary. rewrite (bind_Ok _ _ _ _ _ E1).
  unfold mbind, M_bind, deleteProp, copyButton_toggle.
  unfold gets, modify. rewrite strict_eq_refl. fields. rewrite Hu, Hp.
  destruct (copyButton (ui (sel w))) as [j|] eqn:Hj;
    (eexists; split; [reflexivity|]).
  all: split;
    [ unfold cleared_and_shown; transitivity (but_display w1);
      [reflexivity | unfold but_display, but_store; by rewrite F1] |].
  all: fields; rewrite !obj_at_store_delete, Hh.
  all: split; [reflexivity|].
  all: split; [intros l Hl; by rewrite !lookup_store_delete_ne by done|].
  all: split; [exact R1|].
  all: split; [exact C1|].
  all: fields; rewrite ?Hu, ?Hj; done.
Qed.

(** ** C9: [findLibraryMetadataSettings] *)

Lemma mount_libraryName su : libraryName (sel (mount su)) = VUndef.
Proof. unfold mount. by destruct (su_params su). Qed.

(** C9. [findLibraryMetadataSettings] compares every [uberName] with
    [this.libraryName].  The constructor leaves that field [undefined]
    and no operation assigns it, so in every state the widget reaches it
    is [undefined]; and whatever it holds, for every library name and
    every loaded descriptor list the function returns the default
    object [{disable: !ns.enableMetadata(libraryName),
    disableExtraTitleField: false}], never a descriptor's metadata: at
    most the world differs in the undeclared name [library], and while
    the field is [undefined] the world is untouched. *)
Theorem findLibraryMetadataSettings_always_default :
  (forall su ops, libraryName (sel (run_all ops (mount su))) = VUndef) /\
  (forall op w, libraryName (sel (world_of (run op w))) = libraryName (sel w)) /\
  (forall name w libs,
     libraries (sel w) = Some libs ->
     exists w', findLibraryMetadataSettings name w
                = Ok {| disable := negb (enableMetadata w name);
                        disableExtraTitleField := false |} w' /\
       (w' = w \/ exists m, w' = set_leaked (Some m) w) /\
       (libraryName (sel w) = VUndef -> w' = w)).
Proof.
  split.
  { intros su ops.
    destruct (steady_run_all ops (mount su)) as (_ & -> & _).
    apply mount_libraryName. }
  split; [intros op w; apply (steady_run op w)|].
  intros name w libs. apply findLibraryMetadataSettings_default.
Qed.

(** ** C8: [change] *)

(** The second part of the callback of a schema request, once the
    library list is there: it returns, having built the form and called
    the listeners of [change]. *)
Lemma buildForm_returns name rendered mchildren w libs :
  sane w ->
  libraries (sel w) = Some libs ->
  (localStorage w = true -> copyButton (ui (sel w)) ≠ None) ->
  exists w', buildForm name rendered mchildren w = Ok tt w' /\
    fired w'
    = fired w ++ map (fun c => (c, find_current (currentLibrary (sel w)) libs))
                     (changes (sel w)) /\
    changes (sel w') = changes (sel w) /\
    runChangeCallback (sel w') = runChangeCallback (sel w) /\
    children (sel w') = Some (default [] (children (sel w)) ++ rendered) /\
    hp w' = hp w /\
    copyButton (ui (sel w'))
    = (if localStorage w
       then jq_toggleDisabled false <$> copyButton (ui (sel w))
       else copyButton (ui (sel w))).
Proof.
  intros (_ & _ & _ & Hln) Hlibs Hbtn. unfold buildForm. step.
  set (w0 := upd_sel (upd_ui (set_wrapperLoading false)) w).
  destruct (findLibraryMetadataSettings_default name w0 libs Hlibs)
    as (w1 & E1 & _ & Hsame).
  rewrite (Hsame Hln) in E1. rewrite (bind_Ok _ _ _ _ _ E1).
  unfold ns_processSemanticsChunk. step. subst w0. fields.
  destruct (localStorage w) eqn:Els; unfold when.
  - destruct (copyButton (ui (sel w))) as [j|] eqn:Ej; [|by destruct Hbtn].
    match goal with |- context [copyButton_toggle false ≫= _] =>
      erewrite bind_Ok
        by (unfold copyButton_toggle; fields; rewrite Ej; reflexivity)
    end.
    step. fields. destruct (negb (negb (enableMetadata w name))); fields;
      unfold when; step; fields; rewrite Hlibs;
      (erewrite change_fires by (fields; exact Hlibs));
      (eexists; split; [reflexivity|]); fields; by rewrite ?Ej.
  - step. fields. destruct (negb (negb (enableMetadata w name))); fields;
      unfold when; step; fields; rewrite Hlibs;
      (erewrite change_fires by (fields; exact Hlibs));
      (eexists; split; [reflexivity|]); fields; done.
Qed.

Lemma cleared_and_shown_frame w w' :
  cleared_and_shown w w' ->
  params (sel w') = params (sel w) /\
  fetches w' = fetches w /\
  currentLibrary (sel w') = currentLibrary (sel w) /\
  libraries (sel w') = libraries (sel w) /\
  changes (sel w') = changes (sel w) /\
  select (ui (sel w')) = select (ui (sel w)).
Proof.
  intros H. unfold cleared_and_shown in H.
  split; [exact (f_equal (fun x => params (sel x)) H)|].
  split; [exact (f_equal fetches H)|].
  split; [exact (f_equal (fun x => currentLibrary (sel x)) H)|].
  split; [exact (f_equal (fun x => libraries (sel x)) H)|].
  split; [exact (f_equal (fun x => changes (sel x)) H)|].
  exact (f_equal (fun x => select (ui (sel x))) H).
Qed.

Lemma library_keys_deleted (o : obj) :
  Forall (fun k => delete "metadata" (delete "subContentId"
                     (delete "params" (delete "library" o))) !! k = None)
         ["library"; "params"; "subContentId"; "metadata"].
Proof.
  repeat constructor;
    repeat first [ apply lookup_delete_eq | rewrite lookup_delete_ne by done ].
Qed.


(** The sample states are states the widget reaches. *)
Lemma loaded_reachable storage ancestor opt c :
  reachable (loaded storage ancestor opt c).
Proof.
  exists (sample_setup storage ancestor opt),
    [OLibrariesLoaded [blanks; essay]; OSelectChanged "H5P.Blanks 1.3";
     OSchemaArrived 0 [c] (Some [])].
  reflexivity.
Defined.



Lemma mount_copyButton su :
  copyButton (ui (sel (mount su))) = button_handle su.
Proof. unfold mount. by destruct (su_params su). Qed.

Lemma mount_localStorage su : localStorage (mount su) = su_localStorage su.
Proof. unfold mount. by destruct (su_params su). Qed.

(** C10, amended. [appendTo] assigns [this.$copyButton] only when
    [window.localStorage] is available, and no operation assigns it
    later; [loadLibrary('-')] calls [toggleClass] on it without a check.
    So in every state of a widget created without [window.localStorage]
    selecting "none" throws a [TypeError]; the four keys are deleted,
    the children removed and the wrapper reset by then.  The callback of
    a schema request makes the same call only under
    [window.localStorage]: without it, it returns and leaves the field
    alone.  With [window.localStorage] but copy and paste disabled for
    the ancestor content type the buttons are not created either, but
    then the field holds an empty jQuery set and selecting "none"
    returns. *)
Theorem none_throws_without_localStorage :
  (forall su ops,
     su_localStorage su = false ->
     copyButton (ui (sel (run_all ops (mount su)))) = None) /\
  (forall w pp,
     sane w -> copyButton (ui (sel w)) = None ->
     exists w', loadLibrary (VStr "-") pp w = Throw "TypeError" w' /\
       library_keys_cleared w' /\ none_rendered w' /\
       wrapperClass (ui (sel w')) = "libwrap") /\
  (forall w name rendered mchildren libs,
     sane w -> libraries (sel w) = Some libs -> localStorage w = false ->
     exists w', buildForm name rendered mchildren w = Ok tt w' /\
       copyButton (ui (sel w')) = copyButton (ui (sel w))) /\
  (forall su pp,
     su_localStorage su = true ->
     enableCopyAndPaste (su_ancestor su) = false ->
     copyButton (ui (sel (mount su))) = Some JqNone /\
     exists w', loadLibrary (VStr "-") pp (mount su) = Ok tt w').
Proof.
  split.
  { intros su ops Hls.
    destruct (steady_run_all ops (mount su)) as (_ & _ & _ & H & _).
    apply H. rewrite mount_copyButton. unfold button_handle. by rewrite Hls. }
  split.
  { intros w pp Hs Hj.
    destruct (loadLibrary_none_outcome w pp Hs)
      as (w' & E & F & O & _ & R & _ & Wc & _).
    rewrite Hj in E.
    destruct (cleared_and_shown_frame w w' F) as (Hp & _).
    exists w'. split; [exact E|]. split; [|done].
    unfold library_keys_cleared. rewrite Hp, O. apply library_keys_deleted. }
  split.
  { intros w name rendered mchildren libs Hs Hlibs Hls.
    destruct (buildForm_returns name rendered mchildren w libs Hs Hlibs)
      as (w' & E & _ & _ & _ & _ & _ & Cb); [by rewrite Hls|].
    exists w'. split; [exact E|]. by rewrite Hls in Cb. }
  intros su pp Hls Hen.
  assert (copyButton (ui (sel (mount su))) = Some JqNone) as Hb.
  { rewrite mount_copyButton. unfold button_handle. by rewrite Hls, Hen. }
  split; [exact Hb|].
  destruct (loadLibrary_none_outcome (mount su) pp (mount_sane su))
    as (w' & E & _).
  rewrite Hb in E. by exists w'.
Qed.

Lemma none_throws_without_localStorage_witness :
  sane (loaded false None false valid_child) /\
  copyButton (ui (sel (loaded false None false valid_child))) = None /\
  exists w',
    loadLibrary (VStr "-") VUndef (loaded false None false valid_child)
    = Throw "TypeError" w' /\
    library_keys_cleared w'.
Proof.
  assert (sane (loaded false None false valid_child)) as Hs
    by (apply reachable_sane, loaded_reachable).
  split; [exact Hs|]. split; [reflexivity|].
  destruct none_throws_without_localStorage as (_ & H & _).
  destruct (H (loaded false None false valid_child) VUndef Hs eq_refl)
    as (w' & E & K & _).
  exists w'. by split.
Defined.

(** C10 as stated fails for a widget under a content type that handles
    copy and paste itself: the buttons are not created, yet selecting
    "none" returns. *)
Lemma none_returns_without_buttons :
  ~ none_throws_without_buttons
      (sample_setup true (Some old_presentation) false).
Proof.
  intros H. destruct (H eq_refl) as (e & w' & E).
  vm_compute in E. discriminate E.
Qed.

(** ** Instances at the sample states *)

Lemma canPaste_iff_known_library_witness :
  libraries (sel (listed true None false)) = Some [blanks; essay] /\
  canPaste (VRef 10) (listed true None false)
  = Ok true (listed true None false).
Proof.
  split; [reflexivity|].
  destruct (canPaste_iff_known_library (VRef 10) (listed true None false))
    as (_ & H).
  destruct (H [blanks; essay] eq_refl) as (b & E & Hiff).
  assert (b = true) as ->; [|exact E].
  apply Hiff. split; [reflexivity|]. split; [reflexivity|].
  exists blanks. split; [apply list_elem_of_here | reflexivity].
Defined.

Lemma replaceContent_unsupported_is_noop_witness :
  canPaste VUndef (listed true None false)
  = Ok false (listed true None false) /\
  console (world_of (replaceContent VUndef (listed true None false)))
  = ["Tried to paste unsupported sub-content"] /\
  hp (world_of (replaceContent VUndef (listed true None false)))
  = hp (listed true None false).
Proof.
  split; [reflexivity|].
  destruct (replaceContent_unsupported_is_noop VUndef
              (listed true None false) eq_refl)
    as (_ & Hc & Hh & _).
  split; [exact Hc | exact Hh].
Defined.


Lemma findLibraryMetadataSettings_always_default_witness :
  libraries (sel (listed true None false)) = Some [blanks; essay] /\
  findLibraryMetadataSettings "H5P.Blanks 1.3" (listed true None false)
  = Ok {| disable := false; disableExtraTitleField := false |}
       (listed true None false).
Proof.
  split; [reflexivity|].
  destruct findLibraryMetadataSettings_always_default as (_ & _ & H).
  destruct (H "H5P.Blanks 1.3" (listed true None false) [blanks; essay]
              eq_refl) as (w' & E & _ & Hsame).
  rewrite (Hsame eq_refl) in E. exact E.
Defined.

(** ** C5: what the callback of a schema request does to the object *)

Lemma bind_allocObj {B} o (k : loc -> M B) w :
  (allocObj o ≫= k) w
  = k (fresh (dom (hp w))) (upd_hp (fun h => <[fresh (dom (hp w)) := o]> h) w).
Proof. reflexivity. Qed.

Lemma bind_getProp_ref {B} l key (k : value -> M B) w :
  (getProp (VRef l) key ≫= k) w = k (prop_of (hp w) (VRef l) key) w.
Proof. reflexivity. Qed.

Lemma reset_condition pp :
  strict_eq pp VUndef || negb (truthy pp) = negb (truthy pp).
Proof. by destruct pp. Qed.

Lemma fresh_not_stored (h : heap) p o : fresh (dom (<[p := o]> h)) ≠ p.
Proof.
  intros E. apply (is_fresh (dom (<[p := o]> h))). rewrite E.
  apply elem_of_dom. rewrite lookup_insert_eq. by eexists.
Qed.

Lemma fresh_unused (h : heap) : h !! fresh (dom h) = None.
Proof. apply not_elem_of_dom, is_fresh. Qed.

Lemma prop_of_ref h p k :
  prop_of h (VRef p) k = default VUndef (obj_at h p !! k).
Proof. reflexivity. Qed.

Lemma prop_of_store_set h p k v : prop_of (store_set p k v h) (VRef p) k = v.
Proof. by rewrite prop_of_ref, obj_at_store_set, lookup_insert_eq. Qed.

Lemma prop_of_store_set_other h p k k' v :
  k' ≠ k -> prop_of (store_set p k v h) (VRef p) k' = prop_of h (VRef p) k'.
Proof.
  intros H. by rewrite !prop_of_ref, obj_at_store_set, lookup_insert_ne.
Qed.

Lemma prop_of_store_delete h p k :
  prop_of (store_delete p k h) (VRef p) k = VUndef.
Proof. by rewrite prop_of_ref, obj_at_store_delete, lookup_delete_eq. Qed.

Lemma prop_of_store_delete_other h p k k' :
  k' ≠ k ->
  prop_of (store_delete p k h) (VRef p) k' = prop_of h (VRef p) k'.
Proof.
  intros H. by rewrite !prop_of_ref, obj_at_store_delete, lookup_delete_ne.
Qed.

Lemma prop_of_alloc (h : heap) p l o k :
  l ≠ p -> prop_of (<[l := o]> h) (VRef p) k = prop_of h (VRef p) k.
Proof. intros H. by rewrite !prop_of_ref, obj_at_store_ne. Qed.

Lemma dom_store_set h p k v : dom (store_set p k v h) = {[p]} ∪ dom h.
Proof. unfold store_set. by rewrite dom_insert_L. Qed.

Lemma dom_store_delete h p k : dom (store_delete p k h) = {[p]} ∪ dom h.
Proof. unfold store_delete. by rewrite dom_insert_L. Qed.

Lemma fresh_spec (h : heap) : fresh (dom h) ∉ dom h.
Proof. apply is_fresh. Qed.

(** Reads through writes to the store. *)
Ltac store_simpl :=
  repeat first
    [ rewrite prop_of_store_set
    | rewrite prop_of_store_delete
    | rewrite prop_of_store_set_other by done
    | rewrite prop_of_store_delete_other by done
    | rewrite prop_of_alloc by done
    | rewrite obj_at_store_set
    | rewrite obj_at_store_delete
    | rewrite obj_at_store
    | rewrite obj_at_store_set_ne by done
    | rewrite obj_at_store_delete_ne by done
    | rewrite obj_at_store_ne by done ].

Ltac run_store :=
  repeat first [ rewrite bind_getProp_ref | step ]; fields.

(** The first part of the callback without [preserveParams]. *)
Lemma adoptLibrary_reset name pp w :
  truthy pp = false ->
  exists w1 l l',
    adoptLibrary name pp w = Ok tt w1 /\
    l ≠ l' /\ hp w !! l = None /\ hp w !! l' = None /\
    prop_of (hp w1) (VRef (params (sel w))) "library" = VStr name /\
    prop_of (hp w1) (VRef (params (sel w))) "subContentId"
    = uuid_of (uuids w) /\
    prop_of (hp w1) (VRef (params (sel w))) "params" = VRef l /\
    obj_at (hp w1) l = ∅ /\
    prop_of (hp w1) (VRef (params (sel w))) "metadata" = VRef l' /\
    obj_at (hp w1) l' = ∅.
Proof.
  intros Hpp. unfold adoptLibrary, setProp, deleteProp, createUUID.
  rewrite reset_condition, Hpp. unfold when. cbn [negb].
  run_store. rewrite bind_allocObj. fields.
  match goal with |- context [fresh (dom ?h)] =>
    pose proof (fresh_spec h) as Hl; set (l := fresh (dom h)) in *
  end.
  clearbody l. rewrite dom_store_delete, dom_store_set in Hl.
  assert (l ≠ params (sel w)) as Hlp by set_solver.
  assert (hp w !! l = None) as Hlw by (apply not_elem_of_dom; set_solver).
  clear Hl. run_store. rewrite bind_allocObj. fields.
  match goal with |- context [fresh (dom ?h)] =>
    pose proof (fresh_spec h) as Hl'; set (l' := fresh (dom h)) in *
  end.
  clearbody l'.
  rewrite dom_store_set, dom_insert_L, dom_store_delete, dom_store_set in Hl'.
  assert (l' ≠ params (sel w)) as Hlp' by set_solver.
  assert (l' ≠ l) as Hll by set_solver.
  assert (hp w !! l' = None) as Hlw' by (apply not_elem_of_dom; set_solver).
  clear Hl'. run_store. store_simpl. rewrite strict_eq_refl.
  run_store. store_simpl.
  change (strict_eq (VRef l') VUndef) with false. cbv iota.
  eexists _, l, l'. split; [reflexivity|]. fields. store_simpl.
  repeat split; done.
Qed.

(** The first part of the callback with [preserveParams]. *)
Lemma adoptLibrary_preserve name pp w :
  truthy pp = true ->
  exists w1,
    adoptLibrary name pp w = Ok tt w1 /\
    prop_of (hp w1) (VRef (params (sel w))) "library" = VStr name /\
    prop_of (hp w1) (VRef (params (sel w))) "subContentId"
    = (if strict_eq (prop_of (hp w) (VRef (params (sel w))) "subContentId")
                    VUndef
       then uuid_of (uuids w)
       else prop_of (hp w) (VRef (params (sel w))) "subContentId") /\
    prop_of (hp w1) (VRef (params (sel w))) "params"
    = prop_of (hp w) (VRef (params (sel w))) "params" /\
    (prop_of (hp w) (VRef (params (sel w))) "metadata" ≠ VUndef ->
     prop_of (hp w1) (VRef (params (sel w))) "metadata"
     = prop_of (hp w) (VRef (params (sel w))) "metadata").
Proof.
  intros Hpp. unfold adoptLibrary, setProp, deleteProp, createUUID.
  rewrite reset_condition, Hpp. unfold when. cbn [negb].
  run_store. store_simpl.
  destruct (strict_eq (prop_of (hp w) (VRef (params (sel w)))
                         "subContentId") VUndef) eqn:Esc;
    run_store; store_simpl;
    (destruct (strict_eq (prop_of (hp w) (VRef (params (sel w)))
                            "metadata") VUndef) eqn:Emd;
     [ rewrite bind_allocObj; fields;
       match goal with |- context [fresh (dom ?h)] =>
         pose proof (fresh_spec h) as Hl; set (l := fresh (dom h)) in *
       end;
       clearbody l; rewrite ?dom_store_set in Hl;
       assert (l ≠ params (sel w)) as Hlp by set_solver
     | ]);
    run_store; (eexists; split; [reflexivity|]); fields; store_simpl;
    (split; [done|]); (split; [done|]); (split; [done|]);
    intros Hmd; try done.
  all: unfold strict_eq in Emd; by apply bool_decide_eq_true_1 in Emd.
Qed.

Lemma same_store_findMetadata_from libs :
  keeps same_store (findMetadata_from libs).
Proof.
  induction libs; simpl;
    repeat (keeps_step_by ltac:(unfold same_store; reflexivity)).
Qed.

Lemma same_store_copyButton_toggle b :
  keeps same_store (copyButton_toggle b).
Proof.
  intros w. unfold copyButton_toggle, same_store.
  by destruct (copyButton (ui (sel w))).
Qed.

#[global] Hint Resolve same_store_findMetadata_from
  same_store_copyButton_toggle : keeps.

(** The second part of the callback touches no object. *)
Lemma same_store_buildForm name rendered mchildren :
  keeps same_store (buildForm name rendered mchildren).
Proof.
  unfold buildForm, findLibraryMetadataSettings, ns_processSemanticsChunk,
    change, fire.
  repeat (keeps_step_by ltac:(unfold same_store; reflexivity)).
Qed.

Lemma uuid_is_defined n : uuid_of n ≠ VUndef.
Proof. done. Qed.



(** ** C6: [validate] *)

Lemma validate_all_forallb cs valid :
  validate_all cs valid = valid && none_fails (Some cs).
Proof.
  unfold validate_all, none_fails. simpl.
  revert valid. induction cs as [|c cs IH]; intros valid; simpl.
  - by rewrite andb_true_r.
  - rewrite IH. destruct (strict_eq (c_valid c) (VBool false)); simpl.
    + by rewrite andb_false_r.
    + done.
Qed.

(** What [validate()] answers. *)
Lemma validate_answer w :
  validate w
  = Ok (optional (sel w)
        || (none_fails (mf ← metadataForm (sel w); mf_children mf)
            && match children (sel w) with
               | Some cs => none_fails (Some cs)
               | None => match libraries (sel w) with
                         | Some (_ :: _) => false
                         | _ => true
                         end
               end)) w.
Proof.
  unfold validate. step. f_equal.
  destruct (optional (sel w)); [done|]. simpl.
  destruct (metadataForm (sel w)) as [[[mcs|] ? ?]|]; simpl;
    destruct (children (sel w)) as [cs|]; simpl;
    rewrite ?validate_all_forallb; simpl;
    try destruct (libraries (sel w)) as [[|? ?]|]; simpl;
    rewrite ?andb_true_r, ?andb_false_r; done.
Qed.




(** ** C7: the options [librariesLoaded] renders *)

#[global] Instance same_options_preorder : PreOrder same_options.
Proof.
  split; [by intros w|]. intros w1 w2 w3 H1 H2. unfold same_options in *.
  congruence.
Qed.

Ltac keeps_options :=
  repeat (keeps_step_by ltac:(unfold same_options; reflexivity)).

Lemma same_options_copyButton_toggle b :
  keeps same_options (copyButton_toggle b).
Proof.
  intros w. unfold copyButton_toggle, same_options.
  by destruct (copyButton (ui (sel w))).
Qed.

Lemma same_options_pasteButton_toggle b :
  keeps same_options (pasteButton_toggle b).
Proof.
  intros w. unfold pasteButton_toggle, same_options.
  by destruct (pasteButton (ui (sel w))).
Qed.

#[global] Hint Resolve same_options_copyButton_toggle
  same_options_pasteButton_toggle : keeps.

Lemma same_options_canPaste_from clip libs :
  keeps same_options (canPaste_from clip libs).
Proof. induction libs; simpl; keeps_options. Qed.
#[global] Hint Resolve same_options_canPaste_from : keeps.

Lemma same_options_loadLibrary libraryName preserveParams :
  keeps same_options (loadLibrary libraryName preserveParams).
Proof.
  unfold loadLibrary, removeChildren, release_commonFields, deleteProp,
    ns_loadLibrary.
  keeps_options.
Qed.
#[global] Hint Resolve same_options_loadLibrary : keeps.

(** After the options are rendered nothing in [librariesLoaded]
    touches them. *)
Lemma librariesLoaded_options libList w :
  options (select (ui (sel (world_of (librariesLoaded libList w)))))
  = render_options (prop_of (hp w) (VRef (params (sel w))) "library")
                   libList.
Proof.
  unfold librariesLoaded. step. rewrite bind_getProp_ref. step. fields.
  match goal with |- context [world_of (?m ?w0)] =>
    assert (keeps same_options m) as H
  end.
  { unfold canPaste, change, fire. keeps_options. }
  rewrite H. reflexivity.
Qed.

Lemma elem_of_render_options cur libs o :
  o ∈ render_options cur libs <->
  o = createOption "-" (VStr "-") false \/
  exists d, d ∈ libs /\ offered cur d = true /\
    o = createOption (uberName d) (title d)
          (strict_eq (VStr (uberName d)) cur).
Proof.
  unfold render_options. rewrite elem_of_cons, list_elem_of_fmap.
  split; (intros [->|(d & Hd1 & Hd2)]; [by left | right]).
  - apply list_elem_of_filter in Hd2 as [Ho Hin]. by exists d.
  - destruct Hd2 as (Ho & ->). exists d. split; [done|].
    by apply list_elem_of_filter.
Qed.

(** C7, amended. For every descriptor list delivered to
    [librariesLoaded] the selection control holds, in this order, the
    "none" option and one option for each descriptor that is currently
    selected or has a title and is not restricted (restricted
    [undefined] or falsy); an option is marked selected exactly when
    its descriptor is the one the parameter object names.  In
    particular every descriptor with a title that is unrestricted or
    selected has its option, and when no descriptor is named ['-'] the
    "none" option is the only one of that value. *)
Theorem librariesLoaded_options_rendered
  (libList : list Descriptor) (w : World) :
  let cur := prop_of (hp w) (VRef (params (sel w))) "library" in
  let os := options (select (ui (sel (world_of (librariesLoaded libList w))))) in
  os = createOption "-" (VStr "-") false ::
       map (fun d => createOption (uberName d) (title d)
                       (strict_eq (VStr (uberName d)) cur))
           (filter (fun d => offered cur d = true) libList) /\
  (forall o, o ∈ os <->
     o = createOption "-" (VStr "-") false \/
     exists d, d ∈ libList /\
       (VStr (uberName d) = cur \/
        (title d ≠ VUndef /\
         (restricted d = VUndef \/ truthy (restricted d) = false))) /\
       o = createOption (uberName d) (title d)
             (bool_decide (VStr (uberName d) = cur))) /\
  (forall d, d ∈ libList -> offered_as_specified cur d = true ->
     createOption (uberName d) (title d) (strict_eq (VStr (uberName d)) cur)
     ∈ os) /\
  ((forall d, d ∈ libList -> uberName d ≠ "-") ->
   filter (fun o => o_value o = "-") os = [createOption "-" (VStr "-") false]).
Proof.
  intros cur os. subst os. rewrite librariesLoaded_options. fold cur.
  split; [reflexivity|]. split; [|split].
  - intros o. rewrite elem_of_render_options.
    split; (intros [->|(d & Hd & Ho & ->)]; [by left | right]);
      exists d; (split; [done|]); (split; [|done]).
    + unfold offered, strict_eq in Ho.
      apply orb_true_iff in Ho as [Ho|Ho].
      * left. by apply bool_decide_eq_true_1 in Ho.
      * right. apply andb_true_iff in Ho as [Ht Hr]. split.
        -- apply negb_true_iff, bool_decide_eq_false_1 in Ht. exact Ht.
        -- apply orb_true_iff in Hr as [Hr|Hr].
           ++ left. by apply bool_decide_eq_true_1 in Hr.
           ++ right. by apply negb_true_iff in Hr.
    + unfold offered, strict_eq. apply orb_true_iff.
      destruct Ho as [Ho|[Ht Hr]].
      * left. by apply bool_decide_eq_true_2.
      * right. apply andb_true_iff. split.
        -- by apply negb_true_iff, bool_decide_eq_false_2.
        -- apply orb_true_iff. destruct Hr as [Hr|Hr].
           ++ left. by apply bool_decide_eq_true_2.
           ++ right. by apply negb_true_iff.
  - intros d Hd Ho. apply elem_of_render_options. right. exists d.
    split; [done|]. split; [|done].
    unfold offered_as_specified in Ho. unfold offered.
    apply andb_true_iff in Ho as [Ht Hr].
    apply orb_true_iff in Hr as [Hr|Hr].
    + by rewrite Ht, Hr, orb_true_r.
    + by rewrite Hr.
  - intros Hnone. unfold render_options. rewrite filter_cons_True by done.
    f_equal.
    match goal with |- ?l = [] => destruct l as [|o l'] eqn:E end;
      [done|exfalso].
    assert (o ∈ o :: l') as Ho by apply list_elem_of_here.
    rewrite <- E in Ho. apply list_elem_of_filter in Ho as [Hv Ho].
    apply list_elem_of_fmap in Ho as (d & -> & Hd).
    apply list_elem_of_filter in Hd as [_ Hd]. simpl in Hv.
    by apply (Hnone d).
Qed.

Lemma librariesLoaded_options_rendered_witness :
  filter (fun o => o_value o = "-")
    (options (select (ui (sel (world_of
       (librariesLoaded [untitled; blanks] (mount legacy_setup)))))))
  = [createOption "-" (VStr "-") false].
Proof.
  pose proof (librariesLoaded_options_rendered [untitled; blanks]
                (mount legacy_setup)) as H.
  cbv zeta in H. destruct H as (_ & _ & _ & H). apply H.
  intros d Hd. apply elem_of_cons in Hd as [->|Hd]; [done|].
  apply elem_of_cons in Hd as [->|Hd]; [done|].
  by apply elem_of_nil in Hd.
Defined.

(** The content was saved with the library H5P.Legacy 1.0, whose
    descriptor has no title any more: its option is rendered all the
    same, and selected. *)
Lemma selected_untitled_is_offered :
  ~ options_as_specified [untitled; blanks] (mount legacy_setup).
Proof.
  unfold options_as_specified. rewrite librariesLoaded_options.
  vm_compute. discriminate.
Qed.

(** ** C8: the listeners of [change] *)

Lemma find_current_spec cur libs d :
  find_current cur libs = Some d <->
  exists l1 l2, libs = l1 ++ d :: l2 /\ Some (uberName d) = cur /\
    Forall (fun d' => Some (uberName d') ≠ cur) l1.
Proof.
  induction libs as [|a libs IH]; simpl.
  - split; [done|]. intros ([|? ?] & l2 & E & _); discriminate E.
  - case_bool_decide as Ha.
    + split.
      * intros [= ->]. exists [], libs. by repeat split.
      * intros (l1 & l2 & E & Hd & Hl1).
        destruct l1 as [|a' l1]; injection E as -> E; [done|].
        by apply Forall_cons in Hl1 as [Hl1 _].
    + rewrite IH. split.
      * intros (l1 & l2 & -> & Hd & Hl1). exists (a :: l1), l2.
        split; [done|]. split; [done|]. by constructor.
      * intros (l1 & l2 & E & Hd & Hl1).
        destruct l1 as [|a' l1]; injection E as -> E; [done|].
        apply Forall_cons in Hl1 as [_ Hl1]. by exists l1, l2.
Qed.

#[global] Instance only_params_preorder : PreOrder only_params.
Proof.
  split; [by intros w|]. intros w1 w2 w3 H1 H2. unfold only_params in *.
  congruence.
Qed.

Lemma only_params_allocObj o : keeps only_params (allocObj o).
Proof. intros w. reflexivity. Qed.
#[global] Hint Resolve only_params_allocObj : keeps.

(** The first part of the callback of a schema request returns. *)
Lemma adoptLibrary_returns name pp w :
  exists w1, adoptLibrary name pp w = Ok tt w1.
Proof.
  destruct (truthy pp) eqn:E.
  - destruct (adoptLibrary_preserve name pp w E) as (w1 & H & _).
    by exists w1.
  - destruct (adoptLibrary_reset name pp w E) as (w1 & l & l' & H & _).
    by exists w1.
Qed.

(** Besides the store and the identifiers it only records the current
    library. *)
Lemma adoptLibrary_frame name pp w :
  but_params (world_of (adoptLibrary name pp w))
  = but_params (upd_sel (set_currentLibrary (Some name)) w).
Proof.
  unfold adoptLibrary. rewrite bind_modify.
  match goal with |- but_params (world_of (?m ?w0)) = _ =>
    assert (keeps only_params m) as H
  end.
  { unfold setProp, deleteProp, createUUID.
    repeat (keeps_step_by ltac:(unfold only_params; reflexivity)). }
  apply H.
Qed.

(** A schema that arrives when the library list is there: the callback
    returns and has called every listener of [change], in the order of
    registration, with the descriptor of the library just loaded. *)
Lemma schemaLoaded_fires name pp rendered mchildren w libs :
  sane w -> name ≠ "-" ->
  libraries (sel w) = Some libs ->
  (localStorage w = true -> copyButton (ui (sel w)) ≠ None) ->
  exists w', schemaLoaded name pp rendered mchildren w = Ok tt w' /\
    fired w'
    = fired w ++ map (fun c => (c, find_current (Some name) libs))
                     (changes (sel w)) /\
    changes (sel w') = changes (sel w).
Proof.
  intros (Hc & Hf & Hm & Hln) Hname Hlibs Hbtn.
  destruct (adoptLibrary_returns name pp w) as (w1 & E1).
  pose proof (adoptLibrary_frame name pp w) as F. rewrite E1 in F.
  cbn [world_of] in F.
  assert (currentLibrary (sel w1) = Some name) as F1
    by exact (f_equal (fun x => currentLibrary (sel x)) F).
  assert (fetches w1 = fetches w) as F2
    by exact (f_equal fetches F).
  assert (metadataFormWrapper (sel w1) = metadataFormWrapper (sel w)) as F3
    by exact (f_equal (fun x => metadataFormWrapper (sel x)) F).
  assert (libraryName (sel w1) = libraryName (sel w)) as F4
    by exact (f_equal (fun x => libraryName (sel x)) F).
  assert (libraries (sel w1) = libraries (sel w)) as F5
    by exact (f_equal (fun x => libraries (sel x)) F).
  assert (localStorage w1 = localStorage w) as F6
    by exact (f_equal localStorage F).
  assert (copyButton (ui (sel w1)) = copyButton (ui (sel w))) as F7
    by exact (f_equal (fun x => copyButton (ui (sel x))) F).
  assert (fired w1 = fired w) as F8 by exact (f_equal fired F).
  assert (changes (sel w1) = changes (sel w)) as F9
    by exact (f_equal (fun x => changes (sel x)) F).
  assert (sane w1) as Hs1.
  { unfold sane. rewrite F1, F2, F3, F4. repeat split; try done.
    intros [= ->]. done. }
  destruct (buildForm_returns name rendered mchildren w1 libs Hs1)
    as (w' & E & Hfired & Hch & _).
  { by rewrite F5. }
  { by rewrite F6, F7. }
  exists w'. unfold schemaLoaded. rewrite (bind_Ok _ _ _ _ _ E1).
  split; [exact E|]. rewrite Hfired, Hch, F1, F8, F9. done.
Qed.

#[global] Instance quiet_preorder : PreOrder quiet.
Proof.
  split.
  - by intros w H.
  - intros w1 w2 w3 H1 H2 H. destruct (H1 H) as [H1a H1b].
    destruct (H2 H1a) as [H2a H2b]. split; [done|congruence].
Qed.

(** [librariesLoaded] calls [change()] under the flag only. *)
Lemma quiet_unless_flag {B} (m : M unit) (k : unit -> M B) :
  (forall u, keeps quiet (k u)) ->
  keeps quiet (gets (fun w => runChangeCallback (sel w)) ≫=
               fun run => when run m ≫= k).
Proof.
  intros Hk w H. rewrite bind_gets, H. apply (Hk tt w H).
Qed.

Ltac quiet_side := unfold quiet; intros H; split; [exact H | reflexivity].

Ltac quiet_step :=
  first [ apply quiet_unless_flag; intros ?
        | keeps_step_by ltac:(quiet_side) ].

Ltac quiet_tac := repeat quiet_step.

Lemma quiet_allocObj o : keeps quiet (allocObj o).
Proof. intros w. unfold allocObj. quiet_side. Qed.

Lemma quiet_copyButton_toggle b : keeps quiet (copyButton_toggle b).
Proof.
  intros w. unfold copyButton_toggle.
  destruct (copyButton (ui (sel w))); quiet_side.
Qed.

Lemma quiet_pasteButton_toggle b : keeps quiet (pasteButton_toggle b).
Proof.
  intros w. unfold pasteButton_toggle.
  destruct (pasteButton (ui (sel w))); quiet_side.
Qed.

#[global] Hint Resolve quiet_allocObj quiet_copyButton_toggle
  quiet_pasteButton_toggle : keeps.

Lemma quiet_canPaste_from clip libs : keeps quiet (canPaste_from clip libs).
Proof. induction libs; simpl; quiet_tac. Qed.
#[global] Hint Resolve quiet_canPaste_from : keeps.

Lemma quiet_canPaste clip : keeps quiet (canPaste clip).
Proof. unfold canPaste. quiet_tac. Qed.
#[global] Hint Resolve quiet_canPaste : keeps.

Lemma quiet_removeChildren : keeps quiet removeChildren.
Proof. unfold removeChildren, release_commonFields. quiet_tac. Qed.
#[global] Hint Resolve quiet_removeChildren : keeps.

Lemma quiet_findMetadata_from libs : keeps quiet (findMetadata_from libs).
Proof. induction libs; simpl; quiet_tac. Qed.
#[global] Hint Resolve quiet_findMetadata_from : keeps.

Lemma quiet_loadLibrary libraryName preserveParams :
  keeps quiet (loadLibrary libraryName preserveParams).
Proof. unfold loadLibrary, deleteProp, ns_loadLibrary. quiet_tac. Qed.
#[global] Hint Resolve quiet_loadLibrary : keeps.

Lemma quiet_run_cont k : keeps quiet (run_cont k).
Proof.
  unfold run_cont, pasteContent, overwriteParams, setProp, deleteProp.
  quiet_tac.
Qed.
#[global] Hint Resolve quiet_run_cont : keeps.

Lemma quiet_forEachChild_from task i cs :
  keeps quiet (forEachChild_from task i cs).
Proof. revert i. induction cs; intros i; simpl; quiet_tac. Qed.
#[global] Hint Resolve quiet_forEachChild_from : keeps.

(** Every operation but the arrival of a schema and [change()] is
    quiet. *)
Lemma quiet_run op : calls_listeners op = false -> keeps quiet (run op).
Proof.
  destruct op as [| | | | | | | | | | | |[cb|]| | | | | | | | | |];
    simpl; intros Hop; try discriminate Hop;
    unfold replaceContent, ns_confirmReplace, console_error, confirmReplace,
      replaceConfirmed, replaceDismissed, librariesLoaded, selectChanged,
      changeConfirmed, changeCanceled, findLibraryMetadataSettings, change,
      validate, dataInClipboard, parentIsReady, hide, hideLibrarySelector,
      hideCopyPaste, ready, forEachChild, remove;
    quiet_tac.
Qed.

Lemma quiet_run_all ops w :
  Forall (fun op => calls_listeners op = false) ops ->
  quiet w (run_all ops w).
Proof.
  intros Hops. revert w.
  induction Hops as [|op ops Hop _ IH]; intros w; simpl.
  - reflexivity.
  - etrans; [apply (quiet_run op Hop w) | apply IH].
Qed.

Lemma run_all_app ops1 ops2 w :
  run_all (ops1 ++ ops2) w = run_all ops2 (run_all ops1 w).
Proof. apply fold_left_app. Qed.

Lemma reachable_run_all ops w : reachable w -> reachable (run_all ops w).
Proof.
  intros (su & ops0 & ->). exists su, (ops0 ++ ops).
  by rewrite run_all_app.
Qed.

(** The run-once-ready flag is not raised in any state the widget
    reaches: the callback of a schema request would raise it without a
    library list, but then [findLibraryMetadataSettings] has thrown
    before. *)
Lemma reachable_flag_down w :
  reachable w -> runChangeCallback (sel w) = false.
Proof.
  intros (su & ops & ->).
  destruct (steady_run_all ops (mount su)) as (_ & _ & _ & _ & H & _).
  apply H. unfold mount. by destruct (su_params su).
Qed.

Lemma reachable_copyButton w :
  reachable w -> localStorage w = true -> copyButton (ui (sel w)) ≠ None.
Proof.
  intros (su & ops & ->).
  destruct (steady_run_all ops (mount su)) as (_ & _ & Hls & Hcb & _).
  rewrite Hls, Hcb, mount_localStorage, mount_copyButton.
  unfold button_handle. by intros ->.
Qed.


Lemma notified_reachable : reachable notified.
Proof.
  exists (sample_setup true None false),
    [OChange (Some 3); OLibrariesLoaded [blanks; essay];
     OSelectChanged "H5P.Blanks 1.3";
     OSchemaArrived 0 [valid_child] (Some [])].
  reflexivity.
Defined.



(** * Further properties of the widget *)

(** ** [enableCopyAndPaste] *)



(** ** The class of the wrapper *)

(** Lower-casing neither makes nor removes a character below the
    letters, such as the dot and the space. *)
Lemma lower_ascii_keeps c x :
  nat_of_ascii x < 65 ->
  Ascii.eqb (lower_ascii c) x = Ascii.eqb c x.
Proof.
  intros Hx. unfold lower_ascii.
  destruct (Nat.leb 65 (nat_of_ascii c) && Nat.leb (nat_of_ascii c) 90)
    eqn:E; [|done].
  apply andb_true_iff in E as [E1 E2].
  apply Nat.leb_le in E1, E2.
  assert (Ascii.eqb c x = false) as ->.
  { apply Ascii.eqb_neq. intros ->. lia. }
  apply Ascii.eqb_neq. intros Heq.
  assert (nat_of_ascii x = nat_of_ascii c + 32) as Hn.
  { rewrite <- Heq. apply nat_ascii_embedding. lia. }
  lia.
Qed.

Lemma has_char_toLowerCase x s :
  nat_of_ascii x < 65 -> has_char x (toLowerCase s) = has_char x s.
Proof.
  intros Hx. induction s as [|c r IH]; simpl; [done|].
  by rewrite lower_ascii_keeps, IH.
Qed.

Lemma toLowerCase_app s t :
  toLowerCase (s +:+ t) = toLowerCase s +:+ toLowerCase t.
Proof. induction s as [|c r IH]; simpl; [done|]. by rewrite IH. Qed.

Lemma before_app sep s t :
  has_char sep s = false -> before sep (s +:+ String sep t) = s.
Proof.
  induction s as [|c r IH]; simpl.
  - by rewrite Ascii.eqb_refl.
  - intros H. apply orb_false_iff in H as [Hc Hr].
    rewrite Hc. by rewrite IH.
Qed.

Lemma replace_first_app a b s t :
  has_char a s = false ->
  replace_first a b (s +:+ String a t) = s +:+ String b t.
Proof.
  induction s as [|c r IH]; simpl.
  - by rewrite Ascii.eqb_refl.
  - intros H. apply orb_false_iff in H as [Hc Hr].
    rewrite Hc. by rewrite IH.
Qed.

Lemma replace_first_absent a b s :
  has_char a s = false -> replace_first a b s = s.
Proof.
  induction s as [|c r IH]; simpl; [done|].
  intros H. apply orb_false_iff in H as [Hc Hr]. by rewrite Hc, IH.
Qed.

Lemma append_assoc (s t u : string) :
  (s +:+ t) +:+ u = s +:+ t +:+ u.
Proof.
  induction s as [|c r IH]; [done|].
  change (String c ((r +:+ t) +:+ u) = String c (r +:+ t +:+ u)).
  by rewrite IH.
Qed.



(** ** [removeChildren] and the common fields *)

Lemma splice_self_absent me holders :
  me ∉ holders.*1 -> splice_self me holders = holders.
Proof.
  induction holders as [|h rest IH]; simpl; [done|].
  intros Hme. apply not_elem_of_cons in Hme as [Hh Hrest].
  destruct (Nat.eqb_spec h.1 me) as [E|_]; [by destruct Hh|].
  by rewrite IH.
Qed.



(** What a teardown does to the common fields of the ancestor. *)
Lemma removeChildren_releases w cs :
  metadataFormWrapper (sel w) = false ->
  currentLibrary (sel w) ≠ Some "-" ->
  children (sel w) = Some cs ->
  exists w1, removeChildren w = Ok tt w1 /\
    commonFields w1
    = omap snd (map (release_path (self_id (sel w)) (currentLibrary (sel w)))
                    (commonFields w)) /\
    removedShared w1
    = removedShared w ++
      concat (map fst (map (release_path (self_id (sel w))
                                         (currentLibrary (sel w)))
                           (commonFields w))) /\
    children (sel w1) = Some (ns_removeChildren cs) /\
    currentLibrary (sel w1) = currentLibrary (sel w) /\
    self_id (sel w1) = self_id (sel w) /\
    metadataFormWrapper (sel w1) = false.
Proof.
  intros Hm Hc Hcs. unfold removeChildren, release_commonFields. step.
  rewrite Hcs, Hm. rewrite bool_decide_false by done.
  destruct (metadataForm (sel w)) as [[[mcs|] ? ?]|]; unfold when; step;
    (eexists; split; [reflexivity|]); fields; repeat split; done.
Qed.

Lemma filter_none {A} (P : A -> Prop) `{!forall x, Decision (P x)} l :
  Forall (fun x => ~ P x) l -> filter P l = [].
Proof.
  induction 1 as [|x l Hx _ IH]; [done|].
  by rewrite filter_cons_False.
Qed.

(** X4. A field shared with one other selector does not survive two
    teardowns in a row (two loads started one after the other, or a
    load followed by [remove()], while the current library is the same).
    The first teardown only takes this selector out of the parents of
    the field; the second one finds a single parent, the other selector,
    and removes the shared instance of the field all the same. *)
Theorem removeChildren_twice_removes_shared_field
  (w : World) (cs : list Child) (path fname : string)
  (fields : list (string * CommonField)) (s1 s2 : callback) (other : nat) :
  metadataFormWrapper (sel w) = false ->
  children (sel w) = Some cs ->
  currentLibrary (sel w) = Some (before "/" path) ->
  before "/" path ≠ "-" ->
  (path, fields) ∈ commonFields w ->
  Forall (fun nf => length nf.2 ≠ 1) fields ->
  (fname, [(self_id (sel w), s1); (other, s2)]) ∈ fields ->
  other ≠ self_id (sel w) ->
  exists w1 w2,
    removeChildren w = Ok tt w1 /\ removeChildren w1 = Ok tt w2 /\
    release_path (self_id (sel w)) (currentLibrary (sel w)) (path, fields)
    = ([], Some (path, map (fun nf => (nf.1, splice_self (self_id (sel w)) nf.2))
                           fields)) /\
    (exists fields', (path, fields') ∈ commonFields w1 /\
       (fname, [(other, s2)]) ∈ fields') /\
    (path, fname) ∈ removedShared w2.
Proof.
  intros Hm Hcs Hcur Hnone Hpath Hmany Hfield Hother.
  assert (currentLibrary (sel w) ≠ Some "-") as Hc
    by (rewrite Hcur; intros [= E]; by apply Hnone).
  destruct (removeChildren_releases w cs Hm Hc Hcs)
    as (w1 & E1 & Hcf1 & Hrs1 & Hcs1 & Hcur1 & Hid1 & Hm1).
  assert (currentLibrary (sel w1) ≠ Some "-") as Hc1 by by rewrite Hcur1.
  destruct (removeChildren_releases w1 _ Hm1 Hc1 Hcs1)
    as (w2 & E2 & Hcf2 & Hrs2 & _).
  set (me := self_id (sel w)) in *.
  set (fields' := map (fun nf : string * CommonField =>
                         (nf.1, splice_self me nf.2)) fields).
  assert (release_path me (currentLibrary (sel w)) (path, fields)
          = ([], Some (path, fields'))) as Hrp.
  { unfold release_path. simpl. rewrite Hcur.
    rewrite bool_decide_true by done.
    by rewrite (filter_none _ fields). }
  assert ((fname, [(other, s2)]) ∈ fields') as Hin'.
  { apply list_elem_of_fmap. eexists. split; [|exact Hfield].
    simpl. by rewrite Nat.eqb_refl. }
  assert ((path, fields') ∈ commonFields w1) as Hpath1.
  { rewrite Hcf1. apply list_elem_of_omap. exists ([], Some (path, fields')).
    split; [|done]. apply list_elem_of_fmap. by exists (path, fields). }
  exists w1, w2. split; [exact E1|]. split; [exact E2|].
  split; [exact Hrp|]. split; [by exists fields'|].
  rewrite Hrs2, Hid1, Hcur1. apply elem_of_app. right.
  apply list_elem_of_In, in_concat.
  exists (release_path me (currentLibrary (sel w)) (path, fields')).1.
  split.
  - apply list_elem_of_In, list_elem_of_fmap. eexists. split; [done|].
    apply list_elem_of_fmap. by exists (path, fields').
  - apply list_elem_of_In. unfold release_path. simpl. rewrite Hcur.
    rewrite bool_decide_true by done. simpl.
    apply list_elem_of_fmap. exists (fname, [(other, s2)]).
    split; [done|]. by apply list_elem_of_filter.
Qed.

Lemma removeChildren_twice_removes_shared_field_witness :
  exists w1 w2,
    removeChildren sharing = Ok tt w1 /\ removeChildren w1 = Ok tt w2 /\
    (exists fields', ("H5P.Blanks 1.3/behaviour", fields') ∈ commonFields w1 /\
       ("feedback", [(4, 2)]) ∈ fields') /\
    ("H5P.Blanks 1.3/behaviour", "feedback") ∈ removedShared w2.
Proof.
  assert (("H5P.Blanks 1.3/behaviour", [("feedback", [(0, 1); (4, 2)])])
          ∈ commonFields sharing) as Hpath by apply list_elem_of_here.
  assert (Forall (fun nf : string * CommonField => length nf.2 ≠ 1)
            [("feedback", [(0, 1); (4, 2)])]) as Hmany
    by (repeat constructor; simpl; lia).
  assert (("feedback", [(self_id (sel sharing), 1); (4, 2)])
          ∈ [("feedback", [(0, 1); (4, 2)])]) as Hfield
    by apply list_elem_of_here.
  destruct (removeChildren_twice_removes_shared_field sharing
              [valid_child] "H5P.Blanks 1.3/behaviour" "feedback"
              [("feedback", [(0, 1); (4, 2)])] 1 2 4
              eq_refl eq_refl eq_refl ltac:(done) Hpath Hmany Hfield
              ltac:(done))
    as (w1 & w2 & E1 & E2 & _ & H1 & H2).
  exists w1, w2. split; [exact E1|]. split; [exact E2|].
  split; [exact H1 | exact H2].
Defined.

(** ** [forEachChild] *)

Lemma forEachChild_from_all task i cs w :
  (forall j c, cs !! j = Some c -> task c (i + j) = false) ->
  forEachChild_from task i cs w
  = Ok tt (set_visited (visited w ++ seq i (length cs)) w).
Proof.
  revert i w. induction cs as [|c cs IH]; intros i w H; simpl.
  - rewrite app_nil_r. by destruct w.
  - step. pose proof (H 0 c eq_refl) as H0. rewrite Nat.add_0_r in H0.
    rewrite H0, IH.
    + fields. by rewrite <- app_assoc.
    + intros j c' Hj. replace (S i + j) with (i + S j) by lia.
      by apply H.
Qed.

Lemma forEachChild_from_hit task i cs k c w :
  cs !! k = Some c -> task c (i + k) = true ->
  (forall j c', j < k -> cs !! j = Some c' -> task c' (i + j) = false) ->
  forEachChild_from task i cs w
  = Ok tt (set_visited (visited w ++ seq i (S k)) w).
Proof.
  revert i k w. induction cs as [|c0 cs IH]; intros i k w Hk Hc Hb;
    [done|].
  simpl. step. destruct k as [|k].
  - injection Hk as ->. rewrite Nat.add_0_r in Hc. by rewrite Hc.
  - pose proof (Hb 0 c0 ltac:(lia) eq_refl) as H0.
    rewrite Nat.add_0_r in H0. rewrite H0.
    rewrite (IH (S i) k _ Hk).
    + fields. by rewrite <- app_assoc.
    + by replace (S i + k) with (i + S k) by lia.
    + intros j c' Hj Hc'. replace (S i + j) with (i + S j) by lia.
      apply Hb; [lia|done].
Qed.

(** X5. [forEachChild(task)] calls [task] on the children in order,
    each with its index, and stops after the first child for which
    [task] answers a truthy value: the children after it are not
    visited.  When [task] answers falsy for all, every child is visited
    once.  While [this.children] is [undefined] (no form was built so
    far) it throws a [TypeError] before any call.  Nothing in the widget
    changes. *)
Theorem forEachChild_stops_at_first_hit
  (task : Child -> nat -> bool) (w : World) (cs : list Child) :
  (children (sel w) = None -> forEachChild task w = Throw "TypeError" w) /\
  (children (sel w) = Some cs ->
   (forall j c, cs !! j = Some c -> task c j = false) ->
   forEachChild task w
   = Ok tt (set_visited (visited w ++ seq 0 (length cs)) w)) /\
  (children (sel w) = Some cs ->
   forall k c, cs !! k = Some c -> task c k = true ->
     (forall j c', j < k -> cs !! j = Some c' -> task c' j = false) ->
     forEachChild task w
     = Ok tt (set_visited (visited w ++ seq 0 (S k)) w)).
Proof.
  unfold forEachChild. split; [|split].
  - intros Hcs. step. by rewrite Hcs.
  - intros Hcs Hall. step. rewrite Hcs.
    by apply forEachChild_from_all.
  - intros Hcs k c Hk Hc Hb. step. rewrite Hcs.
    by apply (forEachChild_from_hit task 0 cs k c).
Qed.

Lemma forEachChild_stops_at_first_hit_witness :
  forEachChild (fun c i => Nat.eqb i 1)
    (run_all [OSchemaArrived 0 [valid_child; invalid_child; valid_child] None]
       (run_all [OSelectChanged "H5P.Blanks 1.3"] (listed true None false)))
  = Ok tt (set_visited [0; 1]
       (run_all [OSchemaArrived 0 [valid_child; invalid_child; valid_child] None]
          (run_all [OSelectChanged "H5P.Blanks 1.3"]
             (listed true None false)))).
Proof.
  destruct (forEachChild_stops_at_first_hit (fun c i => Nat.eqb i 1)
    (run_all [OSchemaArrived 0 [valid_child; invalid_child; valid_child] None]
       (run_all [OSelectChanged "H5P.Blanks 1.3"] (listed true None false)))
    [valid_child; invalid_child; valid_child]) as (_ & _ & H).
  apply (H eq_refl 1 invalid_child eq_refl eq_refl).
  intros [|j] c' Hj Hc'; [reflexivity | lia].
Defined.

(** ** The start of a load *)

Lemma loadLibrary_name_outcome w name pp :
  sane w -> name ≠ "-" ->
  exists w', loadLibrary (VStr name) pp w = Ok tt w' /\
    fetches w' = fetches w ++ [(name, pp)] /\
    wrapperLoading (ui (sel w')) = true /\
    wrapperClass (ui (sel w')) = editorClass name /\
    children (sel w') = ns_removeChildren <$> children (sel w) /\
    none_rendered w' /\
    only_loading w w'.
Proof.
  intros Hs Hname.
  destruct (removeChildren_returns w Hs) as (w1 & E1 & Hcs & Hnr).
  pose proof (removeChildren_frame w) as F. rewrite E1 in F.
  cbn [world_of] in F. unfold same_but_children in F.
  unfold loadLibrary. rewrite (bind_Ok _ _ _ _ _ E1). step.
  assert (strict_eq (VStr name) (VStr "-") = false) as ->.
  { apply bool_decide_eq_false_2. intros [= ->]. done. }
  unfold ns_loadLibrary. step.
  eexists. split; [reflexivity|].
  split. { fields. f_equal. exact (f_equal fetches F). }
  split; [reflexivity|]. split; [reflexivity|].
  split; [exact Hcs|]. split; [exact Hnr|].
  unfold only_loading.
  transitivity (but_loading w1); [reflexivity|].
  exact (f_equal (fun x =>
    upd_sel (upd_ui (fun d => set_wrapperClass "" (set_wrapperLoading false d)))
      (set_fetches [] x)) F).
Qed.

(** X6. [loadLibrary] with the name of a library (not the "none"
    sentinel) tears the children down, shows the loading text under the
    class of the library, and hands exactly one request to the schema
    loader, with the [preserveParams] it was given.  It touches nothing
    else: until the schema arrives the parameter object and the current
    library are what they were.  With a name that is not a string
    ([undefined] or [null], which [$select.val()] answers when nothing
    is selected) it throws a [TypeError] on [libraryName.split], after
    the teardown and without a request. *)
Theorem loadLibrary_requests_schema
  (w : World) (name : string) (pp : value) :
  sane w ->
  (name ≠ "-" ->
   exists w', loadLibrary (VStr name) pp w = Ok tt w' /\
     fetches w' = fetches w ++ [(name, pp)] /\
     wrapperLoading (ui (sel w')) = true /\
     wrapperClass (ui (sel w')) = editorClass name /\
     children (sel w') = ns_removeChildren <$> children (sel w) /\
     none_rendered w' /\
     only_loading w w' /\
     hp w' = hp w /\
     currentLibrary (sel w') = currentLibrary (sel w) /\
     select (ui (sel w')) = select (ui (sel w))) /\
  (forall v, (forall s, v ≠ VStr s) ->
     exists w', loadLibrary v pp w = Throw "TypeError" w' /\
       fetches w' = fetches w /\
       hp w' = hp w /\
       none_rendered w').
Proof.
  intros Hs. split.
  - intros Hname.
    destruct (loadLibrary_name_outcome w name pp Hs Hname)
      as (w' & E & H1 & H2 & H3 & H4 & H5 & F).
    exists w'. do 7 (split; [assumption|]).
    split; [exact (f_equal hp F)|].
    split; [exact (f_equal (fun x => currentLibrary (sel x)) F)|].
    exact (f_equal (fun x => select (ui (sel x))) F).
  - intros v Hv.
    destruct (removeChildren_returns w Hs) as (w1 & E1 & Hcs & Hnr).
    pose proof (removeChildren_frame w) as F. rewrite E1 in F.
    cbn [world_of] in F. unfold same_but_children in F.
    unfold loadLibrary. rewrite (bind_Ok _ _ _ _ _ E1). step.
    assert (strict_eq v (VStr "-") = false) as ->.
    { apply bool_decide_eq_false_2. apply Hv. }
    step. destruct v as [| | | |s|]; try (by destruct (Hv s));
      (eexists; split; [reflexivity|]);
      (split; [exact (f_equal fetches F)|]);
      (split; [exact (f_equal hp F)|]); exact Hnr.
Qed.

Lemma loadLibrary_requests_schema_witness :
  exists w',
    loadLibrary (VStr "H5P.Essay 1.2") VUndef
      (loaded true None false valid_child) = Ok tt w' /\
    fetches w' = [("H5P.Essay 1.2", VUndef)] /\
    wrapperClass (ui (sel w')) = "libwrap h5p-essay-editor" /\
    currentLibrary (sel w') = Some "H5P.Blanks 1.3".
Proof.
  destruct (loadLibrary_requests_schema (loaded true None false valid_child)
              "H5P.Essay 1.2" VUndef
              (reachable_sane _ (loaded_reachable true None false valid_child)))
    as [H _].
  destruct (H ltac:(done))
    as (w' & E & H1 & _ & H3 & _ & _ & _ & _ & H4 & _).
  exists w'. split; [exact E|]. split; [exact H1|].
  split; [exact H3 | exact H4].
Defined.

(** ** Confirmation before a replace *)

Lemma delete_last_added {A} (l : list A) (x : A) :
  delete (length l) (l ++ [x]) = l.
Proof. induction l as [|y l IH]; simpl; [done|]. by rewrite IH. Qed.

Lemma lookup_last_added {A} (l : list A) (x : A) :
  (l ++ [x]) !! length l = Some x.
Proof. induction l as [|y l IH]; simpl; done. Qed.

(** X7. [confirmReplace(next)] calls [next] at once, and once, while
    the parameter object names no library.  When it names one, [next]
    is not called: a dialog is shown; confirming it calls [next] once,
    dismissing it never does, and either way the dialog is gone and the
    widget is otherwise as it was. *)
Theorem confirmReplace_asks_when_selected (w : World) (next : callback) :
  let asked := set_replaceDialogs (replaceDialogs w ++ [KCall next]) w in
  let called := set_invoked (invoked w ++ [next]) w in
  (truthy (prop_of (hp w) (VRef (params (sel w))) "library") = false ->
   confirmReplace next w = Ok tt called) /\
  (truthy (prop_of (hp w) (VRef (params (sel w))) "library") = true ->
   confirmReplace next w = Ok tt asked /\
   replaceConfirmed (length (replaceDialogs w)) asked = Ok tt called /\
   replaceDismissed (length (replaceDialogs w)) asked = Ok tt w).
Proof.
  intros asked called. split.
  - intros H. unfold confirmReplace. step. rewrite bind_getProp_ref, H.
    reflexivity.
  - intros H. split; [|split].
    + unfold confirmReplace. step. by rewrite bind_getProp_ref, H.
    + unfold replaceConfirmed, asked. step. fields.
      rewrite lookup_last_added. step. fields.
      rewrite delete_last_added. unfold called. by destruct w.
    + unfold replaceDismissed, asked, modify. fields.
      rewrite delete_last_added. by destruct w.
Qed.


Lemma confirmReplace_asks_when_selected_witness :
  (exists w', confirmReplace 5 (loaded true None false valid_child) = Ok tt w' /\
     replaceDialogs w' = [KCall 5] /\ invoked w' = []) /\
  (exists w', confirmReplace 5 (listed true None false) = Ok tt w' /\
     replaceDialogs w' = [] /\ invoked w' = [5]).
Proof.
  destruct (confirmReplace_asks_when_selected
              (loaded true None false valid_child) 5) as [_ H1].
  destruct (confirmReplace_asks_when_selected
              (listed true None false) 5) as [H2 _].
  destruct (H1 eq_refl) as (E1 & _). pose proof (H2 eq_refl) as E2.
  split; eexists; (split; [eassumption|]); split; reflexivity.
Defined.

(** X8. A paste of supported content into a field that has a library
    changes nothing at first: [replaceContent] only opens a dialog.
    Dismissing the dialog leaves the widget exactly as it was before the
    paste was asked for; confirming it does what the paste would have
    done at once in a field without a library. *)
Theorem replaceContent_asks_when_selected
  (w : World) (clip : value) (libs : list Descriptor) :
  libraries (sel w) = Some libs ->
  pastable (hp w) libs clip ->
  truthy (prop_of (hp w) (VRef (params (sel w))) "library") = true ->
  let asked := set_replaceDialogs (replaceDialogs w ++ [KPaste clip]) w in
  replaceContent clip w = Ok tt asked /\
  replaceDismissed (length (replaceDialogs w)) asked = Ok tt w /\
  replaceConfirmed (length (replaceDialogs w)) asked = pasteContent clip w.
Proof.
  intros Hlibs Hp Hsel asked.
  destruct (canPaste_loaded clip w libs Hlibs) as (b & E & Hb).
  apply Hb in Hp. subst b.
  split; [|split].
  - unfold replaceContent. rewrite (bind_Ok _ _ _ _ _ E). cbn [negb].
    step. rewrite bind_getProp_ref. unfold ns_confirmReplace.
    by rewrite Hsel.
  - unfold replaceDismissed, asked, modify. fields.
    rewrite delete_last_added. by destruct w.
  - unfold replaceConfirmed, asked. step. fields.
    rewrite lookup_last_added. step. fields.
    rewrite delete_last_added. unfold run_cont. f_equal. by destruct w.
Qed.


Lemma replaceContent_asks_when_selected_witness :
  exists w',
    replaceContent (VRef 10) (loaded true None false valid_child) = Ok tt w' /\
    replaceDialogs w' = [KPaste (VRef 10)] /\
    obj_at (hp w') (params (sel w')) !! "library"
    = Some (VStr "H5P.Blanks 1.3") /\
    fetches w' = [].
Proof.
  assert (pastable (hp (loaded true None false valid_child)) [blanks; essay]
            (VRef 10)) as Hp.
  { split; [reflexivity|]. split; [reflexivity|].
    exists blanks. split; [apply list_elem_of_here | reflexivity]. }
  destruct (replaceContent_asks_when_selected
              (loaded true None false valid_child) (VRef 10) [blanks; essay]
              eq_refl Hp eq_refl) as (E & _).
  eexists. split; [exact E|]. repeat split; reflexivity.
Defined.

(** ** Choosing a library in the selection control *)

Lemma select_setVal_back (sl : Select) (v c : string) :
  val sl = VStr c ->
  existsb (fun o => String.eqb (o_value o) c) (options sl) = true ->
  select_setVal (VStr c) (select_setVal (VStr v) sl) = sl.
Proof.
  destruct sl as [os vl hd]. unfold select_setVal. cbn [options val hidden].
  by intros -> ->.
Qed.

Lemma changeCanceled_restores (w : World) (v c : string) :
  changeDialog w = false ->
  currentLibrary (sel w) = Some c ->
  val (select (ui (sel w))) = VStr c ->
  existsb (fun o => String.eqb (o_value o) c) (options (select (ui (sel w))))
  = true ->
  upd_sel (fun s => upd_ui (fun d =>
    set_select (select_setVal
                  (match currentLibrary s with
                   | Some c => VStr c
                   | None => VUndef
                   end) (select d)) d) s)
    (set_changeDialog false (set_changeDialog true
       (upd_sel (upd_ui (fun d =>
          set_select (select_setVal (VStr v) (select d)) d)) w)))
  = w.
Proof.
  destruct w as [[i p o ch li cl ln rc cd mf pr rd mw mb
                   [sl wc wl cb pb lh cph dt]]
                 h ls clp em co fe dg rds fi uu cf rs prs le ci inv vi no].
  simpl. intros -> -> Hv Ho.
  cbv -[select_setVal]. by rewrite select_setVal_back.
Qed.



(** ** The clipboard listener *)

#[global] Instance paste_kept_preorder : PreOrder paste_kept.
Proof.
  split; [by intros w|]. intros w1 w2 w3 H1 H2. unfold paste_kept in *.
  tauto.
Qed.

Ltac paste_side := unfold paste_kept; reflexivity.
Ltac paste_tac := repeat (keeps_step_by ltac:(paste_side)).

Lemma paste_kept_allocObj o : keeps paste_kept (allocObj o).
Proof. intros w. unfold allocObj. paste_side. Qed.

Lemma paste_kept_copyButton_toggle b :
  keeps paste_kept (copyButton_toggle b).
Proof.
  intros w. unfold copyButton_toggle.
  destruct (copyButton (ui (sel w))); paste_side.
Qed.

Lemma paste_kept_pasteButton_toggle b :
  keeps paste_kept (pasteButton_toggle b).
Proof.
  intros w. unfold pasteButton_toggle, paste_kept.
  destruct (pasteButton (ui (sel w))) eqn:E; fields; by rewrite ?E.
Qed.

#[global] Hint Resolve paste_kept_allocObj paste_kept_copyButton_toggle
  paste_kept_pasteButton_toggle : keeps.

Lemma paste_kept_canPaste_from clip libs :
  keeps paste_kept (canPaste_from clip libs).
Proof. induction libs; simpl; paste_tac. Qed.
#[global] Hint Resolve paste_kept_canPaste_from : keeps.

Lemma paste_kept_canPaste clip : keeps paste_kept (canPaste clip).
Proof. unfold canPaste. paste_tac. Qed.
#[global] Hint Resolve paste_kept_canPaste : keeps.

Lemma paste_kept_removeChildren : keeps paste_kept removeChildren.
Proof. unfold removeChildren, release_commonFields. paste_tac. Qed.
#[global] Hint Resolve paste_kept_removeChildren : keeps.

Lemma paste_kept_findMetadata_from libs :
  keeps paste_kept (findMetadata_from libs).
Proof. induction libs; simpl; paste_tac. Qed.
#[global] Hint Resolve paste_kept_findMetadata_from : keeps.

Lemma paste_kept_loadLibrary libraryName preserveParams :
  keeps paste_kept (loadLibrary libraryName preserveParams).
Proof. unfold loadLibrary, deleteProp, ns_loadLibrary. paste_tac. Qed.
#[global] Hint Resolve paste_kept_loadLibrary : keeps.

Lemma paste_kept_run_cont k : keeps paste_kept (run_cont k).
Proof.
  unfold run_cont, pasteContent, overwriteParams, setProp, deleteProp.
  paste_tac.
Qed.
#[global] Hint Resolve paste_kept_run_cont : keeps.

Lemma paste_kept_forEachChild_from task i cs :
  keeps paste_kept (forEachChild_from task i cs).
Proof. revert i. induction cs; intros i; simpl; paste_tac. Qed.
#[global] Hint Resolve paste_kept_forEachChild_from : keeps.

Lemma paste_kept_hidden :
  keeps paste_kept
    (modify (upd_sel (upd_ui (fun d =>
       set_select (select_hide (select d))
         (set_labelHidden true
            (set_copyButton (option_map_jq jq_hide (copyButton d))
               (set_pasteButton (option_map_jq jq_hide (pasteButton d))
                  d))))))).
Proof.
  intros w. unfold paste_kept, modify. fields.
  by destruct (pasteButton (ui (sel w))).
Qed.
#[global] Hint Resolve paste_kept_hidden : keeps.

Lemma paste_kept_run op : keeps paste_kept (run op).
Proof.
  destruct op; simpl;
    unfold replaceContent, ns_confirmReplace, console_error, confirmReplace,
      replaceConfirmed, replaceDismissed, librariesLoaded, selectChanged,
      changeConfirmed, changeCanceled, schemaArrived, schemaLoaded,
      adoptLibrary, setProp, deleteProp, createUUID, buildForm,
      ns_processSemanticsChunk, findLibraryMetadataSettings, change, fire,
      validate, dataInClipboard, parentIsReady, hide, hideLibrarySelector,
      hideCopyPaste, ready, forEachChild, remove;
    repeat first [ apply keeps_bind; [tc_solve | apply paste_kept_hidden
                                      | intros ?]
                 | keeps_step_by ltac:(paste_side) ].
Qed.

Lemma paste_kept_run_all ops w : paste_kept w (run_all ops w).
Proof.
  revert w. induction ops as [|op ops IH]; intros w; simpl.
  - reflexivity.
  - etrans; [apply (paste_kept_run op w) | apply IH].
Qed.

(** X10. The listener for [datainclipboard] does nothing while the
    library list is not loaded.  Once it is, the listener only sets the
    [disabled] class of the paste button: the button is disabled exactly
    when the event carries [reset] or the clipboard cannot be pasted
    here.  The listener is registered whether or not
    [window.localStorage] exists, but [this.$pasteButton] is assigned
    only with it and by no operation later: in a widget created without
    [window.localStorage] the listener throws a [TypeError] at every
    event once the list is loaded. *)
Theorem dataInClipboard_toggles_paste (w : World) (reset : bool) :
  (libraries (sel w) = None -> dataInClipboard reset w = Ok tt w) /\
  (forall libs j,
     libraries (sel w) = Some libs ->
     pasteButton (ui (sel w)) = Some j ->
     exists b, (b = true <-> pastable (hp w) libs (clipboard w)) /\
       dataInClipboard reset w
       = Ok tt (upd_sel (upd_ui (set_pasteButton
                  (Some (jq_toggleDisabled (reset || negb b) j)))) w)) /\
  (forall libs,
     libraries (sel w) = Some libs ->
     pasteButton (ui (sel w)) = None ->
     dataInClipboard reset w = Throw "TypeError" w) /\
  (forall su ops,
     su_localStorage su = false ->
     pasteButton (ui (sel (run_all ops (mount su)))) = None).
Proof.
  split; [|split; [|split]].
  - intros H. unfold dataInClipboard. step. by rewrite H.
  - intros libs j Hlibs Hj.
    destruct (canPaste_loaded (clipboard w) w libs Hlibs) as (b & E & Hb).
    exists b. split; [exact Hb|].
    unfold dataInClipboard. step. rewrite Hlibs.
    destruct reset; cbn [negb orb].
    + step. unfold pasteButton_toggle. by rewrite Hj.
    + step. rewrite (bind_Ok _ _ _ _ _ E).
      unfold pasteButton_toggle. by rewrite Hj.
  - intros libs Hlibs Hj.
    destruct (canPaste_loaded (clipboard w) w libs Hlibs) as (b & E & Hb).
    unfold dataInClipboard. step. rewrite Hlibs.
    destruct reset; cbn [negb].
    + step. unfold pasteButton_toggle. by rewrite Hj.
    + step. rewrite (bind_Ok _ _ _ _ _ E).
      unfold pasteButton_toggle. by rewrite Hj.
  - intros su ops Hls. apply (paste_kept_run_all ops (mount su)).
    unfold mount. destruct (su_params su); fields;
      unfold button_handle; by rewrite Hls.
Qed.

Lemma dataInClipboard_toggles_paste_witness :
  (exists w', dataInClipboard false (listed true None false) = Ok tt w' /\
     pasteButton (ui (sel w')) = Some (JqEl false true)) /\
  (exists w', dataInClipboard true (listed true None false) = Ok tt w' /\
     pasteButton (ui (sel w')) = Some (JqEl true true)) /\
  dataInClipboard false (listed false None false)
  = Throw "TypeError" (listed false None false).
Proof.
  destruct (dataInClipboard_toggles_paste (listed true None false) false)
    as (_ & H1 & _).
  destruct (dataInClipboard_toggles_paste (listed true None false) true)
    as (_ & H2 & _).
  destruct (dataInClipboard_toggles_paste (listed false None false) false)
    as (_ & _ & H3 & _).
  destruct (H1 [blanks; essay] (JqEl false true) eq_refl eq_refl)
    as (b1 & Hb1 & E1).
  destruct (H2 [blanks; essay] (JqEl false true) eq_refl eq_refl)
    as (b2 & Hb2 & E2).
  assert (b1 = true) as ->.
  { apply Hb1. split; [reflexivity|]. split; [reflexivity|].
    exists blanks. split; [apply list_elem_of_here | reflexivity]. }
  split; [|split].
  - eexists. split; [exact E1 | reflexivity].
  - eexists. split; [exact E2 | reflexivity].
  - exact (H3 [blanks; essay] eq_refl eq_refl).
Defined.

(** X11. Before the library list has arrived [canPaste] cannot answer
    for a clipboard with a generic payload: it reads
    [this.libraries.length] and throws a [TypeError], and so does
    [replaceContent], before it reports or changes anything.  For an
    empty clipboard, or one without a generic payload, it answers
    [false] even then. *)
Theorem canPaste_throws_before_list (w : World) (clip : value) :
  libraries (sel w) = None ->
  (truthy clip = true ->
   truthy (prop_of (hp w) clip "generic") = true ->
   canPaste clip w = Throw "TypeError" w /\
   replaceContent clip w = Throw "TypeError" w) /\
  (truthy clip = false \/ truthy (prop_of (hp w) clip "generic") = false ->
   canPaste clip w = Ok false w).
Proof.
  intros Hlibs. split.
  - intros Hc Hg.
    assert (canPaste clip w = Throw "TypeError" w) as E.
    { unfold canPaste. rewrite Hc.
      rewrite (bind_Ok _ _ _ _ _ (getProp_truthy clip "generic" w Hc)).
      rewrite Hg. apply bind_Throw. unfold theLibraries. by rewrite Hlibs. }
    split; [exact E|]. unfold replaceContent. by apply bind_Throw.
  - intros H. unfold canPaste.
    destruct (truthy clip) eqn:Hc; [|done].
    destruct H as [H|H]; [done|].
    rewrite (bind_Ok _ _ _ _ _ (getProp_truthy clip "generic" w Hc)).
    by rewrite H.
Qed.

Lemma canPaste_throws_before_list_witness :
  canPaste (VRef 10) (mount (sample_setup true None false))
  = Throw "TypeError" (mount (sample_setup true None false)) /\
  canPaste VUndef (mount (sample_setup true None false))
  = Ok false (mount (sample_setup true None false)).
Proof.
  destruct (canPaste_throws_before_list
              (mount (sample_setup true None false)) (VRef 10) eq_refl)
    as [H1 _].
  destruct (canPaste_throws_before_list
              (mount (sample_setup true None false)) VUndef eq_refl)
    as [_ H2].
  split; [apply (H1 eq_refl eq_refl) | apply H2; by left].
Defined.

(** ** The arrival of the library list *)

Lemma loadLibrary_name_next w name pp :
  sane w -> name ≠ "-" ->
  exists w', loadLibrary (VStr name) pp w = Ok tt w' /\
    fetches w' = fetches w ++ [(name, pp)] /\
    only_loading w w' /\ sane w' /\
    runChangeCallback (sel w') = runChangeCallback (sel w) /\
    hp w' = hp w /\ params (sel w') = params (sel w).
Proof.
  intros Hs Hname.
  destruct (loadLibrary_name_outcome w name pp Hs Hname)
    as (w' & E & Hf & _ & _ & _ & _ & F).
  exists w'. split; [exact E|]. split; [exact Hf|]. split; [exact F|].
  split.
  { pose proof (steady_loadLibrary True (VStr name) pp w) as H.
    rewrite E in H. destruct H as (_ & _ & _ & _ & _ & H). by apply H. }
  split; [exact (f_equal (fun x => runChangeCallback (sel x)) F)|].
  split; [exact (f_equal hp F)|].
  exact (f_equal (fun x => params (sel x)) F).
Qed.

(** X12. When the library list has a single descriptor and that one is
    offered, [librariesLoaded] hides the selection control, the label
    and the two buttons, and asks for the schema of the library with
    [preserveParams = true], without any confirmation.  The default
    library of the parameter object is then asked for as well: when it
    is that same library its schema is requested twice, and when it is
    another one two loads are in flight at once.  The parameter object
    is not touched before a schema arrives. *)
Theorem librariesLoaded_single_loads (w : World) (d : Descriptor) :
  sane w ->
  runChangeCallback (sel w) = false ->
  offered (prop_of (hp w) (VRef (params (sel w))) "library") d = true ->
  uberName d ≠ "-" ->
  (prop_of (hp w) (VRef (params (sel w))) "library" = VUndef \/
   exists s, prop_of (hp w) (VRef (params (sel w))) "library" = VStr s /\
             s ≠ "-") ->
  exists w', librariesLoaded [d] w = Ok tt w' /\
    fetches w'
    = fetches w ++ (uberName d, VBool true) ::
      match prop_of (hp w) (VRef (params (sel w))) "library" with
      | VStr s => [(s, VBool true)]
      | _ => []
      end /\
    libraries (sel w') = Some [d] /\
    hidden (select (ui (sel w'))) = true /\
    labelHidden (ui (sel w')) = true /\
    copyButton (ui (sel w')) = option_map_jq jq_hide (copyButton (ui (sel w))) /\
    pasteButton (ui (sel w'))
    = option_map_jq jq_hide (pasteButton (ui (sel w))) /\
    hp w' = hp w /\
    currentLibrary (sel w') = currentLibrary (sel w).
Proof.
  intros Hs Hflag Hoff Hname Hcur.
  set (cur := prop_of (hp w) (VRef (params (sel w))) "library") in *.
  unfold librariesLoaded. step. rewrite bind_getProp_ref. step. fields.
  fold cur. rewrite bool_decide_true by done. step.
  assert (render_options cur [d]
          = [createOption "-" (VStr "-") false;
             createOption (uberName d) (title d)
               (strict_eq (VStr (uberName d)) cur)]) as Hro.
  { unfold render_options. by rewrite filter_cons_True. }
  unfold last_option_value. fields. unfold select_hide, select_html.
  cbn [options]. rewrite Hro. cbn [last createOption o_value].
  match goal with |- context [loadLibrary _ _ ≫= _] => idtac end.
  match goal with |- exists w', (_ ≫= _) ?w0 = _ /\ _ =>
    set (w2 := w0)
  end.
  assert (sane w2) as Hs2 by exact Hs.
  destruct (loadLibrary_name_next w2 (uberName d) (VBool true) Hs2 Hname)
    as (w3 & E3 & Hf3 & F3 & Hs3 & Hflag3 & Hhp3 & Hp3).
  rewrite (bind_Ok _ _ _ _ _ E3). step.
  rewrite Hflag3. change (runChangeCallback (sel w2))
    with (runChangeCallback (sel w)). rewrite Hflag.
  unfold when. step. rewrite bind_getProp_ref.
  rewrite Hhp3. change (hp w2) with (hp w). fold cur.
  destruct Hcur as [Hcur|(s & Hcur & Hsn)]; rewrite Hcur.
  - unfold strict_eq. rewrite bool_decide_true by done. cbn [negb].
    exists w3. split; [reflexivity|].
    split. { by rewrite Hf3. }
    split; [exact (f_equal (fun x => libraries (sel x)) F3)|].
    split; [exact (f_equal (fun x => hidden (select (ui (sel x)))) F3)|].
    split; [exact (f_equal (fun x => labelHidden (ui (sel x))) F3)|].
    split; [exact (f_equal (fun x => copyButton (ui (sel x))) F3)|].
    split; [exact (f_equal (fun x => pasteButton (ui (sel x))) F3)|].
    split; [exact Hhp3|].
    exact (f_equal (fun x => currentLibrary (sel x)) F3).
  - unfold strict_eq. rewrite bool_decide_false by done. cbn [negb].
    destruct (loadLibrary_name_next w3 s (VBool true) Hs3 Hsn)
      as (w4 & E4 & Hf4 & F4 & _ & _ & Hhp4 & _).
    exists w4. split; [exact E4|].
    unfold only_loading in F3, F4. rewrite F3 in F4.
    split. { rewrite Hf4, Hf3. by rewrite <- app_assoc. }
    split; [exact (f_equal (fun x => libraries (sel x)) F4)|].
    split; [exact (f_equal (fun x => hidden (select (ui (sel x)))) F4)|].
    split; [exact (f_equal (fun x => labelHidden (ui (sel x))) F4)|].
    split; [exact (f_equal (fun x => copyButton (ui (sel x))) F4)|].
    split; [exact (f_equal (fun x => pasteButton (ui (sel x))) F4)|].
    split; [by rewrite Hhp4, Hhp3|].
    exact (f_equal (fun x => currentLibrary (sel x)) F4).
Qed.

Lemma librariesLoaded_single_loads_witness :
  exists w',
    librariesLoaded [blanks] (mount (sample_setup true None false))
    = Ok tt w' /\
    fetches w' = [("H5P.Blanks 1.3", VBool true)] /\
    hidden (select (ui (sel w'))) = true.
Proof.
  destruct (librariesLoaded_single_loads
              (mount (sample_setup true None false)) blanks
              (mount_sane _) eq_refl eq_refl ltac:(done)
              (or_introl eq_refl))
    as (w' & E & Hf & _ & Hh & _).
  exists w'. split; [exact E|]. split; [|exact Hh].
  rewrite Hf. reflexivity.
Defined.

(** X13. When the library list has a single descriptor and that one is
    not offered (it is restricted, or has no title, and is not the
    library of the parameter object), the last option of the selection
    control is the "none" option, and [librariesLoaded] loads that:
    whatever the parameter object held under [library], [params],
    [subContentId] and [metadata] is deleted, and no schema is asked
    for. *)
Theorem librariesLoaded_single_restricted_clears
  (w : World) (d : Descriptor) (j : jq) :
  sane w ->
  runChangeCallback (sel w) = false ->
  offered (prop_of (hp w) (VRef (params (sel w))) "library") d = false ->
  copyButton (ui (sel w)) = Some j ->
  exists w', librariesLoaded [d] w = Ok tt w' /\
    library_keys_cleared w' /\
    obj_at (hp w') (params (sel w))
    = delete "metadata" (delete "subContentId" (delete "params"
        (delete "library" (obj_at (hp w) (params (sel w)))))) /\
    fetches w' = fetches w /\
    libraries (sel w') = Some [d] /\
    options (select (ui (sel w'))) = [createOption "-" (VStr "-") false].
Proof.
  intros Hs Hflag Hoff Hj.
  set (cur := prop_of (hp w) (VRef (params (sel w))) "library") in *.
  unfold librariesLoaded. step. rewrite bind_getProp_ref. step. fields.
  fold cur. rewrite bool_decide_true by done. step.
  assert (render_options cur [d] = [createOption "-" (VStr "-") false])
    as Hro.
  { unfold render_options. rewrite filter_cons_False; [done|].
    by rewrite Hoff. }
  unfold last_option_value. fields. unfold select_hide, select_html.
  cbn [options]. rewrite Hro. cbn [last createOption o_value].
  match goal with |- exists w', (_ ≫= _) ?w0 = _ /\ _ =>
    set (w2 := w0)
  end.
  assert (sane w2) as Hs2 by exact Hs.
  destruct (loadLibrary_none_outcome w2 (VBool true) Hs2)
    as (w3 & E3 & F3 & Hobj & Hother & _).
  assert (copyButton (ui (sel w2)) = Some (jq_hide j)) as Hj2
    by (unfold w2; fields; by rewrite Hj).
  rewrite Hj2 in E3. rewrite (bind_Ok _ _ _ _ _ E3). step.
  unfold cleared_and_shown in F3.
  assert (runChangeCallback (sel w3) = false) as ->.
  { rewrite <- Hflag.
    exact (f_equal (fun x => runChangeCallback (sel x)) F3). }
  unfold when. step. rewrite bind_getProp_ref.
  change (params (sel w2)) with (params (sel w)) in Hobj.
  change (hp w2) with (hp w) in Hobj.
  assert (prop_of (hp w3) (VRef (params (sel w))) "library" = VUndef) as ->.
  { unfold prop_of. rewrite Hobj.
    rewrite !(lookup_delete_ne _ _ "library") by done.
    by rewrite lookup_delete_eq. }
  unfold strict_eq. rewrite bool_decide_true by done. cbn [negb].
  exists w3. split; [reflexivity|].
  assert (params (sel w3) = params (sel w)) as Hp3
    by exact (f_equal (fun x => params (sel x)) F3).
  split.
  { unfold library_keys_cleared. rewrite Hp3, Hobj.
    apply library_keys_deleted. }
  split; [exact Hobj|].
  split; [exact (f_equal fetches F3)|].
  split; [exact (f_equal (fun x => libraries (sel x)) F3)|].
  transitivity (options (select (ui (sel w2)))).
  - exact (f_equal (fun x => options (select (ui (sel x)))) F3).
  - reflexivity.
Qed.

Lemma librariesLoaded_single_restricted_clears_witness :
  exists w',
    librariesLoaded [essay] (loaded true None false valid_child) = Ok tt w' /\
    obj_at (hp w') (params (sel w')) !! "library" = None /\
    fetches w' = [].
Proof.
  destruct (librariesLoaded_single_restricted_clears
              (loaded true None false valid_child) essay (JqEl false true)
              (reachable_sane _ (loaded_reachable true None false valid_child))
              eq_refl eq_refl eq_refl)
    as (w' & E & Hk & _ & Hf & _).
  exists w'. split; [exact E|]. split; [|exact Hf].
  unfold library_keys_cleared in Hk.
  by apply Forall_cons in Hk as [Hk _].
Defined.

(** The end of [librariesLoaded]: the default library is loaded. *)
Lemma librariesLoaded_default w :
  sane w ->
  runChangeCallback (sel w) = false ->
  (prop_of (hp w) (VRef (params (sel w))) "library" = VUndef \/
   exists s, prop_of (hp w) (VRef (params (sel w))) "library" = VStr s /\
             s ≠ "-") ->
  exists w',
    (run ← gets (fun w => runChangeCallback (sel w));
     when run
       (change None;;
        modify (upd_sel (set_runChangeCallback false)));;
     library ← getProp (VRef (params (sel w))) "library";
     when (negb (strict_eq library VUndef))
          (loadLibrary library (VBool true))) w = Ok tt w' /\
    fetches w'
    = fetches w ++
      match prop_of (hp w) (VRef (params (sel w))) "library" with
      | VStr s => [(s, VBool true)]
      | _ => []
      end /\
    only_loading w w'.
Proof.
  intros Hs Hflag Hcur. step. rewrite Hflag. unfold when. step.
  rewrite bind_getProp_ref.
  destruct Hcur as [Hcur|(s & Hcur & Hsn)]; rewrite Hcur.
  - unfold strict_eq. rewrite bool_decide_true by done. cbn [negb].
    exists w. split; [reflexivity|]. split; [by rewrite app_nil_r|done].
  - unfold strict_eq. rewrite bool_decide_false by done. cbn [negb].
    destruct (loadLibrary_name_next w s (VBool true) Hs Hsn)
      as (w3 & E3 & Hf3 & F3 & _).
    exists w3. by repeat split.
Qed.

(** X14. When the library list has no or several descriptors,
    [librariesLoaded] renders the options, enables the paste button when
    the clipboard can be pasted here (under [window.localStorage]), and
    asks for the schema of the default library, the one the parameter
    object names, with [preserveParams = true] and without any
    confirmation.  Without a default library nothing is asked for.  The
    parameter object is not touched. *)
Theorem librariesLoaded_loads_default
  (w : World) (libList : list Descriptor) :
  sane w ->
  runChangeCallback (sel w) = false ->
  length libList ≠ 1 ->
  (localStorage w = true -> pasteButton (ui (sel w)) ≠ None) ->
  (prop_of (hp w) (VRef (params (sel w))) "library" = VUndef \/
   exists s, prop_of (hp w) (VRef (params (sel w))) "library" = VStr s /\
             s ≠ "-") ->
  exists w' b, librariesLoaded libList w = Ok tt w' /\
    (b = true <-> pastable (hp w) libList (clipboard w)) /\
    fetches w'
    = fetches w ++
      match prop_of (hp w) (VRef (params (sel w))) "library" with
      | VStr s => [(s, VBool true)]
      | _ => []
      end /\
    libraries (sel w') = Some libList /\
    pasteButton (ui (sel w'))
    = (if localStorage w && b
       then jq_toggleDisabled false <$> pasteButton (ui (sel w))
       else pasteButton (ui (sel w))) /\
    copyButton (ui (sel w')) = copyButton (ui (sel w)) /\
    hidden (select (ui (sel w'))) = hidden (select (ui (sel w))) /\
    hp w' = hp w /\
    currentLibrary (sel w') = currentLibrary (sel w).
Proof.
  intros Hs Hflag Hlen Hbtn Hcur.
  unfold librariesLoaded. step. rewrite bind_getProp_ref. step. fields.
  rewrite bool_decide_false by done.
  match goal with |- exists w' b, (_ ≫= _) ?w0 = _ /\ _ =>
    set (w1 := w0)
  end.
  assert (libraries (sel w1) = Some libList) as Hlibs1 by reflexivity.
  destruct (canPaste_loaded (clipboard w1) w1 libList Hlibs1)
    as (b & Eb & Hb).
  assert (exists w2,
    (ls ← gets localStorage;
     when ls
       (clip ← gets clipboard;
        ok ← canPaste clip;
        when ok (pasteButton_toggle false))) w1 = Ok tt w2 /\
    upd_sel (upd_ui (set_pasteButton None)) w2
    = upd_sel (upd_ui (set_pasteButton None)) w1 /\
    pasteButton (ui (sel w2))
    = (if localStorage w && b
       then jq_toggleDisabled false <$> pasteButton (ui (sel w))
       else pasteButton (ui (sel w)))) as (w2 & E2 & F2 & Hpb2).
  { step. change (localStorage w1) with (localStorage w).
    destruct (localStorage w) eqn:Els; cbn [when andb];
      [|by exists w1].
    step. rewrite (bind_Ok _ _ _ _ _ Eb).
    destruct b; cbn [when]; [|by exists w1].
    unfold pasteButton_toggle.
    change (pasteButton (ui (sel w1))) with (pasteButton (ui (sel w))).
    destruct (pasteButton (ui (sel w))) as [j|] eqn:Ej; [|by destruct Hbtn].
    eexists. split; [reflexivity|]. split; reflexivity. }
  rewrite (bind_Ok _ _ _ _ _ E2).
  assert (sane w2) as Hs2.
  { destruct Hs as (H1 & H2 & H3 & H4). unfold sane.
    assert (currentLibrary (sel w2) = currentLibrary (sel w)) as ->
      by exact (f_equal (fun x => currentLibrary (sel x)) F2).
    assert (fetches w2 = fetches w) as -> by exact (f_equal fetches F2).
    assert (metadataFormWrapper (sel w2) = metadataFormWrapper (sel w))
      as -> by exact (f_equal (fun x => metadataFormWrapper (sel x)) F2).
    assert (libraryName (sel w2) = libraryName (sel w)) as ->
      by exact (f_equal (fun x => libraryName (sel x)) F2).
    done. }
  assert (runChangeCallback (sel w2) = false) as Hflag2.
  { rewrite <- Hflag.
    exact (f_equal (fun x => runChangeCallback (sel x)) F2). }
  assert (hp w2 = hp w) as Hhp2 by exact (f_equal hp F2).
  assert (params (sel w2) = params (sel w)) as Hp2
    by exact (f_equal (fun x => params (sel x)) F2).
  destruct (librariesLoaded_default w2 Hs2 Hflag2) as (w3 & E3 & Hf3 & F3).
  { by rewrite Hhp2, Hp2. }
  rewrite Hp2 in E3. exists w3, b. split; [exact E3|]. split; [exact Hb|].
  rewrite Hhp2, Hp2 in Hf3. unfold only_loading in F3.
  split. { rewrite Hf3. f_equal. exact (f_equal fetches F2). }
  split.
  { transitivity (libraries (sel w2)).
    - exact (f_equal (fun x => libraries (sel x)) F3).
    - exact (f_equal (fun x => libraries (sel x)) F2). }
  split.
  { rewrite <- Hpb2.
    exact (f_equal (fun x => pasteButton (ui (sel x))) F3). }
  split.
  { transitivity (copyButton (ui (sel w2))).
    - exact (f_equal (fun x => copyButton (ui (sel x))) F3).
    - exact (f_equal (fun x => copyButton (ui (sel x))) F2). }
  split.
  { transitivity (hidden (select (ui (sel w2)))).
    - exact (f_equal (fun x => hidden (select (ui (sel x)))) F3).
    - exact (f_equal (fun x => hidden (select (ui (sel x)))) F2). }
  split.
  { rewrite <- Hhp2. exact (f_equal hp F3). }
  transitivity (currentLibrary (sel w2)).
  - exact (f_equal (fun x => currentLibrary (sel x)) F3).
  - exact (f_equal (fun x => currentLibrary (sel x)) F2).
Qed.


Lemma librariesLoaded_loads_default_witness :
  exists w',
    librariesLoaded [untitled; blanks] (mount legacy_setup) = Ok tt w' /\
    fetches w' = [("H5P.Legacy 1.0", VBool true)].
Proof.
  assert (length [untitled; blanks] ≠ 1) as H1 by done.
  assert (localStorage (mount legacy_setup) = true ->
          pasteButton (ui (sel (mount legacy_setup))) ≠ None) as H2
    by (intros _; discriminate).
  assert (prop_of (hp (mount legacy_setup))
            (VRef (params (sel (mount legacy_setup)))) "library"
          = VStr "H5P.Legacy 1.0") as H3 by reflexivity.
  assert ("H5P.Legacy 1.0" ≠ "-") as H4 by done.
  destruct (librariesLoaded_loads_default (mount legacy_setup)
              [untitled; blanks] (mount_sane _) eq_refl H1 H2
              (or_intror (ex_intro _ "H5P.Legacy 1.0" (conj H3 H4))))
    as (w' & b & E & _ & Hf & _).
  exists w'. split; [exact E|]. rewrite Hf. reflexivity.
Defined.

(** ** The arrival of a schema *)

(** The form the callback of a schema request builds. *)
Lemma buildForm_outcome name rendered mchildren w libs :
  sane w ->
  libraries (sel w) = Some libs ->
  (localStorage w = true -> copyButton (ui (sel w)) ≠ None) ->
  exists w', buildForm name rendered mchildren w = Ok tt w' /\
    metadataForm (sel w')
    = (if enableMetadata w name
       then Some {| mf_children := mchildren; mf_titleField := true;
                    mf_buttonAt := None |}
       else None) /\
    wrapperLoading (ui (sel w')) = false /\
    children (sel w') = Some (default [] (children (sel w)) ++ rendered) /\
    hp w' = hp w /\
    only_form w w'.
Proof.
  intros (_ & _ & _ & Hln) Hlibs Hbtn. unfold buildForm. step.
  set (w0 := upd_sel (upd_ui (set_wrapperLoading false)) w).
  destruct (findLibraryMetadataSettings_default name w0 libs Hlibs)
    as (w1 & E1 & _ & Hsame).
  rewrite (Hsame Hln) in E1. rewrite (bind_Ok _ _ _ _ _ E1).
  unfold ns_processSemanticsChunk. step. subst w0. fields.
  destruct (localStorage w) eqn:Els; unfold when.
  - destruct (copyButton (ui (sel w))) as [j|] eqn:Ej; [|by destruct Hbtn].
    match goal with |- context [copyButton_toggle false ≫= _] =>
      erewrite bind_Ok
        by (unfold copyButton_toggle; fields; rewrite Ej; reflexivity)
    end.
    step. fields. destruct (enableMetadata w name); cbn [negb]; fields;
      unfold when; step; fields; rewrite Hlibs;
      (erewrite change_fires by (fields; exact Hlibs));
      (eexists; split; [reflexivity|]); fields;
      (do 4 (split; [reflexivity|])); reflexivity.
  - step. fields. destruct (enableMetadata w name); cbn [negb]; fields;
      unfold when; step; fields; rewrite Hlibs;
      (erewrite change_fires by (fields; exact Hlibs));
      (eexists; split; [reflexivity|]); fields;
      (do 4 (split; [reflexivity|])); reflexivity.
Qed.

Lemma adoptLibrary_names name pp w :
  exists w1, adoptLibrary name pp w = Ok tt w1 /\
    prop_of (hp w1) (VRef (params (sel w))) "library" = VStr name.
Proof.
  destruct (truthy pp) eqn:E.
  - destruct (adoptLibrary_preserve name pp w E) as (w1 & H & Hl & _).
    by exists w1.
  - destruct (adoptLibrary_reset name pp w E)
      as (w1 & l & l' & H & _ & _ & _ & Hl & _).
    by exists w1.
Qed.

(** The callback of a schema request, once the library list is there. *)
Lemma schemaLoaded_outcome name pp rendered mchildren w libs :
  sane w -> name ≠ "-" ->
  libraries (sel w) = Some libs ->
  (localStorage w = true -> copyButton (ui (sel w)) ≠ None) ->
  exists w', schemaLoaded name pp rendered mchildren w = Ok tt w' /\
    currentLibrary (sel w') = Some name /\
    prop_of (hp w') (VRef (params (sel w))) "library" = VStr name /\
    metadataForm (sel w')
    = (if enableMetadata w name
       then Some {| mf_children := mchildren; mf_titleField := true;
                    mf_buttonAt := None |}
       else None) /\
    wrapperLoading (ui (sel w')) = false /\
    children (sel w') = Some (default [] (children (sel w)) ++ rendered) /\
    fetches w' = fetches w /\
    libraries (sel w') = Some libs /\
    params (sel w') = params (sel w) /\
    localStorage w' = localStorage w /\
    (copyButton (ui (sel w')) = None <-> copyButton (ui (sel w)) = None) /\
    select (ui (sel w')) = select (ui (sel w)) /\
    sane w'.
Proof.
  intros Hs Hname Hlibs Hbtn.
  pose proof (steady_schemaLoaded name pp rendered mchildren w)
    as (_ & _ & _ & Hcb & _ & Hsane).
  destruct (adoptLibrary_names name pp w) as (w1 & E1 & Hlib).
  pose proof (adoptLibrary_frame name pp w) as F. rewrite E1 in F.
  cbn [world_of] in F.
  assert (currentLibrary (sel w1) = Some name) as F1
    by exact (f_equal (fun x => currentLibrary (sel x)) F).
  assert (fetches w1 = fetches w) as F2 by exact (f_equal fetches F).
  assert (metadataFormWrapper (sel w1) = metadataFormWrapper (sel w)) as F3
    by exact (f_equal (fun x => metadataFormWrapper (sel x)) F).
  assert (libraryName (sel w1) = libraryName (sel w)) as F4
    by exact (f_equal (fun x => libraryName (sel x)) F).
  assert (libraries (sel w1) = libraries (sel w)) as F5
    by exact (f_equal (fun x => libraries (sel x)) F).
  assert (localStorage w1 = localStorage w) as F6
    by exact (f_equal localStorage F).
  assert (copyButton (ui (sel w1)) = copyButton (ui (sel w))) as F7
    by exact (f_equal (fun x => copyButton (ui (sel x))) F).
  assert (children (sel w1) = children (sel w)) as F8
    by exact (f_equal (fun x => children (sel x)) F).
  assert (enableMetadata w1 = enableMetadata w) as F9
    by exact (f_equal enableMetadata F).
  assert (params (sel w1) = params (sel w)) as F10
    by exact (f_equal (fun x => params (sel x)) F).
  assert (select (ui (sel w1)) = select (ui (sel w))) as F11
    by exact (f_equal (fun x => select (ui (sel x))) F).
  assert (sane w1) as Hs1.
  { destruct Hs as (Hc & Hf & Hm & Hln). unfold sane.
    rewrite F1, F2, F3, F4. repeat split; try done.
    intros [= ->]. done. }
  destruct (buildForm_outcome name rendered mchildren w1 libs Hs1)
    as (w' & E & Hmf & Hwl & Hch & Hhp & G).
  { by rewrite F5. }
  { by rewrite F6, F7. }
  unfold only_form in G.
  assert (schemaLoaded name pp rendered mchildren w = Ok tt w') as E'.
  { unfold schemaLoaded. by rewrite (bind_Ok _ _ _ _ _ E1). }
  rewrite E' in Hcb, Hsane. cbn [world_of] in Hcb, Hsane.
  exists w'. split; [exact E'|].
  split. { rewrite <- F1. exact (f_equal (fun x => currentLibrary (sel x)) G). }
  split; [by rewrite Hhp|].
  split; [by rewrite Hmf, F9|].
  split; [exact Hwl|].
  split; [by rewrite Hch, F8|].
  split. { rewrite <- F2. exact (f_equal fetches G). }
  split. { rewrite <- Hlibs, <- F5.
           exact (f_equal (fun x => libraries (sel x)) G). }
  split. { rewrite <- F10. exact (f_equal (fun x => params (sel x)) G). }
  split. { rewrite <- F6. exact (f_equal localStorage G). }
  split; [exact Hcb|].
  split. { rewrite <- F11. exact (f_equal (fun x => select (ui (sel x))) G). }
  by apply Hsane.
Qed.

Lemma schemaArrived_outcome i name pp rendered mchildren w libs :
  sane w ->
  libraries (sel w) = Some libs ->
  (localStorage w = true -> copyButton (ui (sel w)) ≠ None) ->
  fetches w !! i = Some (name, pp) ->
  exists w', schemaArrived i rendered mchildren w = Ok tt w' /\
    currentLibrary (sel w') = Some name /\
    prop_of (hp w') (VRef (params (sel w))) "library" = VStr name /\
    metadataForm (sel w')
    = (if enableMetadata w name
       then Some {| mf_children := mchildren; mf_titleField := true;
                    mf_buttonAt := None |}
       else None) /\
    wrapperLoading (ui (sel w')) = false /\
    children (sel w') = Some (default [] (children (sel w)) ++ rendered) /\
    fetches w' = delete i (fetches w) /\
    libraries (sel w') = Some libs /\
    params (sel w') = params (sel w) /\
    localStorage w' = localStorage w /\
    (copyButton (ui (sel w')) = None <-> copyButton (ui (sel w)) = None) /\
    select (ui (sel w')) = select (ui (sel w)) /\
    sane w'.
Proof.
  intros Hs Hlibs Hbtn Hi.
  assert (name ≠ "-") as Hname.
  { destruct Hs as (_ & Hf & _). rewrite Forall_lookup in Hf.
    exact (Hf i _ Hi). }
  unfold schemaArrived. step. rewrite Hi. step.
  apply (schemaLoaded_outcome name pp rendered mchildren
           (set_fetches (delete i (fetches w)) w) libs);
    [|exact Hname|exact Hlibs|exact Hbtn].
  destruct Hs as (Hc & Hf & Hm & Hln). split; [exact Hc|].
  split; [|by split]. fields. by apply Forall_delete.
Qed.

(** X15. When the schema of a request arrives in a widget whose
    library list is loaded, the callback returns: the request is no
    longer in flight, its library is the current one, and the loading
    text is gone.  The widget gets a metadata form exactly when
    [ns.enableMetadata] allows one for the library; the form always
    shows the extra title field and its button is never moved to a child
    field, whatever the descriptor of the library says about metadata:
    its settings are never read. *)
Theorem schema_arrival_builds_form
  (w : World) (i : nat) (name : string) (pp : value)
  (rendered : list Child) (mchildren : option (list Child))
  (libs : list Descriptor) :
  sane w ->
  libraries (sel w) = Some libs ->
  (localStorage w = true -> copyButton (ui (sel w)) ≠ None) ->
  fetches w !! i = Some (name, pp) ->
  exists w', schemaArrived i rendered mchildren w = Ok tt w' /\
    fetches w' = delete i (fetches w) /\
    currentLibrary (sel w') = Some name /\
    wrapperLoading (ui (sel w')) = false /\
    metadataForm (sel w')
    = (if enableMetadata w name
       then Some {| mf_children := mchildren; mf_titleField := true;
                    mf_buttonAt := None |}
       else None) /\
    select (ui (sel w')) = select (ui (sel w)).
Proof.
  intros Hs Hlibs Hbtn Hi.
  destruct (schemaArrived_outcome i name pp rendered mchildren w libs
              Hs Hlibs Hbtn Hi)
    as (w' & E & Hc & _ & Hmf & Hwl & _ & Hf & _ & _ & _ & _ & Hsel & _).
  exists w'. by repeat split.
Qed.

Lemma listed_reachable storage ancestor opt :
  reachable (listed storage ancestor opt).
Proof.
  exists (sample_setup storage ancestor opt),
    [OLibrariesLoaded [blanks; essay]].
  reflexivity.
Defined.

Lemma schema_arrival_builds_form_witness :
  exists w',
    schemaArrived 0 [valid_child] (Some [])
      (run_all [OSelectChanged "H5P.Blanks 1.3"] (listed true None false))
    = Ok tt w' /\
    fetches w' = [] /\
    currentLibrary (sel w') = Some "H5P.Blanks 1.3" /\
    metadataForm (sel w')
    = Some {| mf_children := Some []; mf_titleField := true;
              mf_buttonAt := None |}.
Proof.
  assert (reachable (run_all [OSelectChanged "H5P.Blanks 1.3"]
                       (listed true None false))) as Hr
    by apply reachable_run_all, listed_reachable.
  assert (localStorage (run_all [OSelectChanged "H5P.Blanks 1.3"]
                          (listed true None false)) = true ->
          copyButton (ui (sel (run_all [OSelectChanged "H5P.Blanks 1.3"]
                                 (listed true None false)))) ≠ None) as Hb.
  { intros _.
    assert (copyButton (ui (sel (run_all [OSelectChanged "H5P.Blanks 1.3"]
                                   (listed true None false))))
            = Some (JqEl true true)) as -> by reflexivity.
    discriminate. }
  destruct (schema_arrival_builds_form _ 0 "H5P.Blanks 1.3" VUndef
              [valid_child] (Some []) [blanks; essay]
              (reachable_sane _ Hr) eq_refl Hb eq_refl)
    as (w' & E & Hf & Hc & _ & Hmf & _).
  exists w'. split; [exact E|]. split; [exact Hf|].
  split; [exact Hc | exact Hmf].
Defined.

(** X16. There is no protection against answers that arrive out of
    order.  With two schema requests in flight, when the later request
    is answered first and the earlier one last, both callbacks run and
    the library asked for first, not the one chosen last, ends up as
    the current library and in the parameter object. *)
Theorem later_answer_wins
  (w : World) (i j : nat) (a b : string) (pa pb : value)
  (r1 r2 : list Child) (m1 m2 : option (list Child))
  (libs : list Descriptor) :
  sane w ->
  libraries (sel w) = Some libs ->
  (localStorage w = true -> copyButton (ui (sel w)) ≠ None) ->
  i < j ->
  fetches w !! i = Some (a, pa) ->
  fetches w !! j = Some (b, pb) ->
  exists w1 w2,
    schemaArrived j r1 m1 w = Ok tt w1 /\
    currentLibrary (sel w1) = Some b /\
    schemaArrived i r2 m2 w1 = Ok tt w2 /\
    currentLibrary (sel w2) = Some a /\
    prop_of (hp w2) (VRef (params (sel w))) "library" = VStr a.
Proof.
  intros Hs Hlibs Hbtn Hij Hi Hj.
  destruct (schemaArrived_outcome j b pb r1 m1 w libs Hs Hlibs Hbtn Hj)
    as (w1 & E1 & Hc1 & _ & _ & _ & _ & Hf1 & Hlibs1 & Hp1 & Hls1 & Hcb1
        & _ & Hs1).
  assert (fetches w1 !! i = Some (a, pa)) as Hi1
    by (by rewrite Hf1, list_lookup_delete_lt).
  assert (localStorage w1 = true -> copyButton (ui (sel w1)) ≠ None) as Hbtn1.
  { rewrite Hls1, Hcb1. exact Hbtn. }
  destruct (schemaArrived_outcome i a pa r2 m2 w1 libs Hs1 Hlibs1 Hbtn1 Hi1)
    as (w2 & E2 & Hc2 & Hl2 & _).
  exists w1, w2. rewrite Hp1 in Hl2. by repeat split.
Qed.


Lemma later_answer_wins_witness :
  exists w1 w2,
    schemaArrived 1 [valid_child] None
      (run_all [OSelectChanged "H5P.Blanks 1.3";
                OLoadLibrary (VStr "H5P.Essay 1.2") VUndef]
         (listed true None false)) = Ok tt w1 /\
    currentLibrary (sel w1) = Some "H5P.Essay 1.2" /\
    schemaArrived 0 [valid_child] None w1 = Ok tt w2 /\
    currentLibrary (sel w2) = Some "H5P.Blanks 1.3".
Proof.
  assert (reachable (run_all [OSelectChanged "H5P.Blanks 1.3";
                              OLoadLibrary (VStr "H5P.Essay 1.2") VUndef]
                       (listed true None false))) as Hr
    by apply reachable_run_all, listed_reachable.
  assert (localStorage (run_all [OSelectChanged "H5P.Blanks 1.3";
                              OLoadLibrary (VStr "H5P.Essay 1.2") VUndef]
                          (listed true None false)) = true ->
          copyButton (ui (sel (run_all [OSelectChanged "H5P.Blanks 1.3";
                              OLoadLibrary (VStr "H5P.Essay 1.2") VUndef]
                                 (listed true None false)))) ≠ None) as Hb.
  { intros _.
    assert (copyButton (ui (sel (run_all [OSelectChanged "H5P.Blanks 1.3";
                              OLoadLibrary (VStr "H5P.Essay 1.2") VUndef]
                                 (listed true None false))))
            = Some (JqEl true true)) as -> by reflexivity.
    discriminate. }
  assert (0 < 1) as H01 by lia.
  destruct (later_answer_wins _ 0 1 "H5P.Blanks 1.3" "H5P.Essay 1.2"
              VUndef VUndef [valid_child] [valid_child] None None
              [blanks; essay] (reachable_sane _ Hr) eq_refl Hb H01
              eq_refl eq_refl)
    as (w1 & w2 & E1 & Hc1 & E2 & Hc2 & _).
  exists w1, w2. split; [exact E1|]. split; [exact Hc1|].
  split; [exact E2 | exact Hc2].
Defined.

(** ** Which operation writes what *)

#[global] Instance same_at_preorder {A} (π : World -> A) :
  PreOrder (same_at π).
Proof.
  split; [by intros w|]. intros w1 w2 w3 H1 H2. unfold same_at in *.
  congruence.
Qed.

Section KeepsAny.
Context (R : relation World) `{!PreOrder R}.

Lemma keeps_canPaste_from_any clip libs : keeps R (canPaste_from clip libs).
Proof. induction libs; simpl; repeat (keeps_step_by idtac). Qed.

Lemma keeps_canPaste_any clip : keeps R (canPaste clip).
Proof.
  unfold canPaste.
  repeat first [ apply keeps_canPaste_from_any | keeps_step_by idtac ].
Qed.

Lemma keeps_findMetadata_from_any libs :
  (forall x w, R w (set_leaked x w)) -> keeps R (findMetadata_from libs).
Proof.
  intros H. induction libs; simpl;
    repeat (keeps_step_by ltac:(apply H)).
Qed.

Lemma keeps_forEachChild_from_any task i cs :
  (forall x w, R w (set_visited x w)) ->
  keeps R (forEachChild_from task i cs).
Proof.
  intros H. revert i. induction cs; intros i; simpl;
    repeat (keeps_step_by ltac:(apply H)).
Qed.

Lemma keeps_copyButton_toggle_any b :
  (forall x w, R w (upd_sel (upd_ui (set_copyButton x)) w)) ->
  keeps R (copyButton_toggle b).
Proof.
  intros H w. unfold copyButton_toggle.
  destruct (copyButton (ui (sel w))); [apply H | reflexivity].
Qed.

Lemma keeps_pasteButton_toggle_any b :
  (forall x w, R w (upd_sel (upd_ui (set_pasteButton x)) w)) ->
  keeps R (pasteButton_toggle b).
Proof.
  intros H w. unfold pasteButton_toggle.
  destruct (pasteButton (ui (sel w))); [apply H | reflexivity].
Qed.

Lemma keeps_allocObj_any o :
  (forall f w, R w (upd_hp f w)) -> keeps R (allocObj o).
Proof. intros H w. unfold allocObj. apply H. Qed.
End KeepsAny.

Ltac same_side := unfold same_at; reflexivity.

Ltac any_step side :=
  first
    [ apply keeps_canPaste_from_any; tc_solve
    | apply keeps_canPaste_any; tc_solve
    | apply keeps_findMetadata_from_any; first [tc_solve | intros ? ?; side]
    | apply keeps_forEachChild_from_any; first [tc_solve | intros ? ?; side]
    | apply keeps_copyButton_toggle_any; first [tc_solve | intros ? ?; side]
    | apply keeps_pasteButton_toggle_any; first [tc_solve | intros ? ?; side]
    | apply keeps_allocObj_any; first [tc_solve | intros ? ?; side]
    | keeps_step_by side ].

Ltac same_step := any_step ltac:(same_side).

Ltac unfold_ops :=
  unfold replaceContent, ns_confirmReplace, console_error, confirmReplace,
    replaceConfirmed, replaceDismissed, librariesLoaded, selectChanged,
    changeConfirmed, changeCanceled, schemaArrived, schemaLoaded,
    adoptLibrary, createUUID, buildForm, ns_processSemanticsChunk,
    findLibraryMetadataSettings, change, fire, validate, dataInClipboard,
    parentIsReady, hide, hideLibrarySelector, hideCopyPaste, ready,
    forEachChild, remove, run_cont, pasteContent, overwriteParams,
    loadLibrary, ns_loadLibrary, removeChildren, release_commonFields,
    setProp, deleteProp.

Ltac same_tac := unfold_ops; repeat same_step.

Lemma currentLibrary_writer op :
  (forall i r m, op ≠ OSchemaArrived i r m) ->
  keeps (same_at (fun w => currentLibrary (sel w))) (run op).
Proof.
  destruct op; simpl; intros Hop; try (by same_tac).
  by destruct (Hop i rendered mchildren).
Qed.

Lemma libraries_writer op :
  (forall l, op ≠ OLibrariesLoaded l) ->
  keeps (same_at (fun w => libraries (sel w))) (run op).
Proof.
  destruct op; simpl; intros Hop; try (by same_tac).
  by destruct (Hop libList).
Qed.

Lemma passReadies_writer op :
  op ≠ OParentIsReady ->
  keeps (same_at (fun w => passReadies (sel w))) (run op).
Proof. destruct op; simpl; intros Hop; by same_tac. Qed.

Lemma changes_writer op :
  (forall cb, op ≠ OChange (Some cb)) ->
  keeps (same_at (fun w => changes (sel w))) (run op).
Proof.
  destruct op as [| | | | | | | | | | | |[cb|]| | | | | | | | | |];
    simpl; intros Hop; try (by same_tac).
  by destruct (Hop cb).
Qed.

Lemma store_writer op :
  may_write_store op = false -> keeps (same_at hp) (run op).
Proof.
  destruct op; simpl; intros Hop; try discriminate Hop; by same_tac.
Qed.

Lemma passReadies_writer_or_ready op w :
  op = OParentIsReady \/
  passReadies (sel (world_of (run op w))) = passReadies (sel w).
Proof.
  destruct op; try (by left); right; by apply passReadies_writer.
Qed.



(** ** [ready] *)

Lemma passReadies_stays_false ops w :
  passReadies (sel w) = false -> passReadies (sel (run_all ops w)) = false.
Proof.
  revert w. induction ops as [|op ops IH]; intros w Hw; simpl; [done|].
  apply IH.
  destruct (passReadies_writer_or_ready op w) as [->|E];
    [reflexivity | by rewrite E].
Qed.

(** X18. [ready(f)] hands [f] to the parent as long as the parent has
    not reported that the tree is complete: then it changes nothing
    else, so a sequence of calls reaches the parent in the order of the
    calls.  The widget starts in that state; the callback it gives to
    the parent's [ready] ends it, and no operation brings it back: from
    then on no callback is handed to the parent any more. *)
Theorem ready_passes_until_parent_is_ready
  (w : World) (f : callback) (fs : list callback) :
  (forall su, passReadies (sel (mount su)) = true) /\
  (passReadies (sel w) = true ->
   ready f w = Ok tt (set_parentReadies (parentReadies w ++ [f]) w) /\
   run_all (map OReady fs) w
   = set_parentReadies (parentReadies w ++ fs) w) /\
  passReadies (sel (world_of (parentIsReady w))) = false /\
  (passReadies (sel w) = false ->
   parentReadies (world_of (ready f w)) = parentReadies w /\
   forall ops, passReadies (sel (run_all ops w)) = false).
Proof.
  split; [|split; [|split]].
  - intros su. unfold mount. by destruct (su_params su).
  - intros H. split.
    + unfold ready. step. by rewrite H.
    + revert w H. induction fs as [|g fs IH]; intros w H; simpl.
      * rewrite app_nil_r. by destruct w.
      * unfold ready at 1. rewrite bind_gets, H. cbn [world_of modify].
        rewrite IH by exact H. fields. by rewrite <- app_assoc.
  - reflexivity.
  - intros H. split.
    + unfold ready. step. rewrite H.
      by destruct (readies (sel w)).
    + intros ops. by apply passReadies_stays_false.
Qed.

Lemma ready_passes_until_parent_is_ready_witness :
  (exists w', ready 3 (listed true None false) = Ok tt w' /\
     parentReadies w' = [3]) /\
  parentReadies (world_of (ready 3 (world_of (parentIsReady
                   (listed true None false))))) = [].
Proof.
  destruct (ready_passes_until_parent_is_ready (listed true None false) 3 [])
    as (_ & H1 & _).
  destruct (ready_passes_until_parent_is_ready
              (world_of (parentIsReady (listed true None false))) 3 [])
    as (_ & _ & _ & H2).
  destruct (H1 eq_refl) as [E _]. destruct (H2 eq_refl) as [E2 _].
  split.
  - eexists. split; [exact E | reflexivity].
  - rewrite E2. reflexivity.
Defined.

(** ** Loads in flight *)

(** X19. Selecting "none" does not withdraw a schema request that is
    in flight.  The four keys are deleted from the parameter object at
    once; when the schema of the old request arrives afterwards its
    callback runs all the same: the library is back in the parameter
    object and is the current library again, although the author chose
    "none" after asking for it. *)
Theorem none_does_not_cancel_load
  (w : World) (i : nat) (name : string) (pp pp' : value) (j : jq)
  (rendered : list Child) (mchildren : option (list Child))
  (libs : list Descriptor) :
  sane w ->
  libraries (sel w) = Some libs ->
  copyButton (ui (sel w)) = Some j ->
  fetches w !! i = Some (name, pp) ->
  exists w1 w2,
    loadLibrary (VStr "-") pp' w = Ok tt w1 /\
    library_keys_cleared w1 /\
    fetches w1 = fetches w /\
    schemaArrived i rendered mchildren w1 = Ok tt w2 /\
    prop_of (hp w2) (VRef (params (sel w))) "library" = VStr name /\
    currentLibrary (sel w2) = Some name.
Proof.
  intros Hs Hlibs Hj Hi.
  destruct (loadLibrary_none_outcome w pp' Hs)
    as (w1 & E1 & F & Hobj & _ & _ & _ & _ & Hcb).
  rewrite Hj in E1. unfold cleared_and_shown in F.
  assert (params (sel w1) = params (sel w)) as Hp1
    by exact (f_equal (fun x => params (sel x)) F).
  assert (fetches w1 = fetches w) as Hf1 by exact (f_equal fetches F).
  assert (libraries (sel w1) = Some libs) as Hlibs1.
  { rewrite <- Hlibs. exact (f_equal (fun x => libraries (sel x)) F). }
  assert (sane w1) as Hs1.
  { pose proof (steady_loadLibrary True (VStr "-") pp' w) as H.
    rewrite E1 in H. destruct H as (_ & _ & _ & _ & _ & H). by apply H. }
  assert (localStorage w1 = true -> copyButton (ui (sel w1)) ≠ None)
    as Hbtn1 by (intros _; by rewrite Hcb, Hj).
  assert (fetches w1 !! i = Some (name, pp)) as Hi1 by by rewrite Hf1.
  destruct (schemaArrived_outcome i name pp rendered mchildren w1 libs
              Hs1 Hlibs1 Hbtn1 Hi1)
    as (w2 & E2 & Hc2 & Hl2 & _).
  exists w1, w2. split; [exact E1|].
  split.
  { unfold library_keys_cleared. rewrite Hp1, Hobj.
    apply library_keys_deleted. }
  split; [exact Hf1|]. split; [exact E2|].
  split; [by rewrite <- Hp1|exact Hc2].
Qed.

Lemma none_does_not_cancel_load_witness :
  exists w1 w2,
    loadLibrary (VStr "-") VUndef
      (run_all [OSelectChanged "H5P.Blanks 1.3"] (listed true None false))
    = Ok tt w1 /\
    fetches w1 = [("H5P.Blanks 1.3", VUndef)] /\
    schemaArrived 0 [valid_child] None w1 = Ok tt w2 /\
    currentLibrary (sel w2) = Some "H5P.Blanks 1.3".
Proof.
  assert (reachable (run_all [OSelectChanged "H5P.Blanks 1.3"]
                       (listed true None false))) as Hr
    by apply reachable_run_all, listed_reachable.
  destruct (none_does_not_cancel_load _ 0 "H5P.Blanks 1.3" VUndef VUndef
              (JqEl true true) [valid_child] None [blanks; essay]
              (reachable_sane _ Hr) eq_refl eq_refl eq_refl)
    as (w1 & w2 & E1 & _ & Hf & E2 & _ & Hc).
  exists w1, w2. split; [exact E1|]. split; [exact Hf|].
  split; [exact E2 | exact Hc].
Defined.

(** ** A paste and the load that follows *)

Lemma pasteContent_outcome c g u w :
  sane w ->
  c ≠ params (sel w) -> g ≠ params (sel w) ->
  obj_at (hp w) c !! "generic" = Some (VRef g) ->
  obj_at (hp w) g !! "library" = Some (VStr u) ->
  u ≠ "-" ->
  exists w2, pasteContent (VRef c) w = Ok tt w2 /\
    obj_at (hp w2) (params (sel w)) = obj_at (hp w) g /\
    fetches w2 = fetches w ++ [(u, VBool true)] /\
    params (sel w2) = params (sel w) /\
    libraries (sel w2) = libraries (sel w) /\
    localStorage w2 = localStorage w /\
    copyButton (ui (sel w2)) = copyButton (ui (sel w)) /\
    sane w2.
Proof.
  intros Hs Hc Hg Hgen Hlib Hu. unfold pasteContent.
  rewrite (bind_Ok _ _ _ _ _ (getProp_ref c "generic" w _ Hgen)).
  rewrite (bind_Ok _ _ _ _ _ (getProp_ref g "library" w _ Hlib)).
  match goal with |- context [modify ?f ≫= _] => set (w0 := f w) end.
  rewrite (bind_Ok _ _ w tt w0) by done.
  destruct (overwriteParams_spec c g w0 Hc Hg Hgen) as (w1 & E1 & W1 & O1).
  rewrite (bind_Ok _ _ _ _ _ E1).
  assert (obj_at (hp w1) c !! "generic" = Some (VRef g)) as Hgen1
    by (by rewrite (writes_only_obj_at _ w0 w1 c W1 Hc)).
  assert (obj_at (hp w1) g !! "library" = Some (VStr u)) as Hlib1
    by (by rewrite (writes_only_obj_at _ w0 w1 g W1 Hg)).
  rewrite (bind_Ok _ _ _ _ _ (getProp_ref c "generic" w1 _ Hgen1)).
  rewrite (bind_Ok _ _ _ _ _ (getProp_ref g "library" w1 _ Hlib1)).
  pose proof (proj1 W1) as Hw1.
  assert (sane w1) as Hs1 by (rewrite Hw1; exact Hs).
  destruct (loadLibrary_name_next w1 u (VBool true) Hs1 Hu)
    as (w2 & E2 & Hf2 & F2 & Hs2 & _ & Hhp2 & Hp2).
  exists w2. split; [exact E2|]. unfold only_loading in F2.
  split. { rewrite Hhp2. exact O1. }
  split. { rewrite Hf2. f_equal. by rewrite Hw1. }
  split. { rewrite Hp2. by rewrite Hw1. }
  split.
  { transitivity (libraries (sel w1)).
    - exact (f_equal (fun x => libraries (sel x)) F2).
    - by rewrite Hw1. }
  split.
  { transitivity (localStorage w1).
    - exact (f_equal localStorage F2).
    - by rewrite Hw1. }
  split; [|exact Hs2].
  transitivity (copyButton (ui (sel w1))).
  - exact (f_equal (fun x => copyButton (ui (sel x))) F2).
  - by rewrite Hw1.
Qed.

Lemma schemaArrived_store i name pp rendered mchildren w w1 :
  fetches w !! i = Some (name, pp) ->
  adoptLibrary name pp (set_fetches (delete i (fetches w)) w) = Ok tt w1 ->
  hp (world_of (schemaArrived i rendered mchildren w)) = hp w1.
Proof.
  intros Hi E1. unfold schemaArrived. step. rewrite Hi. step.
  unfold schemaLoaded. rewrite (bind_Ok _ _ _ _ _ E1).
  apply same_store_buildForm.
Qed.



(** ** The click on the paste button *)



(** ** [remove] *)

Lemma ns_removeChildren_idem cs :
  ns_removeChildren (ns_removeChildren cs) = ns_removeChildren cs.
Proof.
  unfold ns_removeChildren. rewrite map_map. reflexivity.
Qed.

(** X22. [remove()] returns in every sane state, leaves no child
    rendered, detaches the widget and does not touch the object store.
    It is idempotent on the widget: a second call returns as well and
    changes no field of the widget and nothing in the store.  (What a
    second teardown can change is the ancestor's table of common
    fields.) *)
Theorem remove_is_idempotent (w : World) :
  sane w ->
  exists w1 w2,
    remove w = Ok tt w1 /\
    none_rendered w1 /\
    detached (ui (sel w1)) = true /\
    hp w1 = hp w /\
    remove w1 = Ok tt w2 /\
    sel w2 = sel w1 /\
    hp w2 = hp w1.
Proof.
  intros (Hc & _ & Hm & _).
  unfold remove, removeChildren, release_commonFields.
  assert (bool_decide (currentLibrary (sel w) = Some "-") = false) as Hd
    by by apply bool_decide_eq_false_2.
  destruct (metadataForm (sel w)) as [[[mcs|] tf ba]|] eqn:Emf;
    destruct (children (sel w)) as [cs|] eqn:Ecs;
    (eexists _, _; split;
     [ step; rewrite Emf; fields; step; fields; rewrite ?Ecs, ?Hd, ?Hm;
       unfold when; step; reflexivity |]);
    (split; [ split; fields; intros; simplify_eq/=;
              try apply ns_removeChildren_unrendered; try done |]);
    (split; [reflexivity|]); (split; [reflexivity|]);
    (split;
     [ step; fields; rewrite ?Emf; fields; step; fields;
       rewrite ?Ecs, ?Hd, ?Hm; unfold when; step; reflexivity |]);
    fields; rewrite ?ns_removeChildren_idem; split; reflexivity.
Qed.

Lemma remove_is_idempotent_witness :
  exists w1 w2,
    remove (loaded true None false valid_child) = Ok tt w1 /\
    detached (ui (sel w1)) = true /\
    remove w1 = Ok tt w2 /\
    sel w2 = sel w1.
Proof.
  destruct (remove_is_idempotent (loaded true None false valid_child)
              (reachable_sane _ (loaded_reachable true None false valid_child)))
    as (w1 & w2 & E1 & _ & Hd & _ & E2 & Hs & _).
  exists w1, w2. split; [exact E1|]. split; [exact Hd|].
  split; [exact E2 | exact Hs].
Defined.

(** ** [hide] *)

#[global] Instance stays_hidden_preorder : PreOrder stays_hidden.
Proof.
  split; [by intros w|]. intros w1 w2 w3 [H1 H1'] [H2 H2'].
  unfold stays_hidden in *. split; tauto.
Qed.

Ltac hidden_side :=
  unfold stays_hidden; split; intros Hh; first [exact Hh | reflexivity].

Ltac hidden_step := any_step ltac:(hidden_side).

Lemma stays_hidden_run op : keeps stays_hidden (run op).
Proof. destruct op; simpl; unfold_ops; repeat hidden_step. Qed.

Lemma stays_hidden_run_all ops w : stays_hidden w (run_all ops w).
Proof.
  revert w. induction ops as [|op ops IH]; intros w; simpl.
  - reflexivity.
  - etrans; [apply (stays_hidden_run op w) | apply IH].
Qed.

(** X23. [hide()] hides the selection control and the wrapper of the
    copy and paste buttons, and does nothing else; calling it again
    changes nothing.  What it hides stays hidden: no operation of the
    widget shows the selection control or the buttons again, the
    arrival of the library list and of a schema included. *)
Theorem hide_is_permanent (w : World) (ops : list Op) :
  hide w
  = Ok tt (upd_sel (upd_ui (fun d =>
      set_copyPasteHidden true (set_select (select_hide (select d)) d))) w) /\
  hide (world_of (hide w)) = hide w /\
  hidden (select (ui (sel (run_all ops (world_of (hide w)))))) = true /\
  copyPasteHidden (ui (sel (run_all ops (world_of (hide w))))) = true.
Proof.
  split; [reflexivity|]. split; [reflexivity|].
  destruct (stays_hidden_run_all ops (world_of (hide w))) as [H1 H2].
  split; [apply H1 | apply H2]; reflexivity.
Qed.

(** ** The listeners of [change] are never taken off *)

Lemma changes_grow op w :
  exists more,
    changes (sel (world_of (run op w))) = changes (sel w) ++ more.
Proof.
  destruct op as [| | | | | | | | | | | |[cb|]| | | | | | | | | |];
    first [ by exists [cb]
          | exists []; rewrite app_nil_r;
            refine (changes_writer _ _ w); intros; discriminate ].
Qed.

(** X24. A listener given to [change(callback)] is never taken off:
    whatever operations follow, the list of listeners only grows at its
    end.  So every later load that completes calls the listener again,
    after those registered before it. *)
Theorem listeners_are_never_removed (w : World) (ops : list Op) :
  exists more, changes (sel (run_all ops w)) = changes (sel w) ++ more.
Proof.
  revert w. induction ops as [|op ops IH]; intros w; simpl.
  - exists []. by rewrite app_nil_r.
  - destruct (changes_grow op w) as (m1 & E1).
    destruct (IH (world_of (run op w))) as (m2 & E2).
    exists (m1 ++ m2). by rewrite E2, E1, app_assoc.
Qed.

(** ** The constructor *)


